(** * The annotation canvas of the documentation image annotator

    A shallow embedding of the pointer handlers, the drag commit and the
    PNG export of the Konva canvas (src/components/KonvaCanvas.jsx, its
    earlier revision that exports [exportToPNG], and the App component
    that owns the annotation list), and of the plain 2D-canvas component
    (src/components/AnnotationCanvas.jsx with its ExportButton).

    React state is passed explicitly: every handler is a function from
    the state the render closed over to the state after its setters ran.
    What the browser supplies (pointer position, the answer of
    [prompt], the value of [Date.now()], the container size) is carried
    by the event. *)

From Stdlib Require Import ZArith List String Ascii Bool Lia.
From Stdlib Require Import DecimalString DecimalZ.
From Stdlib Require Import Reals Lra.
Import ListNotations.
Local Open Scope Z_scope.

(** ** JavaScript values used by the canvas *)

(** The tool ids of App's [tools] table; [annotation.type] and
    [tempShape.type] hold the same strings. *)
Inductive toolId : Type := Select | Marker | Text | Rect | Circle.

Definition tool_eqb (a b : toolId) : bool :=
  match a, b with
  | Select, Select | Marker, Marker | Text, Text
  | Rect, Rect | Circle, Circle => true
  | _, _ => false
  end.

Definition tool_name (t : toolId) : string :=
  match t with
  | Select => "select"
  | Marker => "marker"
  | Text => "text"
  | Rect => "rect"
  | Circle => "circle"
  end.

(** Keys of ANNOTATION_STYLES. *)
Inductive styleTag : Type := primary | warning | info.

(** The two Konva revisions differ in constants only; [Current] is
    src/components/KonvaCanvas.jsx (forwardRef, [exportCanvasToPNG]),
    [Earlier] is the revision whose export is [exportToPNG]. *)
Inductive revision : Type := Current | Earlier.

(** An annotation id is a template string in [Current] and the number
    [Date.now()] in [Earlier]; [===] never identifies a string with a
    number. *)
Inductive ident : Type :=
| IdString (s : string)
| IdNumber (n : Z).

Definition strict_eq (a b : ident) : bool :=
  match a, b with
  | IdString s, IdString t => String.eqb s t
  | IdNumber n, IdNumber m => Z.eqb n m
  | _, _ => false
  end.

(** Number-to-string conversion of an integer, as a template literal
    performs it. *)
Definition decimal (n : Z) : string := NilEmpty.string_of_int (Z.to_int n).

Definition mkId (r : revision) (t : toolId) (now : Z) : ident :=
  match r with
  | Current => IdString (tool_name t ++ "-" ++ decimal now)
  | Earlier => IdNumber now
  end.

(** Pointer coordinates are whole canvas units.  The one irrational
    quantity of the program, the circle radius
    [Math.sqrt(Math.pow(dx, 2) + Math.pow(dy, 2))], is kept exactly, as the
    square root of its integer radicand. *)
Record sqrtval : Type := Msqrt { radicand : Z }.

Definition radius_value (s : sqrtval) : R := sqrt (IZR (radicand s)).

(** [s > t] for a threshold [t]. *)
Definition sqrt_gtb (s : sqrtval) (t : Z) : bool :=
  if t <? 0 then 0 <=? radicand s else t * t <? radicand s.

(** [v > t] where [v] may be [undefined]: the comparison with
    [undefined] is false. *)
Definition gt_undef (v : option Z) (t : Z) : bool :=
  match v with
  | Some n => t <? n
  | None => false
  end.

Definition sqrt_gt_undef (v : option sqrtval) (t : Z) : bool :=
  match v with
  | Some s => sqrt_gtb s t
  | None => false
  end.

(** [prompt(...)] answers a string, or [null] when it is cancelled. *)
Definition truthy (s : string) : bool := negb (String.eqb s "").

(** [v || ''] *)
Definition or_empty (v : option string) : string :=
  match v with
  | Some s => if truthy s then s else ""%string
  | None => ""%string
  end.

(** ** The annotation record

    One object type with the keys the four object literals of the
    handlers write; a key an object does not have reads [None]
    ([undefined]). *)
Record annotation : Type := mkAnnotation {
  ann_id : ident;
  ann_type : toolId;
  ann_x : option Z;
  ann_y : option Z;
  ann_number : option Z;
  ann_label : option string;
  ann_style : option styleTag;
  ann_text : option string;
  ann_width : option Z;
  ann_height : option Z;
  ann_radius : option sqrtval
}.

(** [{ ...ann, ...newProps }]: every key of [newProps] wins; [id] and
    [type] are keys of every annotation object. *)
Definition over {A : Type} (new old : option A) : option A :=
  match new with
  | Some _ => new
  | None => old
  end.

Definition spread (ann newProps : annotation) : annotation :=
  {| ann_id := ann_id newProps;
     ann_type := ann_type newProps;
     ann_x := over (ann_x newProps) (ann_x ann);
     ann_y := over (ann_y newProps) (ann_y ann);
     ann_number := over (ann_number newProps) (ann_number ann);
     ann_label := over (ann_label newProps) (ann_label ann);
     ann_style := over (ann_style newProps) (ann_style ann);
     ann_text := over (ann_text newProps) (ann_text ann);
     ann_width := over (ann_width newProps) (ann_width ann);
     ann_height := over (ann_height newProps) (ann_height ann);
     ann_radius := over (ann_radius newProps) (ann_radius ann) |}.

(** [{ ...annotation, x: e.target.x(), y: e.target.y() }] *)
Definition moved (a : annotation) (nx ny : Z) : annotation :=
  {| ann_id := ann_id a;
     ann_type := ann_type a;
     ann_x := Some nx;
     ann_y := Some ny;
     ann_number := ann_number a;
     ann_label := ann_label a;
     ann_style := ann_style a;
     ann_text := ann_text a;
     ann_width := ann_width a;
     ann_height := ann_height a;
     ann_radius := ann_radius a |}.

(** ** The transient preview, [tempShape] *)
Record tempShapeT : Type := mkTemp {
  ts_type : toolId;
  startX : Z;
  startY : Z;
  ts_x : option Z;
  ts_y : option Z;
  ts_width : option Z;
  ts_height : option Z;
  ts_radius : option sqrtval
}.

Record size : Type := mkSize { width : Z; height : Z }.

(** The decoded base image: its intrinsic pixel size. *)
Record bitmap : Type := mkBitmap { naturalWidth : Z; naturalHeight : Z }.

(** ** State: App's [image], [tool], [annotations] and the canvas
    component's [selectedId], [isDrawing], [tempShape], [dimensions].
    [image] stands for App's [image] together with the bitmap [useImage]
    decodes from its [src]. *)
Record state : Type := mkState {
  image : option bitmap;
  tool : toolId;
  annotations : list annotation;
  selectedId : option ident;
  isDrawing : bool;
  tempShape : option tempShapeT;
  dimensions : size
}.

Definition setAnnotations (st : state) (l : list annotation) : state :=
  {| image := image st; tool := tool st; annotations := l;
     selectedId := selectedId st; isDrawing := isDrawing st;
     tempShape := tempShape st; dimensions := dimensions st |}.

Definition setSelectedId (st : state) (s : option ident) : state :=
  {| image := image st; tool := tool st; annotations := annotations st;
     selectedId := s; isDrawing := isDrawing st;
     tempShape := tempShape st; dimensions := dimensions st |}.

Definition setDrawing (st : state) (b : bool) (t : option tempShapeT) : state :=
  {| image := image st; tool := tool st; annotations := annotations st;
     selectedId := selectedId st; isDrawing := b;
     tempShape := t; dimensions := dimensions st |}.

Definition setTool (st : state) (t : toolId) : state :=
  {| image := image st; tool := t; annotations := annotations st;
     selectedId := selectedId st; isDrawing := isDrawing st;
     tempShape := tempShape st; dimensions := dimensions st |}.

Definition setDimensions (st : state) (d : size) : state :=
  {| image := image st; tool := tool st; annotations := annotations st;
     selectedId := selectedId st; isDrawing := isDrawing st;
     tempShape := tempShape st; dimensions := d |}.

(** The constants in which the two revisions differ. *)
Definition threshold (r : revision) : Z :=
  match r with Current => 10 | Earlier => 5 end.

Definition pixelRatio (r : revision) : Z :=
  match r with Current => 2 | Earlier => 1 end.

Definition initialDimensions (r : revision) : size :=
  match r with
  | Current => mkSize 800 600
  | Earlier => mkSize 1000 800
  end.

Definition isMarker (a : annotation) : bool := tool_eqb (ann_type a) Marker.

(** ** Handlers of the Konva canvas *)

(** [stage.getPointerPosition()]; Konva records the pointer position
    before it dispatches a pointer event, so inside these handlers it is
    an object. *)
Record point : Type := mkPoint { px : Z; py : Z }.

Definition setIsDrawing (st : state) (b : bool) : state :=
  setDrawing st b (tempShape st).

Definition setTempShape (st : state) (t : option tempShapeT) : state :=
  setDrawing st (isDrawing st) t.

(** [tempShape] as pointer-down writes it: [Current] sets the type and
    the start point only, [Earlier] also zeroes the extent. *)
Definition startShape (r : revision) (t : toolId) (p : point) : tempShapeT :=
  match r with
  | Current =>
      {| ts_type := t; startX := px p; startY := py p;
         ts_x := None; ts_y := None; ts_width := None; ts_height := None;
         ts_radius := None |}
  | Earlier =>
      {| ts_type := t; startX := px p; startY := py p;
         ts_x := Some (px p); ts_y := Some (py p);
         ts_width := Some 0; ts_height := Some 0;
         ts_radius := Some (Msqrt 0) |}
  end.

(** [handleStageMouseDown] ([handleMouseDown] in [Earlier]), for an event
    whose target is the stage itself; [response] is what [prompt]
    returns and [now] what [Date.now()] returns if the branch taken calls
    them. *)
Definition handleStageMouseDown (r : revision) (st : state) (p : point)
    (response : option string) (now : Z) : state :=
  let st := setSelectedId st None in
  match tool st with
  | Marker =>
      let number :=
        Z.of_nat (List.length (filter isMarker (annotations st))) + 1 in
      let label := or_empty response in
      setAnnotations st
        (annotations st ++
         [{| ann_id := mkId r Marker now;
             ann_type := Marker;
             ann_x := Some (px p);
             ann_y := Some (py p);
             ann_number := Some number;
             ann_label := Some label;
             ann_style := Some primary;
             ann_text := None; ann_width := None; ann_height := None;
             ann_radius := None |}])
  | Text =>
      match response with
      | Some text =>
          if truthy text then
            setAnnotations st
              (annotations st ++
               [{| ann_id := mkId r Text now;
                   ann_type := Text;
                   ann_x := Some (px p);
                   ann_y := Some (py p);
                   ann_number := None; ann_label := None; ann_style := None;
                   ann_text := Some text;
                   ann_width := None; ann_height := None;
                   ann_radius := None |}])
          else st
      | None => st
      end
  | Rect | Circle =>
      setTempShape (setIsDrawing st true) (Some (startShape r (tool st) p))
  | Select => st
  end.

(** [handleStageMouseMove] ([handleMouseMove]).  [isDrawing] and
    [tempShape] are always set together, so a null [tempShape] under
    [isDrawing] does not occur; the function returns the state unchanged
    there, as [Earlier] does. *)
Definition handleStageMouseMove (st : state) (p : point) : state :=
  if negb (isDrawing st) then st else
  match tempShape st with
  | None => st
  | Some ts =>
      match ts_type ts with
      | Rect =>
          setTempShape st
            (Some {| ts_type := ts_type ts;
                     startX := startX ts;
                     startY := startY ts;
                     ts_x := Some (Z.min (px p) (startX ts));
                     ts_y := Some (Z.min (py p) (startY ts));
                     ts_width := Some (Z.abs (px p - startX ts));
                     ts_height := Some (Z.abs (py p - startY ts));
                     ts_radius := ts_radius ts |})
      | Circle =>
          let radius :=
            Msqrt ((px p - startX ts) ^ 2 + (py p - startY ts) ^ 2) in
          setTempShape st
            (Some {| ts_type := ts_type ts;
                     startX := startX ts;
                     startY := startY ts;
                     ts_x := ts_x ts;
                     ts_y := ts_y ts;
                     ts_width := ts_width ts;
                     ts_height := ts_height ts;
                     ts_radius := Some radius |})
      | _ => st
      end
  end.

(** [handleStageMouseUp] ([handleMouseUp]). *)
Definition handleStageMouseUp (r : revision) (st : state) (now : Z) : state :=
  if negb (isDrawing st) then st else
  match tempShape st with
  | None => st
  | Some ts =>
      let st' :=
        if tool_eqb (ts_type ts) Rect
           && gt_undef (ts_width ts) (threshold r)
           && gt_undef (ts_height ts) (threshold r)
        then
          setAnnotations st
            (annotations st ++
             [{| ann_id := mkId r Rect now;
                 ann_type := Rect;
                 ann_x := ts_x ts;
                 ann_y := ts_y ts;
                 ann_number := None; ann_label := None;
                 ann_style := Some warning;
                 ann_text := None;
                 ann_width := ts_width ts;
                 ann_height := ts_height ts;
                 ann_radius := None |}])
        else if tool_eqb (ts_type ts) Circle
                && sqrt_gt_undef (ts_radius ts) (threshold r)
        then
          setAnnotations st
            (annotations st ++
             [{| ann_id := mkId r Circle now;
                 ann_type := Circle;
                 ann_x := Some (startX ts);
                 ann_y := Some (startY ts);
                 ann_number := None; ann_label := None;
                 ann_style := Some warning;
                 ann_text := None;
                 ann_width := None; ann_height := None;
                 ann_radius := ts_radius ts |}])
        else st
      in
      setTempShape (setIsDrawing st' false) None
  end.

(** [handleAnnotationChange(id, newProps)] *)
Definition handleAnnotationChange (st : state) (id : ident)
    (newProps : annotation) : state :=
  setAnnotations st
    (map (fun ann => if strict_eq (ann_id ann) id then spread ann newProps
                     else ann)
         (annotations st)).

(** The [onDragEnd] of the component rendered for the [i]-th list entry:
    [onChange({...annotation, x: e.target.x(), y: e.target.y()})], where
    [onChange] is [handleAnnotationChange(annotation.id, _)]. *)
Definition onDragEnd (st : state) (i : nat) (p : point) : state :=
  match nth_error (annotations st) i with
  | Some annotation =>
      handleAnnotationChange st (ann_id annotation)
        (moved annotation (px p) (py p))
  | None => st
  end.

(** [onSelect] of the [i]-th entry. *)
Definition onSelect (st : state) (i : nat) : state :=
  match nth_error (annotations st) i with
  | Some annotation => setSelectedId st (Some (ann_id annotation))
  | None => st
  end.

(** [handleStageClick] on the stage background; [Earlier] binds no click
    handler to the stage. *)
Definition handleStageClick (r : revision) (st : state) : state :=
  match r with
  | Current => setSelectedId st None
  | Earlier => st
  end.

(** ** App: image loading, clearing *)

(** The canvas component's own state as a fresh mount has it, after the
    mount effect measured the container. *)
Definition mountCanvas (st : state) (container : size) : state :=
  {| image := image st; tool := tool st; annotations := annotations st;
     selectedId := None; isDrawing := false; tempShape := None;
     dimensions := container |}.

Definition setImage (st : state) (im : option bitmap) : state :=
  {| image := im; tool := tool st; annotations := annotations st;
     selectedId := selectedId st; isDrawing := isDrawing st;
     tempShape := tempShape st; dimensions := dimensions st |}.

(** [loadImageFromFile], once the reader has the file: the canvas is
    mounted by the next render if it was not. *)
Definition loadImageFromFile (st : state) (im : bitmap) (container : size)
    : state :=
  let st' := setAnnotations (setImage st (Some im)) [] in
  match image st with
  | None => mountCanvas st' container
  | Some _ => st'
  end.

Definition handleClearAnnotations (st : state) (confirmed : bool) : state :=
  if confirmed then setAnnotations st [] else st.

(** [handleNewImage]; [Current] asks for confirmation when there are
    annotations.  The canvas is unmounted with the image. *)
Definition handleNewImage (r : revision) (st : state) (confirmed : bool)
    : state :=
  let go :=
    {| image := None; tool := tool st; annotations := [];
       selectedId := None; isDrawing := false; tempShape := None;
       dimensions := initialDimensions r |} in
  match r with
  | Current =>
      if (0 <? Z.of_nat (List.length (annotations st))) && negb confirmed
      then st else go
  | Earlier => go
  end.

Definition init (r : revision) : state :=
  {| image := None; tool := Marker; annotations := [];
     selectedId := None; isDrawing := false; tempShape := None;
     dimensions := initialDimensions r |}.

(** ** Events *)
Inductive event : Type :=
| LoadImage (im : bitmap) (container : size)
| NewImage (confirmed : bool)
| ClearAnnotations (confirmed : bool)
| SetTool (t : toolId)
| Resize (container : size)
| StageClick
| AnnotationClick (i : nat)
| StageMouseDown (p : point) (response : option string) (now : Z)
| StageMouseMove (p : point)
| StageMouseUp (now : Z)
| DragMove (i : nat) (p : point)
| DragEnd (i : nat) (p : point)
| ExportClick (timestamp : string).

(** One event, handled to completion.  Without an image App renders the
    upload screen only: no stage, no toolbar, no action buttons.  The
    components bind no handler to the moves of a drag ([DragMove]):
    Konva moves the node on screen and no state is set. *)
Definition step (r : revision) (st : state) (ev : event) : state :=
  match ev, image st with
  | LoadImage im container, _ => loadImageFromFile st im container
  | _, None => st
  | NewImage c, Some _ => handleNewImage r st c
  | ClearAnnotations c, Some _ => handleClearAnnotations st c
  | SetTool t, Some _ => setTool st t
  | Resize d, Some _ => setDimensions st d
  | StageClick, Some _ => handleStageClick r st
  | AnnotationClick i, Some _ => onSelect st i
  | StageMouseDown p response now, Some _ =>
      handleStageMouseDown r st p response now
  | StageMouseMove p, Some _ => handleStageMouseMove st p
  | StageMouseUp now, Some _ => handleStageMouseUp r st now
  | DragMove _ _, Some _ => st
  | DragEnd i p, Some _ => onDragEnd st i p
  | ExportClick _, Some _ => st
  end.

Definition run (r : revision) (st : state) (evs : list event) : state :=
  fold_left (step r) evs st.

(** The annotations an event appended to the list. *)
Definition created (r : revision) (st : state) (ev : event)
    : list annotation :=
  let old := annotations st in
  let new := annotations (step r st ev) in
  if (List.length old <? List.length new)%nat then skipn (List.length old) new
  else [].

(** Every annotation created along a run, in creation order. *)
Fixpoint history (r : revision) (st : state) (evs : list event)
    : list annotation :=
  match evs with
  | [] => []
  | ev :: evs' => created r st ev ++ history r (step r st ev) evs'
  end.

(** ** Export *)

Record stage : Type := mkStage { stage_width : Z; stage_height : Z }.

Record raster : Type := mkRaster { raster_width : Z; raster_height : Z }.

(** Konva's [Stage.toDataURL({ pixelRatio })]: the stage area, [width] by
    [height] of the stage, drawn on a canvas of [width * pixelRatio] by
    [height * pixelRatio] pixels. *)
Definition toDataURL (s : stage) (ratio : Z) : raster :=
  {| raster_width := stage_width s * ratio;
     raster_height := stage_height s * ratio |}.

(** What [link.click()] hands to the browser. *)
Record download : Type := mkDownload { filename : string; href : raster }.

(** [exportCanvasToPNG] ([exportToPNG]); [None]: returned before any
    DOM call. *)
Definition exportCanvasToPNG (r : revision) (stageRef : option stage)
    (name : string) : option download :=
  match stageRef with
  | None => None
  | Some current =>
      let uri := toDataURL current (pixelRatio r) in
      Some {| filename := name; href := uri |}
  end.

(** [canvasRef.current].  [Current] forwards the ref to the [Stage], which
    is mounted while App has an image; the stage is sized by
    [dimensions].  [Earlier]'s component keeps a ref of its own and App
    passes it none. *)
Definition canvasRef (r : revision) (st : state) : option stage :=
  match r with
  | Current =>
      match image st with
      | Some _ =>
          Some {| stage_width := width (dimensions st);
                  stage_height := height (dimensions st) |}
      | None => None
      end
  | Earlier => None
  end.

(** App's [handleExport]; [timestamp] is the ISO date string with its
    colons and periods replaced and its tail cut.  (The current App
    disables the button that calls it while the list is empty; the
    function itself does not look at the list.) *)
Definition handleExport (r : revision) (st : state) (timestamp : string)
    : option download :=
  exportCanvasToPNG r (canvasRef r st)
    ("annotated-" ++ timestamp ++ ".png").

(** ** Rendering of a committed circle *)

(** A Konva [Circle] node; its [x], [y] is the centre of the circle. *)
Record circleNode : Type := mkCircleNode {
  centre_x : option Z;
  centre_y : option Z;
  node_radius : option sqrtval
}.

(** [CircleAnnotation]: [<Circle x={annotation.x} y={annotation.y}
    radius={annotation.radius} ... />] *)
Definition CircleAnnotation (annotation : annotation) : circleNode :=
  {| centre_x := ann_x annotation;
     centre_y := ann_y annotation;
     node_radius := ann_radius annotation |}.

(** ** The 2D-canvas component, src/components/AnnotationCanvas.jsx

    Its coordinates are products with the ratio of canvas size to
    displayed size, so they are real numbers here. *)
Module AnnotationCanvas.

Local Open Scope R_scope.

(** The four object literals of the handlers; these objects are never
    merged, so each is a variant of its own. *)
Inductive annotation : Type :=
| MarkerA (x y : R) (number : Z) (label : string)
| TextA (x y : R) (text : string)
| RectA (x y width height : R)
| CircleA (x y radius : R).

Record mouseEvent : Type := mkMouse { clientX : R; clientY : R }.

(** [canvas.getBoundingClientRect()] *)
Record domRect : Type :=
  mkRect { left : R; top : R; rect_width : R; rect_height : R }.

Record state : Type := mkState {
  image : option bitmap;
  (** [canvasRef.current]: the canvas element with its [width] and
      [height] attributes, [None] while the ref is null *)
  canvas : option size;
  tool : toolId;
  annotations : list annotation;
  isDragging : bool;
  dragStart : option (R * R);
  markerCounter : Z
}.

Definition setAnnotations (st : state) (l : list annotation) : state :=
  {| image := image st; canvas := canvas st; tool := tool st;
     annotations := l; isDragging := isDragging st;
     dragStart := dragStart st; markerCounter := markerCounter st |}.

Definition setMarkerCounter (st : state) (n : Z) : state :=
  {| image := image st; canvas := canvas st; tool := tool st;
     annotations := annotations st; isDragging := isDragging st;
     dragStart := dragStart st; markerCounter := n |}.

Definition setDrag (st : state) (b : bool) (d : option (R * R)) : state :=
  {| image := image st; canvas := canvas st; tool := tool st;
     annotations := annotations st; isDragging := b;
     dragStart := d; markerCounter := markerCounter st |}.

Definition setCanvas (st : state) (c : option size) : state :=
  {| image := image st; canvas := c; tool := tool st;
     annotations := annotations st; isDragging := isDragging st;
     dragStart := dragStart st; markerCounter := markerCounter st |}.

(** [(e.clientX - rect.left) * (canvas.width / rect.width)] and the
    same for [y]. *)
Definition canvasX (e : mouseEvent) (rect : domRect) (c : size) : R :=
  (clientX e - left rect) * (IZR (width c) / rect_width rect).

Definition canvasY (e : mouseEvent) (rect : domRect) (c : size) : R :=
  (clientY e - top rect) * (IZR (height c) / rect_height rect).

(** The handlers below read [canvasRef.current]; the canvas element is
    the one that dispatches the event, so the ref is set, and a null
    ref leaves the state as it is here. *)

(** [handleCanvasClick] *)
Definition handleCanvasClick (st : state) (e : mouseEvent)
    (rect : domRect) (response : option string) : state :=
  match canvas st with
  | None => st
  | Some c =>
    let x := canvasX e rect c in
    let y := canvasY e rect c in
    match tool st with
    | Marker =>
        let label := response in
        setMarkerCounter
          (setAnnotations st
             (annotations st ++
              [MarkerA x y (markerCounter st) (or_empty label)]))
          (markerCounter st + 1)%Z
    | Text =>
        match response with
        | Some text =>
            if truthy text
            then setAnnotations st (annotations st ++ [TextA x y text])
            else st
        | None => st
        end
    | _ => st
    end
  end.

Definition handleCanvasMouseDown (st : state) (e : mouseEvent)
    (rect : domRect) : state :=
  match tool st with
  | Rect | Circle =>
      match canvas st with
      | None => st
      | Some c =>
          setDrag st true (Some (canvasX e rect c, canvasY e rect c))
      end
  | _ => st
  end.

Definition handleCanvasMouseUp (st : state) (e : mouseEvent)
    (rect : domRect) : state :=
  match canvas st with
  | None => st
  | Some c =>
    match isDragging st, dragStart st, tool st with
    | true, Some (sx, sy), Rect =>
        let x := canvasX e rect c in
        let y := canvasY e rect c in
        let width := x - sx in
        let height := y - sy in
        setDrag
          (setAnnotations st
             (annotations st ++
              [RectA (Rmin sx x) (Rmin sy y) (Rabs width) (Rabs height)]))
          false None
    | true, Some (sx, sy), Circle =>
        let x := canvasX e rect c in
        let y := canvasY e rect c in
        let radius := sqrt ((x - sx) ^ 2 + (y - sy) ^ 2) in
        setDrag
          (setAnnotations st
             (annotations st ++
              [CircleA (sx - radius) (sy - radius) radius]))
          false None
    | _, _, _ => st
    end
  end.

(** The arc [drawCircle] strokes: centre and radius. *)
Record arc : Type := mkArc { arc_x : R; arc_y : R; arc_radius : R }.

(** [drawCircle]: [ctx.arc(annotation.x + annotation.radius,
    annotation.y + annotation.radius, annotation.radius, 0, 2 * Math.PI)] *)
Definition drawCircle (x y radius : R) : arc :=
  {| arc_x := x + radius; arc_y := y + radius; arc_radius := radius |}.

(** [drawCanvas], when the image has loaded: the canvas takes the
    intrinsic size of the image. *)
Definition drawCanvas (st : state) : state :=
  match canvas st, image st with
  | Some _, Some img =>
      setCanvas st (Some (mkSize (naturalWidth img) (naturalHeight img)))
  | _, _ => st
  end.

(** ExportButton's [handleExport]: [canvas.toBlob] encodes the canvas at
    its own [width] by [height]. *)
Definition handleExport (st : state) (timestamp : string)
    : option download :=
  match canvas st with
  | None => None
  | Some c =>
      Some {| filename := "annotated-image-" ++ timestamp ++ ".png";
              href := {| raster_width := width c;
                         raster_height := height c |} |}
  end.

End AnnotationCanvas.

(** ** Vocabulary of the statements *)

Definition ids (l : list annotation) : list ident := map ann_id l.

Definition markers (l : list annotation) : list annotation :=
  filter isMarker l.

(** The reading of [Date.now()] an event supplies, if any. *)
Definition clockOf (ev : event) : list Z :=
  match ev with
  | StageMouseDown _ _ now => [now]
  | StageMouseUp now => [now]
  | _ => []
  end.

(** The readings of [Date.now()] that went into an id: those of the
    events that created an annotation. *)
Fixpoint creationClocks (r : revision) (st : state) (evs : list event)
    : list Z :=
  match evs with
  | [] => []
  | ev :: evs' =>
      match created r st ev with
      | [] => []
      | _ :: _ => clockOf ev
      end ++ creationClocks r (step r st ev) evs'
  end.

(** No two creating events of the run read the same clock value. *)
Definition clock_never_repeats (r : revision) (evs : list event) : Prop :=
  NoDup (creationClocks r (init r) evs).

(** What goes into an id: the type of the annotation an event created
    and the reading of [Date.now()] it was created at, for every
    creating event of the run in order. *)
Fixpoint creationStamps (r : revision) (st : state) (evs : list event)
    : list (toolId * Z) :=
  match evs with
  | [] => []
  | ev :: evs' =>
      match created r st ev, clockOf ev with
      | a :: _, now :: _ => [(ann_type a, now)]
      | _, _ => []
      end ++ creationStamps r (step r st ev) evs'
  end.

(** The part of a stamp the id depends on: type and reading in the
    current revision ([`${type}-${Date.now()}`]), the reading alone in
    the earlier one ([Date.now()]). *)
Definition stampKey (r : revision) (s : toolId * Z) : option toolId * Z :=
  match r with
  | Current => (Some (fst s), snd s)
  | Earlier => (None, snd s)
  end.

(** The id made from a stamp. *)
Definition stampId (r : revision) (s : toolId * Z) : ident :=
  mkId r (fst s) (snd s).

(** No two annotations of the same type (of any type, in the earlier
    revision) were created at the same clock reading. *)
Definition stamps_never_repeat (r : revision) (evs : list event) : Prop :=
  NoDup (map (stampKey r) (creationStamps r (init r) evs)).

(** Events that neither remove list entries (load, new image, clear) nor
    edit them (drag end). *)
Definition creation_only (ev : event) : bool :=
  match ev with
  | LoadImage _ _ | NewImage _ | ClearAnnotations _ | DragEnd _ _ => false
  | _ => true
  end.

(** A drag on the stage background: pointer-down at [p0], the pointer
    moves, pointer-up. *)
Definition dragMoves (p0 : point) (response : option string) (now0 : Z)
    (moves : list point) : list event :=
  StageMouseDown p0 response now0 :: map StageMouseMove moves.

Definition dragSequence (p0 : point) (response : option string) (now0 : Z)
    (moves : list point) (now : Z) : list event :=
  dragMoves p0 response now0 moves ++ [StageMouseUp now].

(** The preview exceeds the minimum size: for a rect, width and height
    are both greater than the threshold; for a circle, the radius is. *)
Definition exceeds (r : revision) (ts : tempShapeT) : Prop :=
  match ts_type ts with
  | Rect =>
      exists w h, ts_width ts = Some w /\ ts_height ts = Some h /\
                  threshold r < w /\ threshold r < h
  | Circle =>
      exists s, ts_radius ts = Some s /\
                (IZR (threshold r) < radius_value s)%R
  | _ => False
  end.

(** The rect and circle objects pointer-up appends. *)
Definition rectOf (i : ident) (x y w h : Z) : annotation :=
  {| ann_id := i; ann_type := Rect;
     ann_x := Some x; ann_y := Some y;
     ann_number := None; ann_label := None; ann_style := Some warning;
     ann_text := None;
     ann_width := Some w; ann_height := Some h; ann_radius := None |}.

Definition circleOf (i : ident) (x y : Z) (s : sqrtval) : annotation :=
  {| ann_id := i; ann_type := Circle;
     ann_x := Some x; ann_y := Some y;
     ann_number := None; ann_label := None; ann_style := Some warning;
     ann_text := None;
     ann_width := None; ann_height := None; ann_radius := Some s |}.

Definition markerOf (i : ident) (x y number : Z) (label : string)
    : annotation :=
  {| ann_id := i; ann_type := Marker;
     ann_x := Some x; ann_y := Some y;
     ann_number := Some number; ann_label := Some label;
     ann_style := Some primary;
     ann_text := None;
     ann_width := None; ann_height := None; ann_radius := None |}.

Definition textOf (i : ident) (x y : Z) (t : string) : annotation :=
  {| ann_id := i; ann_type := Text;
     ann_x := Some x; ann_y := Some y;
     ann_number := None; ann_label := None; ann_style := None;
     ann_text := Some t;
     ann_width := None; ann_height := None; ann_radius := None |}.

(** The committed annotation carries the geometry of the preview: the
    box of a rect preview; the start point and the radius of a circle
    preview. *)
Definition commits (ts : tempShapeT) (a : annotation) : Prop :=
  ann_type a = ts_type ts /\
  match ts_type ts with
  | Rect =>
      ann_x a = ts_x ts /\ ann_y a = ts_y ts /\
      ann_width a = ts_width ts /\ ann_height a = ts_height ts
  | Circle =>
      ann_x a = Some (startX ts) /\ ann_y a = Some (startY ts) /\
      ann_radius a = ts_radius ts
  | _ => False
  end.

(** [st] is [st0] with a drag in progress whose preview is [ts]. *)
Definition previewing (st0 st : state) (ts : tempShapeT) : Prop :=
  st = setDrawing (setSelectedId st0 None) true (Some ts).

(** States and inputs of the worked scenarios: an 800 by 600 image shown
    in a 1024 by 768 container. *)
Definition screenshot : bitmap := mkBitmap 800 600.

Definition viewport : size := mkSize 1024 768.

Definition loaded (r : revision) (t : toolId) : state :=
  run r (init r) [LoadImage screenshot viewport; SetTool t].

(** The 2D-canvas component with the same image drawn and tool [t]
    chosen; the canvas element starts at the default 300 by 150. *)
Definition plainLoaded (t : toolId) : AnnotationCanvas.state :=
  AnnotationCanvas.drawCanvas
    {| AnnotationCanvas.image := Some screenshot;
       AnnotationCanvas.canvas := Some (mkSize 300 150);
       AnnotationCanvas.tool := t;
       AnnotationCanvas.annotations := [];
       AnnotationCanvas.isDragging := false;
       AnnotationCanvas.dragStart := None;
       AnnotationCanvas.markerCounter := 1 |}.

(** The canvas displayed at its own size, at the origin of the
    viewport. *)
Definition shownAtOwnSize : AnnotationCanvas.domRect :=
  AnnotationCanvas.mkRect 0 0 800 600.

(** A circle drag in progress there, begun at client position (50, 50). *)
Definition plainDragging : AnnotationCanvas.state :=
  AnnotationCanvas.handleCanvasMouseDown (plainLoaded Circle)
    (AnnotationCanvas.mkMouse 50 50) shownAtOwnSize.

(** Two rect drags whose pointer-ups read the same value of
    [Date.now()].  The 800 by 600 image is centred in the 1024 by 768
    stage, where it covers x from 112 to 912 and y from 84 to 684; both
    drags begin on the stage background beside it, the first at
    (10, 10) in the left margin and the second at (920, 100) in the
    right margin, so that [handleStageMouseDown] passes its target
    test. *)
Definition twinRects : state :=
  run Current (loaded Current Rect)
    (dragSequence (mkPoint 10 10) None 1700000000000 [mkPoint 100 80]
       1700000000001 ++
     dragSequence (mkPoint 920 100) None 1700000000001 [mkPoint 1000 160]
       1700000000001).

(** The export scenario: two markers on the 800 by 600 image in the
    1024 by 768 container. *)
Definition twoMarkers (r : revision) : state :=
  run r (loaded r Marker)
    [StageMouseDown (mkPoint 100 100) (Some "Submit"%string) 1000;
     StageMouseDown (mkPoint 200 50) (Some ""%string) 2000].

(** ** The render loop of the Konva canvas *)

(** [annotation.id === selectedId] *)
Definition isSelected (st : state) (annotation : annotation) : bool :=
  match selectedId st with
  | Some s => strict_eq (ann_id annotation) s
  | None => false
  end.

Record palette : Type :=
  mkPalette { fill : string; stroke : string; textColor : string }.

Definition ANNOTATION_STYLES (tag : styleTag) : palette :=
  match tag with
  | primary => mkPalette "#3b82f6" "#2563eb" "#ffffff"
  | warning => mkPalette "#f59e0b" "#d97706" "#ffffff"
  | info => mkPalette "#06b6d4" "#0891b2" "#ffffff"
  end.

(** [annotation.style || d] *)
Definition styleOr (annotation : annotation) (d : styleTag) : styleTag :=
  match ann_style annotation with
  | Some s => s
  | None => d
  end.

(** [s.length]: the number of UTF-16 code units of a string.  A string
    is held here as the bytes of its UTF-8 encoding.  A character below
    U+10000 is one code unit and is encoded by one lead byte followed by
    up to two continuation bytes ([10xxxxxx], 128 to 191); a character
    from U+10000 on is a surrogate pair, two code units, and is encoded
    by the lead byte [11110xxx] (240 and above) followed by three
    continuation bytes. *)
Definition isContinuationByte (c : ascii) : bool :=
  (128 <=? nat_of_ascii c)%nat && (nat_of_ascii c <? 192)%nat.

Definition isFourByteLead (c : ascii) : bool :=
  (240 <=? nat_of_ascii c)%nat.

Definition codeUnits (c : ascii) : nat :=
  if isContinuationByte c then 0%nat
  else if isFourByteLead c then 2%nat
  else 1%nat.

Fixpoint jsLength (s : string) : nat :=
  match s with
  | EmptyString => 0%nat
  | String c s' => (codeUnits c + jsLength s')%nat
  end.

(** All characters of the string are ASCII. *)
Fixpoint isAscii (s : string) : bool :=
  match s with
  | EmptyString => true
  | String c s' => (nat_of_ascii c <? 128)%nat && isAscii s'
  end.

(** The width of the label pill: [Math.max(label.length * 8 + 16, 80)],
    without the minimum in the earlier revision. *)
Definition labelWidth (r : revision) (label : string) : Z :=
  match r with
  | Current => Z.max (Z.of_nat (jsLength label) * 8 + 16) 80
  | Earlier => Z.of_nat (jsLength label) * 8 + 16
  end.

Record pill : Type :=
  mkPill { pill_width : Z; pill_height : Z; pill_text : string }.

(** What [NumberMarker] draws: the circle, the numeral, and the label
    pill when there is one. *)
Record markerNode : Type := mkMarkerNode {
  marker_x : option Z;
  marker_y : option Z;
  marker_radius : Z;
  marker_fill : string;
  marker_stroke : string;
  marker_strokeWidth : Z;
  marker_numeral : option string;
  marker_pill : option pill
}.

(** [NumberMarker]; [{annotation.label && (...)}] draws the pill for a
    non-empty label only. *)
Definition NumberMarker (r : revision) (annotation : annotation)
    (selected : bool) : markerNode :=
  let style := ANNOTATION_STYLES (styleOr annotation primary) in
  {| marker_x := ann_x annotation;
     marker_y := ann_y annotation;
     marker_radius := 24;
     marker_fill := fill style;
     marker_stroke := if selected then "#ffffff"%string else stroke style;
     marker_strokeWidth := if selected then 4 else 2;
     marker_numeral := option_map decimal (ann_number annotation);
     marker_pill :=
       match ann_label annotation with
       | Some label =>
           if truthy label
           then Some {| pill_width := labelWidth r label;
                        pill_height := 32;
                        pill_text := label |}
           else None
       | None => None
       end |}.

(** The live preview of the shape being drawn: its geometry, [None]
    when the render draws no preview.  The current revision draws a rect
    preview only when [tempShape.width > 0] and a circle preview only
    when [tempShape.radius > 0]; the earlier revision has no such
    test. *)
Inductive previewNode : Type :=
| PreviewRect (x y w h : option Z)
| PreviewCircle (x y : Z) (radius : option sqrtval).

Definition livePreview (r : revision) (st : state) : option previewNode :=
  if isDrawing st then
    match tempShape st with
    | Some ts =>
        match ts_type ts with
        | Rect =>
            let shown :=
              match r with
              | Current => gt_undef (ts_width ts) 0
              | Earlier => true
              end in
            if shown
            then Some (PreviewRect (ts_x ts) (ts_y ts)
                         (ts_width ts) (ts_height ts))
            else None
        | Circle =>
            let shown :=
              match r with
              | Current => sqrt_gt_undef (ts_radius ts) 0
              | Earlier => true
              end in
            if shown
            then Some (PreviewCircle (startX ts) (startY ts) (ts_radius ts))
            else None
        | _ => None
        end
    | None => None
    end
  else None.

(** The geometry of a list entry, in the same terms. *)
Definition shapeOf (a : annotation) : option previewNode :=
  match ann_type a with
  | Rect =>
      Some (PreviewRect (ann_x a) (ann_y a) (ann_width a) (ann_height a))
  | Circle =>
      match ann_x a, ann_y a with
      | Some x, Some y => Some (PreviewCircle x y (ann_radius a))
      | _, _ => None
      end
  | _ => None
  end.

(** ** The export file name *)

(** [.replace(/[:.]/g, '-')] *)
Fixpoint replaceColonsAndPeriods (s : string) : string :=
  match s with
  | EmptyString => EmptyString
  | String c s' =>
      String (if (Ascii.eqb c ":" || Ascii.eqb c ".")%bool then "-"%char
              else c)
             (replaceColonsAndPeriods s')
  end.

(** [.slice(0, -5)] *)
Definition sliceOffLast5 (s : string) : string :=
  substring 0 (String.length s - 5) s.

(** [new Date().toISOString().replace(/[:.]/g, '-').slice(0, -5)], from
    the ISO string of the date. *)
Definition exportTimestamp (iso : string) : string :=
  sliceOffLast5 (replaceColonsAndPeriods iso).

(** ** Events of the 2D-canvas component *)
Module AnnotationCanvasEvents.

Import AnnotationCanvas.

Definition setTool (st : state) (t : toolId) : state :=
  {| image := image st; canvas := canvas st; tool := t;
     annotations := annotations st; isDragging := isDragging st;
     dragStart := dragStart st; markerCounter := markerCounter st |}.

(** [l.filter((_, index) => keep(index))], counting from [i]. *)
Fixpoint filterIndex {A : Type} (keep : nat -> bool) (i : nat) (l : list A)
    : list A :=
  match l with
  | [] => []
  | a :: l' =>
      if keep i then a :: filterIndex keep (S i) l'
      else filterIndex keep (S i) l'
  end.

(** [handleDelete]; [selectedAnnotation] is the component's selection
    state, an index or null, passed here as an argument. *)
Definition handleDelete (st : state) (selectedAnnotation : option nat)
    : state :=
  match selectedAnnotation with
  | Some sel =>
      setAnnotations st
        (filterIndex (fun index => negb (index =? sel)%nat) 0
           (annotations st))
  | None => st
  end.

(** [handleClear] *)
Definition handleClear (st : state) (confirmed : bool) : state :=
  if confirmed then setMarkerCounter (setAnnotations st []) 1 else st.

(** [handleCanvasMouseMove] computes the position and sets no state. *)
Definition handleCanvasMouseMove (st : state) (e : mouseEvent)
    (rect : domRect) : state := st.

(** The component as it mounts for an image: marker tool, counter 1, a
    canvas element of the default size. *)
Definition mounted (img : bitmap) : state :=
  {| image := Some img; canvas := Some (mkSize 300 150); tool := Marker;
     annotations := []; isDragging := false; dragStart := None;
     markerCounter := 1 |}.

Inductive event : Type :=
| ImageLoaded
| SetTool (t : toolId)
| Click (e : mouseEvent) (rect : domRect) (response : option string)
| MouseDown (e : mouseEvent) (rect : domRect)
| MouseMove (e : mouseEvent) (rect : domRect)
| MouseUp (e : mouseEvent) (rect : domRect)
| Delete (selectedAnnotation : option nat)
| Clear (confirmed : bool).

Definition step (st : state) (ev : event) : state :=
  match ev with
  | ImageLoaded => drawCanvas st
  | SetTool t => setTool st t
  | Click e rect response => handleCanvasClick st e rect response
  | MouseDown e rect => handleCanvasMouseDown st e rect
  | MouseMove e rect => handleCanvasMouseMove st e rect
  | MouseUp e rect => handleCanvasMouseUp st e rect
  | Delete sel => handleDelete st sel
  | Clear confirmed => handleClear st confirmed
  end.

Definition run (st : state) (evs : list event) : state :=
  fold_left step evs st.

(** The numbers of the markers of a list, in list order. *)
Definition markerNumbers (l : list annotation) : list Z :=
  flat_map (fun a => match a with
                     | MarkerA _ _ number _ => [number]
                     | _ => []
                     end) l.

End AnnotationCanvasEvents.

(** ** Invariants of the reachable states *)

(** The drag flag and the preview go together; a preview is a rect or a
    circle, and a preview with a width has its whole box. *)
Definition previewInvariant (st : state) : Prop :=
  (isDrawing st = true <-> tempShape st <> None) /\
  forall ts, tempShape st = Some ts ->
    (ts_type ts = Rect \/ ts_type ts = Circle) /\
    (forall w, ts_width ts = Some w ->
       exists x y h,
         ts_x ts = Some x /\ ts_y ts = Some y /\ ts_height ts = Some h).

(** A list entry has the fields of its type, with values the data model
    allows: an id built from its type and a clock reading, a position, and
    a number of at least 1 for a marker, a non-empty text for a text, a
    width and height above the threshold for a rect, a radius above the
    threshold for a circle. *)
Definition wellFormed (r : revision) (a : annotation) : Prop :=
  (exists n, ann_id a = mkId r (ann_type a) n) /\
  (exists x y, ann_x a = Some x /\ ann_y a = Some y) /\
  match ann_type a with
  | Marker =>
      exists n label,
        ann_number a = Some n /\ 1 <= n /\ ann_label a = Some label /\
        ann_style a = Some primary
  | Text => exists t, ann_text a = Some t /\ t <> ""%string
  | Rect =>
      exists w h,
        ann_width a = Some w /\ ann_height a = Some h /\
        threshold r < w /\ threshold r < h /\ ann_style a = Some warning
  | Circle =>
      exists s,
        ann_radius a = Some s /\
        (IZR (threshold r) < radius_value s)%R /\
        ann_style a = Some warning
  | Select => False
  end.

(** The numbers of the markers of the list, in list order. *)
Definition numbersShown (l : list annotation) : list (option Z) :=
  map ann_number (markers l).

(** The k-th of the numbers is k (counting from 1). *)
Definition consecutive (ns : list (option Z)) : Prop :=
  forall k n, nth_error ns k = Some n -> n = Some (Z.of_nat k + 1).

(** Events that only change the view: tool choice, resize, clicks,
    pointer moves, drag moves, export. *)
Definition viewOnly (ev : event) : bool :=
  match ev with
  | SetTool _ | Resize _ | StageClick | AnnotationClick _
  | StageMouseMove _ | DragMove _ _ | ExportClick _ => true
  | _ => false
  end.

(** The string holds no colon and no period. *)
Fixpoint plain (s : string) : bool :=
  match s with
  | EmptyString => true
  | String c s' =>
      negb (Ascii.eqb c ":" || Ascii.eqb c ".")%bool && plain s'
  end.

(** The numbers increase strictly along the list and lie in
    [lo, hi). *)
Fixpoint between (lo hi : Z) (l : list Z) : Prop :=
  match l with
  | [] => True
  | n :: l' => lo <= n < hi /\ between (n + 1) hi l'
  end.

(** Where the render puts the base image on the stage: centred in the
    current revision ([x={(dimensions.width - img.width) / 2}] and the
    same for [y]), at the origin in the earlier one; [None] while there
    is no image. *)
Definition imagePosition (r : revision) (st : state) : option (R * R) :=
  match image st with
  | Some img =>
      match r with
      | Current =>
          Some (IZR (width (dimensions st) - naturalWidth img) / 2,
                IZR (height (dimensions st) - naturalHeight img) / 2)%R
      | Earlier => Some (0, 0)%R
      end
  | None => None
  end.

(** ** Basic facts *)

Lemma strict_eq_refl (a : ident) : strict_eq a a = true.
Proof.
  destruct a; simpl; [apply String.eqb_refl | apply Z.eqb_refl].
Qed.

Lemma strict_eq_true (a b : ident) : strict_eq a b = true -> a = b.
Proof.
  destruct a, b; simpl; try discriminate; intros H.
  - apply String.eqb_eq in H. now subst.
  - apply Z.eqb_eq in H. now subst.
Qed.

Lemma strict_eq_false (a b : ident) : a <> b -> strict_eq a b = false.
Proof.
  intros H. destruct (strict_eq a b) eqn:E; [|reflexivity].
  now apply strict_eq_true in E.
Qed.

Lemma decimal_inj (n m : Z) : decimal n = decimal m -> n = m.
Proof.
  unfold decimal. intros H.
  apply DecimalZ.to_int_inj.
  assert (E : Some (Z.to_int n) = Some (Z.to_int m)).
  { rewrite <- (NilEmpty.isi (Z.to_int n)), <- (NilEmpty.isi (Z.to_int m)).
    now rewrite H. }
  now injection E.
Qed.

(** Equal ids carry equal clock readings. *)
Lemma mkId_inj (r : revision) (t t' : toolId) (n n' : Z) :
  mkId r t n = mkId r t' n' -> n = n'.
Proof.
  destruct r; simpl; intros H.
  - injection H as H.
    destruct t, t'; simpl in H; try discriminate;
      injection H as H; now apply decimal_inj.
  - now injection H.
Qed.

Lemma spread_moved (a : annotation) (nx ny : Z) :
  spread a (moved a nx ny) = moved a nx ny.
Proof.
  destruct a as [i t x y n l s tx w h rd]. unfold spread, moved; simpl.
  destruct n, l, s, tx, w, h, rd; reflexivity.
Qed.

(** The comparison of a kept square root with a threshold is the
    comparison of real numbers. *)
Lemma sqrt_gtb_spec (s : sqrtval) (t : Z) :
  0 <= t ->
  sqrt_gtb s t = true <-> (IZR t < radius_value s)%R.
Proof.
  intros Ht. unfold sqrt_gtb, radius_value.
  destruct (Z.ltb_spec t 0) as [Hn|_]; [lia|].
  assert (Hsq : sqrt (IZR (t * t)) = IZR t).
  { rewrite mult_IZR. apply sqrt_square. now apply IZR_le. }
  destruct (Z.ltb_spec (t * t) (radicand s)) as [Hlt|Hge]; split;
    intros H; try reflexivity; try discriminate.
  - rewrite <- Hsq. apply sqrt_lt_1_alt. split.
    + apply IZR_le. nia.
    + now apply IZR_lt.
  - exfalso. apply (Rlt_irrefl (IZR t)).
    eapply Rlt_le_trans; [exact H|].
    rewrite <- Hsq. apply sqrt_le_1_alt. now apply IZR_le.
Qed.

Lemma threshold_small (r : revision) : 0 < threshold r <= 10.
Proof. destruct r; simpl; lia. Qed.

Lemma gt_undef_spec (v : option Z) (t : Z) :
  gt_undef v t = true <-> exists n, v = Some n /\ t < n.
Proof.
  destruct v as [n|]; simpl; split.
  - intros H. exists n. split; [reflexivity | now apply Z.ltb_lt].
  - intros [m [E H]]. injection E as ->. now apply Z.ltb_lt.
  - discriminate.
  - intros [m [E _]]. discriminate.
Qed.

(** ** Drags on the stage background *)
Section Drag.

Variable r : revision.

Lemma run_app (st : state) (l1 l2 : list event) :
  run r st (l1 ++ l2) = run r (run r st l1) l2.
Proof. apply fold_left_app. Qed.

Lemma run_snoc (st : state) (l : list event) (ev : event) :
  run r st (l ++ [ev]) = step r (run r st l) ev.
Proof. now rewrite run_app. Qed.

Lemma mouse_down_previewing (st : state) (im : bitmap) (p : point)
    (response : option string) (now : Z) :
  image st = Some im ->
  tool st = Rect \/ tool st = Circle ->
  previewing st (step r st (StageMouseDown p response now))
    (startShape r (tool st) p).
Proof.
  intros Him Ht. unfold previewing. simpl. rewrite Him.
  unfold handleStageMouseDown. simpl.
  destruct Ht as [-> | ->]; reflexivity.
Qed.

Lemma move_previewing (st0 st : state) (im : bitmap) (ts : tempShapeT)
    (p : point) :
  image st0 = Some im ->
  previewing st0 st ts ->
  ts_type ts = Rect \/ ts_type ts = Circle ->
  exists ts',
    previewing st0 (step r st (StageMouseMove p)) ts' /\
    ts_type ts' = ts_type ts /\
    startX ts' = startX ts /\ startY ts' = startY ts /\
    (ts_type ts = Rect ->
     ts_x ts' = Some (Z.min (px p) (startX ts)) /\
     ts_y ts' = Some (Z.min (py p) (startY ts)) /\
     ts_width ts' = Some (Z.abs (px p - startX ts)) /\
     ts_height ts' = Some (Z.abs (py p - startY ts))) /\
    (ts_type ts = Circle ->
     ts_radius ts' =
     Some (Msqrt ((px p - startX ts) ^ 2 + (py p - startY ts) ^ 2))).
Proof.
  intros Him Hp Ht. unfold previewing in *. subst st.
  simpl. rewrite Him. unfold handleStageMouseMove. simpl.
  destruct Ht as [E | E]; rewrite E; eexists;
    (split; [reflexivity|]); simpl; rewrite ?E;
    (split; [reflexivity|]); (split; [reflexivity|]);
    (split; [reflexivity|]);
    split; intros E'; try discriminate; repeat split; reflexivity.
Qed.

(** After pointer-down and any pointer moves the drag is in progress;
    the preview keeps its type and start point. *)
Lemma drag_previewing (st : state) (im : bitmap) (p0 : point)
    (response : option string) (now0 : Z) (moves : list point) :
  image st = Some im ->
  tool st = Rect \/ tool st = Circle ->
  exists ts,
    previewing st (run r st (dragMoves p0 response now0 moves)) ts /\
    ts_type ts = tool st /\
    startX ts = px p0 /\ startY ts = py p0.
Proof.
  intros Him Ht. induction moves as [|c ms IH] using rev_ind.
  - exists (startShape r (tool st) p0). simpl. split.
    + now apply (mouse_down_previewing st im).
    + destruct r; repeat split; reflexivity.
  - destruct IH as [ts [Hp [Hty [Hx Hy]]]].
    unfold dragMoves in *. rewrite map_app.
  change (map StageMouseMove [c]) with [StageMouseMove c].
  rewrite app_comm_cons, run_snoc.
    destruct (move_previewing st _ im ts c Him Hp) as
      [ts' [Hp' [Hty' [Hx' [Hy' _]]]]].
    { rewrite Hty. exact Ht. }
    exists ts'. repeat split; congruence.
Qed.

(** The last pointer move decides the preview. *)
Lemma drag_last_move (st : state) (im : bitmap) (p0 : point)
    (response : option string) (now0 : Z) (moves : list point)
    (c : point) :
  image st = Some im ->
  tool st = Rect \/ tool st = Circle ->
  exists ts,
    previewing st
      (run r st (dragMoves p0 response now0 (moves ++ [c]))) ts /\
    ts_type ts = tool st /\
    startX ts = px p0 /\ startY ts = py p0 /\
    (tool st = Rect ->
     ts_x ts = Some (Z.min (px c) (px p0)) /\
     ts_y ts = Some (Z.min (py c) (py p0)) /\
     ts_width ts = Some (Z.abs (px c - px p0)) /\
     ts_height ts = Some (Z.abs (py c - py p0))) /\
    (tool st = Circle ->
     ts_radius ts =
     Some (Msqrt ((px c - px p0) ^ 2 + (py c - py p0) ^ 2))).
Proof.
  intros Him Ht.
  destruct (drag_previewing st im p0 response now0 moves Him Ht) as
    [ts [Hp [Hty [Hx Hy]]]].
  unfold dragMoves in *. rewrite map_app.
  change (map StageMouseMove [c]) with [StageMouseMove c].
  rewrite app_comm_cons, run_snoc.
  destruct (move_previewing st _ im ts c Him Hp) as
    [ts' [Hp' [Hty' [Hx' [Hy' [Hr Hc]]]]]].
  { rewrite Hty. exact Ht. }
  exists ts'. rewrite <- Hx, <- Hy.
  split; [exact Hp'|]. split; [congruence|].
  split; [exact Hx'|]. split; [exact Hy'|].
  split; intros E; rewrite E in Hty; [now apply Hr | now apply Hc].
Qed.

(** Pointer-up on a drag in progress. *)
Lemma mouse_up_previewing (st0 st : state) (im : bitmap)
    (ts : tempShapeT) (now : Z) :
  image st0 = Some im ->
  previewing st0 st ts ->
  let st' := step r st (StageMouseUp now) in
  tempShape st' = None /\ isDrawing st' = false /\
  (annotations st' = annotations st0 \/
   exists a, annotations st' = annotations st0 ++ [a] /\
             ann_id a = mkId r (ts_type ts) now /\
             commits ts a /\
             (ts_type ts = Rect ->
              gt_undef (ts_width ts) (threshold r) = true /\
              gt_undef (ts_height ts) (threshold r) = true) /\
             (ts_type ts = Circle ->
              sqrt_gt_undef (ts_radius ts) (threshold r) = true)) /\
  (annotations st' = annotations st0 ->
   (ts_type ts = Rect ->
    gt_undef (ts_width ts) (threshold r)
    && gt_undef (ts_height ts) (threshold r) = false) /\
   (ts_type ts = Circle ->
    sqrt_gt_undef (ts_radius ts) (threshold r) = false)).
Proof.
  intros Him Hp. unfold previewing in Hp. subst st.
  simpl. rewrite Him. unfold handleStageMouseUp. simpl.
  destruct (ts_type ts) eqn:Ety; simpl;
    try (split; [reflexivity|]; split; [reflexivity|];
         split; [now left | intros _; split; discriminate]).
  - destruct (gt_undef (ts_width ts) (threshold r)) eqn:Ew;
    destruct (gt_undef (ts_height ts) (threshold r)) eqn:Eh; simpl;
      try (split; [reflexivity|]; split; [reflexivity|];
           split; [now left | intros _; split;
                              [reflexivity | discriminate]]).
    split; [reflexivity|]. split; [reflexivity|]. split.
    + right. eexists. split; [reflexivity|]. simpl.
      unfold commits. simpl. rewrite Ety.
      repeat split; try reflexivity; discriminate.
    + intros H. exfalso.
      apply (f_equal (@List.length annotation)) in H.
      rewrite length_app in H. simpl in H. lia.
  - destruct (sqrt_gt_undef (ts_radius ts) (threshold r)) eqn:Er; simpl;
      try (split; [reflexivity|]; split; [reflexivity|];
           split; [now left | intros _; split;
                              [discriminate | reflexivity]]).
    split; [reflexivity|]. split; [reflexivity|]. split.
    + right. eexists. split; [reflexivity|]. simpl.
      unfold commits. simpl. rewrite Ety.
      repeat split; try reflexivity; discriminate.
    + intros H. exfalso.
      apply (f_equal (@List.length annotation)) in H.
      rewrite length_app in H. simpl in H. lia.
Qed.

End Drag.

Lemma exceeds_rect (r : revision) (ts : tempShapeT) :
  ts_type ts = Rect ->
  exceeds r ts <->
  gt_undef (ts_width ts) (threshold r)
  && gt_undef (ts_height ts) (threshold r) = true.
Proof.
  intros E. unfold exceeds. rewrite E, andb_true_iff, !gt_undef_spec.
  split.
  - intros [w [h [Hw [Hh [H1 H2]]]]]. split; eauto.
  - intros [[w [Hw H1]] [h [Hh H2]]]. exists w, h. auto.
Qed.

Lemma exceeds_circle (r : revision) (ts : tempShapeT) :
  ts_type ts = Circle ->
  exceeds r ts <-> sqrt_gt_undef (ts_radius ts) (threshold r) = true.
Proof.
  intros E. unfold exceeds. rewrite E.
  assert (H0 : 0 <= threshold r) by (destruct r; simpl; lia).
  destruct (ts_radius ts) as [s|]; simpl; split.
  - intros [s' [Hs H]]. injection Hs as <-. now apply sqrt_gtb_spec.
  - intros H. exists s. split; [reflexivity | now apply sqrt_gtb_spec].
  - intros [s' [Hs _]]. discriminate.
  - discriminate.
Qed.

Lemma app_one_neq {A : Type} (l : list A) (a : A) : l ++ [a] <> l.
Proof.
  intros H. apply (f_equal (@List.length A)) in H.
  rewrite length_app in H. simpl in H. lia.
Qed.

(** C3.  A rect or circle drag that ends in pointer-up commits its
    preview into the annotation list if and only if the preview exceeds
    the minimum size (rect: width and height both greater than the
    threshold; circle: radius greater than the threshold); otherwise the
    list is as before the drag.  Either way the preview is discarded.
    The threshold is a positive constant, at most 10. *)
Theorem pointer_up_commits_iff_preview_exceeds
    (r : revision) (st : state) (im : bitmap) (p0 : point)
    (response : option string) (now0 : Z) (moves : list point) (now : Z) :
  image st = Some im ->
  tool st = Rect \/ tool st = Circle ->
  exists ts,
    tempShape (run r st (dragMoves p0 response now0 moves)) = Some ts /\
    ts_type ts = tool st /\
    (exceeds r ts <->
     exists a,
       annotations (run r st (dragSequence p0 response now0 moves now)) =
       annotations st ++ [a] /\ commits ts a) /\
    (~ exceeds r ts ->
     annotations (run r st (dragSequence p0 response now0 moves now)) =
     annotations st) /\
    tempShape (run r st (dragSequence p0 response now0 moves now)) = None /\
    isDrawing (run r st (dragSequence p0 response now0 moves now)) = false /\
    0 < threshold r <= 10.
Proof.
  intros Him Ht.
  destruct (drag_previewing r st im p0 response now0 moves Him Ht) as
    [ts [Hp [Hty _]]].
  exists ts. unfold dragSequence. rewrite run_snoc.
  destruct (mouse_up_previewing r st _ im ts now Him Hp) as
    [Hnone [Hdraw [Hcases Hsame]]].
  assert (Htemp :
    tempShape (run r st (dragMoves p0 response now0 moves)) = Some ts).
  { unfold previewing in Hp. now rewrite Hp. }
  split; [exact Htemp|]. split; [exact Hty|].
  assert (Hex : exceeds r ts <->
    exists a,
      annotations
        (step r (run r st (dragMoves p0 response now0 moves))
              (StageMouseUp now)) = annotations st ++ [a] /\ commits ts a).
  { destruct Hcases as [Hsm | [a [Ha [_ [Hc [Hr Hcirc]]]]]].
    - destruct (Hsame Hsm) as [Hr Hcirc]. split.
      + intros Hx. exfalso. rewrite Hty in *.
        destruct Ht as [E | E]; rewrite E in *.
        * apply (exceeds_rect r ts Hty) in Hx.
          rewrite (Hr eq_refl) in Hx. discriminate.
        * apply (exceeds_circle r ts Hty) in Hx.
          rewrite (Hcirc eq_refl) in Hx. discriminate.
      + intros [a [Ha _]]. rewrite Hsm in Ha. symmetry in Ha.
        now apply app_one_neq in Ha.
    - split.
      + intros _. exists a. now split.
      + intros _. rewrite Hty in *.
        destruct Ht as [E | E]; rewrite E in *.
        * apply (exceeds_rect r ts Hty).
          destruct (Hr eq_refl) as [-> ->]. reflexivity.
        * apply (exceeds_circle r ts Hty). now apply Hcirc. }
  split; [exact Hex|].
  split.
  - intros Hn. destruct Hcases as [Hsm | [a [Ha [_ [Hc _]]]]];
      [exact Hsm|].
    exfalso. apply Hn. apply Hex. exists a. now split.
  - split; [exact Hnone|]. split; [exact Hdraw|]. apply threshold_small.
Qed.

Lemma C3_witness :
  exists ts,
    tempShape
      (run Current (loaded Current Rect)
         (dragMoves (mkPoint 10 10) None 0 [mkPoint 12 11])) = Some ts /\
    ts_type ts = Rect /\
    (exceeds Current ts <->
     exists a,
       annotations
         (run Current (loaded Current Rect)
            (dragSequence (mkPoint 10 10) None 0 [mkPoint 12 11] 1)) =
       [] ++ [a] /\ commits ts a) /\
    (~ exceeds Current ts ->
     annotations
       (run Current (loaded Current Rect)
          (dragSequence (mkPoint 10 10) None 0 [mkPoint 12 11] 1)) = []) /\
    tempShape
      (run Current (loaded Current Rect)
         (dragSequence (mkPoint 10 10) None 0 [mkPoint 12 11] 1)) = None /\
    isDrawing
      (run Current (loaded Current Rect)
         (dragSequence (mkPoint 10 10) None 0 [mkPoint 12 11] 1)) = false /\
    0 < 10 <= 10.
Proof.
  apply (pointer_up_commits_iff_preview_exceeds Current
           (loaded Current Rect) screenshot (mkPoint 10 10) None 0
           [mkPoint 12 11] 1).
  - reflexivity.
  - left. reflexivity.
Defined.

(** The rect a drag commits, from the pointer positions. *)
Lemma rect_drag_commit (r : revision) (st : state) (im : bitmap)
    (p0 c : point) (response : option string) (now0 : Z)
    (moves : list point) (now : Z) :
  image st = Some im ->
  tool st = Rect ->
  threshold r < Z.abs (px c - px p0) ->
  threshold r < Z.abs (py c - py p0) ->
  annotations (run r st (dragSequence p0 response now0 (moves ++ [c]) now)) =
  annotations st ++
  [rectOf (mkId r Rect now) (Z.min (px c) (px p0)) (Z.min (py c) (py p0))
          (Z.abs (px c - px p0)) (Z.abs (py c - py p0))].
Proof.
  intros Him Ht Hw Hh.
  destruct (drag_last_move r st im p0 response now0 moves c Him
              (or_introl Ht)) as [ts [Hp [Hty [_ [_ [Hr _]]]]]].
  destruct (Hr Ht) as [Ex [Ey [Ew Eh]]].
  unfold dragSequence. rewrite run_snoc.
  unfold previewing in Hp. rewrite Hp. simpl. rewrite Him.
  unfold handleStageMouseUp. simpl.
  rewrite Hty, Ht, Ew, Eh, Ex, Ey. simpl.
  apply Z.ltb_lt in Hw, Hh. rewrite Hw, Hh. reflexivity.
Qed.

(** The circle a drag commits, from the pointer positions. *)
Lemma circle_drag_commit (r : revision) (st : state) (im : bitmap)
    (p0 c : point) (response : option string) (now0 : Z)
    (moves : list point) (now : Z) :
  image st = Some im ->
  tool st = Circle ->
  threshold r * threshold r < (px c - px p0) ^ 2 + (py c - py p0) ^ 2 ->
  annotations (run r st (dragSequence p0 response now0 (moves ++ [c]) now)) =
  annotations st ++
  [circleOf (mkId r Circle now) (px p0) (py p0)
            (Msqrt ((px c - px p0) ^ 2 + (py c - py p0) ^ 2))].
Proof.
  intros Him Ht Hrad.
  destruct (drag_last_move r st im p0 response now0 moves c Him
              (or_intror Ht)) as [ts [Hp [Hty [Hx [Hy [_ Hc]]]]]].
  specialize (Hc Ht).
  unfold dragSequence. rewrite run_snoc.
  unfold previewing in Hp. rewrite Hp. simpl. rewrite Him.
  unfold handleStageMouseUp. simpl.
  rewrite Hty, Ht, Hc, Hx, Hy. simpl.
  unfold sqrt_gtb. simpl.
  assert (H0 : (threshold r <? 0) = false)
    by (destruct r; reflexivity).
  rewrite H0. apply Z.ltb_lt in Hrad.
  change (Z.pow_pos (px c - px p0) 2) with ((px c - px p0) ^ 2).
  change (Z.pow_pos (py c - py p0) 2) with ((py c - py p0) ^ 2).
  rewrite Hrad. reflexivity.
Qed.

(** C6.  A rect drag from [(sx, sy)] whose last pointer position is
    [(cx, cy)] and that passes the minimum-size test commits the rect
    with x = min(sx, cx), y = min(sy, cy), width = |cx - sx| and
    height = |cy - sy|; width and height are not negative, whatever
    the direction of the drag. *)
Theorem rect_drag_commits_bounding_box
    (r : revision) (st : state) (im : bitmap) (sx sy cx cy : Z)
    (response : option string) (now0 : Z) (moves : list point) (now : Z) :
  image st = Some im ->
  tool st = Rect ->
  threshold r < Z.abs (cx - sx) ->
  threshold r < Z.abs (cy - sy) ->
  annotations
    (run r st
       (dragSequence (mkPoint sx sy) response now0
          (moves ++ [mkPoint cx cy]) now)) =
  annotations st ++
  [rectOf (mkId r Rect now) (Z.min sx cx) (Z.min sy cy)
          (Z.abs (cx - sx)) (Z.abs (cy - sy))] /\
  0 <= Z.abs (cx - sx) /\ 0 <= Z.abs (cy - sy).
Proof.
  intros Him Ht Hw Hh. split.
  - rewrite (rect_drag_commit r st im (mkPoint sx sy) (mkPoint cx cy)
               response now0 moves now Him Ht Hw Hh).
    simpl. now rewrite (Z.min_comm cx sx), (Z.min_comm cy sy).
  - split; apply Z.abs_nonneg.
Qed.

Lemma C6_witness :
  annotations
    (run Current (loaded Current Rect)
       (dragSequence (mkPoint 10 10) None 0 [mkPoint 100 80] 1)) =
  [rectOf (IdString "rect-1") 10 10 90 70] /\
  0 <= 90 /\ 0 <= 70.
Proof.
  apply (rect_drag_commits_bounding_box Current (loaded Current Rect)
           screenshot 10 10 100 80 None 0 [] 1);
    [reflexivity | reflexivity | simpl; lia | simpl; lia].
Defined.

(** ** Circles: where the centre is stored *)

Lemma plain_circle_commit (st : AnnotationCanvas.state) (c : size)
    (e : AnnotationCanvas.mouseEvent) (rect : AnnotationCanvas.domRect)
    (sx sy : R) :
  AnnotationCanvas.canvas st = Some c ->
  AnnotationCanvas.isDragging st = true ->
  AnnotationCanvas.dragStart st = Some (sx, sy) ->
  AnnotationCanvas.tool st = Circle ->
  AnnotationCanvas.annotations
    (AnnotationCanvas.handleCanvasMouseUp st e rect) =
  (AnnotationCanvas.annotations st ++
   [AnnotationCanvas.CircleA
      (sx - sqrt ((AnnotationCanvas.canvasX e rect c - sx) ^ 2 +
                  (AnnotationCanvas.canvasY e rect c - sy) ^ 2))
      (sy - sqrt ((AnnotationCanvas.canvasX e rect c - sx) ^ 2 +
                  (AnnotationCanvas.canvasY e rect c - sy) ^ 2))
      (sqrt ((AnnotationCanvas.canvasX e rect c - sx) ^ 2 +
             (AnnotationCanvas.canvasY e rect c - sy) ^ 2))])%R.
Proof.
  intros Hc Hd Hs Ht. unfold AnnotationCanvas.handleCanvasMouseUp.
  rewrite Hc, Hd, Hs, Ht. reflexivity.
Qed.

Lemma drawCircle_back (sx sy rad : R) :
  AnnotationCanvas.drawCircle (sx - rad) (sy - rad) rad =
  AnnotationCanvas.mkArc sx sy rad.
Proof.
  unfold AnnotationCanvas.drawCircle. f_equal; lra.
Qed.

(** C5, as the code has it.  A circle committed by the Konva canvas
    stores the drag start point in x and y, and [CircleAnnotation] draws
    the circle centred there.  A circle committed by the 2D-canvas
    component stores the drag start point minus the radius (the corner of
    the bounding box), and [drawCircle] adds the radius back, so the
    circle it draws is centred at the drag start point as well. *)
Theorem circle_centre_is_drag_start
    (r : revision) (st : state) (im : bitmap) (p0 : point)
    (response : option string) (now0 : Z) (moves : list point) (now : Z)
    (a : annotation)
    (pst : AnnotationCanvas.state) (c : size)
    (e : AnnotationCanvas.mouseEvent) (rect : AnnotationCanvas.domRect)
    (sx sy : R) (b : AnnotationCanvas.annotation) :
  (image st = Some im ->
   tool st = Circle ->
   annotations (run r st (dragSequence p0 response now0 moves now)) =
   annotations st ++ [a] ->
   ann_type a = Circle /\
   ann_x a = Some (px p0) /\ ann_y a = Some (py p0) /\
   centre_x (CircleAnnotation a) = Some (px p0) /\
   centre_y (CircleAnnotation a) = Some (py p0))
  /\
  (AnnotationCanvas.canvas pst = Some c ->
   AnnotationCanvas.isDragging pst = true ->
   AnnotationCanvas.dragStart pst = Some (sx, sy) ->
   AnnotationCanvas.tool pst = Circle ->
   AnnotationCanvas.annotations
     (AnnotationCanvas.handleCanvasMouseUp pst e rect) =
   AnnotationCanvas.annotations pst ++ [b] ->
   exists rad,
     b = AnnotationCanvas.CircleA (sx - rad) (sy - rad) rad /\
     AnnotationCanvas.drawCircle (sx - rad) (sy - rad) rad =
     AnnotationCanvas.mkArc sx sy rad)%R.
Proof.
  split.
  - intros Him Ht Hann.
    destruct (drag_previewing r st im p0 response now0 moves Him
                (or_intror Ht)) as [ts [Hp [Hty [Hx Hy]]]].
    unfold dragSequence in Hann. rewrite run_snoc in Hann.
    destruct (mouse_up_previewing r st _ im ts now Him Hp) as
      [_ [_ [[Hsm | [a' [Ha' [_ [Hc _]]]]] _]]].
    + rewrite Hsm in Hann. symmetry in Hann.
      now apply app_one_neq in Hann.
    + rewrite Ha' in Hann. apply app_inj_tail in Hann.
      destruct Hann as [_ <-].
      destruct Hc as [Hc1 Hc2]. rewrite Hty, Ht in *.
      destruct Hc2 as [Ex [Ey _]]. simpl.
      rewrite Ex, Ey, Hx, Hy. repeat split; assumption.
  - intros Hc Hd Hs Ht Hann.
    rewrite (plain_circle_commit pst c e rect sx sy Hc Hd Hs Ht) in Hann.
    apply app_inj_tail in Hann. destruct Hann as [_ <-].
    eexists. split; [reflexivity|]. apply drawCircle_back.
Qed.

Lemma plain_drag_radius :
  ((AnnotationCanvas.canvasX (AnnotationCanvas.mkMouse 53 54)
      shownAtOwnSize (mkSize 800 600) -
    AnnotationCanvas.canvasX (AnnotationCanvas.mkMouse 50 50)
      shownAtOwnSize (mkSize 800 600)) ^ 2 +
   (AnnotationCanvas.canvasY (AnnotationCanvas.mkMouse 53 54)
      shownAtOwnSize (mkSize 800 600) -
    AnnotationCanvas.canvasY (AnnotationCanvas.mkMouse 50 50)
      shownAtOwnSize (mkSize 800 600)) ^ 2 = 25)%R.
Proof.
  unfold AnnotationCanvas.canvasX, AnnotationCanvas.canvasY. simpl. field.
Qed.

(** C5 fails on the 2D-canvas component: a circle dragged from (50, 50)
    to (53, 54) is stored with x and y different from the start point. *)
Lemma plain_circle_not_stored_at_drag_start :
  exists sx sy x y rad,
    AnnotationCanvas.dragStart plainDragging = Some (sx, sy) /\
    AnnotationCanvas.annotations
      (AnnotationCanvas.handleCanvasMouseUp plainDragging
         (AnnotationCanvas.mkMouse 53 54) shownAtOwnSize) =
    [AnnotationCanvas.CircleA x y rad] /\
    x <> sx /\ y <> sy.
Proof.
  do 5 eexists. split; [reflexivity|]. split; [reflexivity|].
  assert (Hpos : (0 <
    sqrt ((AnnotationCanvas.canvasX (AnnotationCanvas.mkMouse 53 54)
             shownAtOwnSize (mkSize 800 600) -
           AnnotationCanvas.canvasX (AnnotationCanvas.mkMouse 50 50)
             shownAtOwnSize (mkSize 800 600)) ^ 2 +
          (AnnotationCanvas.canvasY (AnnotationCanvas.mkMouse 53 54)
             shownAtOwnSize (mkSize 800 600) -
           AnnotationCanvas.canvasY (AnnotationCanvas.mkMouse 50 50)
             shownAtOwnSize (mkSize 800 600)) ^ 2))%R).
  { rewrite plain_drag_radius. apply sqrt_lt_R0. lra. }
  split; intros H;
    change (naturalWidth screenshot) with 800%Z in H;
    change (naturalHeight screenshot) with 600%Z in H; lra.
Qed.

Lemma C5_witness :
  (ann_type (circleOf (IdString "circle-1") 10 10 (Msqrt 800)) = Circle /\
   ann_x (circleOf (IdString "circle-1") 10 10 (Msqrt 800)) = Some 10 /\
   ann_y (circleOf (IdString "circle-1") 10 10 (Msqrt 800)) = Some 10 /\
   centre_x
     (CircleAnnotation (circleOf (IdString "circle-1") 10 10 (Msqrt 800))) =
   Some 10 /\
   centre_y
     (CircleAnnotation (circleOf (IdString "circle-1") 10 10 (Msqrt 800))) =
   Some 10)
  /\
  exists sx sy x y rad,
    AnnotationCanvas.dragStart plainDragging = Some (sx, sy) /\
    AnnotationCanvas.annotations
      (AnnotationCanvas.handleCanvasMouseUp plainDragging
         (AnnotationCanvas.mkMouse 53 54) shownAtOwnSize) =
    [AnnotationCanvas.CircleA x y rad] /\
    AnnotationCanvas.drawCircle x y rad = AnnotationCanvas.mkArc sx sy rad.
Proof.
  split.
  - apply (proj1 (circle_centre_is_drag_start Current
             (loaded Current Circle) screenshot (mkPoint 10 10) None 0
             [mkPoint 30 30] 1
             (circleOf (IdString "circle-1") 10 10 (Msqrt 800))
             plainDragging (mkSize 800 600)
             (AnnotationCanvas.mkMouse 53 54) shownAtOwnSize
             0%R 0%R (AnnotationCanvas.TextA 0 0 ""))).
    + reflexivity.
    + reflexivity.
    + reflexivity.
  - destruct (proj2 (circle_centre_is_drag_start Current
             (loaded Current Circle) screenshot (mkPoint 10 10) None 0
             [mkPoint 30 30] 1
             (circleOf (IdString "circle-1") 10 10 (Msqrt 800))
             plainDragging (mkSize 800 600)
             (AnnotationCanvas.mkMouse 53 54) shownAtOwnSize
             (AnnotationCanvas.canvasX (AnnotationCanvas.mkMouse 50 50)
                shownAtOwnSize (mkSize 800 600))
             (AnnotationCanvas.canvasY (AnnotationCanvas.mkMouse 50 50)
                shownAtOwnSize (mkSize 800 600))
             _) eq_refl eq_refl eq_refl eq_refl eq_refl) as [rad [Hb Hd]].
    injection Hb as _ _ Hrad. subst rad.
    do 5 eexists. split; [reflexivity|]. split; [reflexivity|].
    exact Hd.
Defined.

(** ** Drag end *)

(** C7, as the code has it.  The drag-end commit of an annotation [A]
    whose id no other list entry carries replaces [A] by [A] with new x
    and y: the other entries, the fields of [A] other than x and y, the
    length and the order of the list and the rest of the state are as
    before; pointer moves during the drag leave the state untouched, the
    position is written by drag-end alone. *)
Theorem drag_end_moves_only_the_dragged
    (r : revision) (st : state) (i : nat) (A : annotation) (p : point) :
  nth_error (annotations st) i = Some A ->
  (forall j B, j <> i -> nth_error (annotations st) j = Some B ->
               ann_id B <> ann_id A) ->
  List.length (annotations (onDragEnd st i p)) =
  List.length (annotations st) /\
  nth_error (annotations (onDragEnd st i p)) i =
  Some (moved A (px p) (py p)) /\
  (forall j, j <> i ->
     nth_error (annotations (onDragEnd st i p)) j =
     nth_error (annotations st) j) /\
  (ann_x (moved A (px p) (py p)) = Some (px p) /\
   ann_y (moved A (px p) (py p)) = Some (py p) /\
   ann_id (moved A (px p) (py p)) = ann_id A /\
   ann_type (moved A (px p) (py p)) = ann_type A /\
   ann_number (moved A (px p) (py p)) = ann_number A /\
   ann_label (moved A (px p) (py p)) = ann_label A /\
   ann_style (moved A (px p) (py p)) = ann_style A /\
   ann_text (moved A (px p) (py p)) = ann_text A /\
   ann_width (moved A (px p) (py p)) = ann_width A /\
   ann_height (moved A (px p) (py p)) = ann_height A /\
   ann_radius (moved A (px p) (py p)) = ann_radius A) /\
  (image (onDragEnd st i p) = image st /\
   tool (onDragEnd st i p) = tool st /\
   selectedId (onDragEnd st i p) = selectedId st /\
   isDrawing (onDragEnd st i p) = isDrawing st /\
   tempShape (onDragEnd st i p) = tempShape st /\
   dimensions (onDragEnd st i p) = dimensions st) /\
  (image st <> None -> step r st (DragEnd i p) = onDragEnd st i p) /\
  (forall j q, step r st (DragMove j q) = st).
Proof.
  intros HA Huniq. unfold onDragEnd. rewrite HA.
  unfold handleAnnotationChange. simpl.
  split; [apply length_map|].
  split.
  { rewrite nth_error_map, HA. simpl.
    now rewrite strict_eq_refl, spread_moved. }
  split.
  { intros j Hj. rewrite nth_error_map.
    destruct (nth_error (annotations st) j) as [B|] eqn:EB;
      [|reflexivity].
    simpl. now rewrite (strict_eq_false _ _ (Huniq j B Hj EB)). }
  split; [repeat split|].
  split; [repeat split|].
  split.
  - intros Him. simpl. destruct (image st); [|congruence].
    unfold onDragEnd. now rewrite HA.
  - intros j q. simpl. now destruct (image st).
Qed.

Lemma C7_witness :
  List.length (annotations (onDragEnd (twoMarkers Current) 0
                              (mkPoint 300 310))) = 2%nat /\
  nth_error (annotations (onDragEnd (twoMarkers Current) 0
                            (mkPoint 300 310))) 1 =
  nth_error (annotations (twoMarkers Current)) 1.
Proof.
  destruct (drag_end_moves_only_the_dragged Current (twoMarkers Current) 0
              (markerOf (IdString "marker-1000") 100 100 1 "Submit")
              (mkPoint 300 310) eq_refl) as [Hlen [_ [Hother _]]].
  - intros [|[|j]] B Hj HB; simpl in HB.
    + congruence.
    + injection HB as <-. discriminate.
    + destruct j; discriminate.
  - split; [exact Hlen | apply Hother; discriminate].
Defined.

(** C7 fails when two entries carry one id: dragging the first of the
    twin rects rewrites the second as well. *)
Lemma drag_end_rewrites_entry_with_same_id :
  nth_error (annotations (step Current twinRects
                            (DragEnd 0 (mkPoint 300 300)))) 1 <>
  nth_error (annotations twinRects) 1.
Proof. vm_compute. discriminate. Qed.

(** ** Text and marker elicitation *)

Lemma truthy_spec (s : string) : truthy s = true <-> s <> ""%string.
Proof.
  unfold truthy. rewrite negb_true_iff. split.
  - intros H E. subst. discriminate.
  - intros H. destruct (String.eqb_spec s ""); [contradiction | reflexivity].
Qed.

(** The answers of [prompt] on which the text tool creates an
    annotation. *)
Lemma text_answer_cases (response : option string) :
  (exists s, response = Some s /\ s <> ""%string) \/
  response = None \/ response = Some ""%string.
Proof.
  destruct response as [s|]; [|now right; left].
  destruct (String.eqb_spec s ""); [subst; now right; right|].
  left. now exists s.
Qed.

(** C8.  With the text tool, a pointer-down on the empty canvas appends
    a text annotation at the pointer position if and only if [prompt]
    answered a non-empty string; on an empty answer or a cancelled
    prompt the annotation list is unchanged.  The handlers are total: no
    case raises an error.  The same holds for the click handler of the
    2D-canvas component. *)
Theorem text_tool_appends_iff_answer_nonempty
    (r : revision) (st : state) (im : bitmap) (p : point)
    (response : option string) (now : Z)
    (pst : AnnotationCanvas.state) (c : size)
    (e : AnnotationCanvas.mouseEvent) (rect : AnnotationCanvas.domRect) :
  (image st = Some im ->
   tool st = Text ->
   (forall s, response = Some s -> s <> ""%string ->
      annotations (step r st (StageMouseDown p response now)) =
      annotations st ++ [textOf (mkId r Text now) (px p) (py p) s]) /\
   (response = None \/ response = Some ""%string ->
      annotations (step r st (StageMouseDown p response now)) =
      annotations st) /\
   ((exists a, annotations (step r st (StageMouseDown p response now)) =
               annotations st ++ [a]) <->
    (exists s, response = Some s /\ s <> ""%string)))
  /\
  (AnnotationCanvas.canvas pst = Some c ->
   AnnotationCanvas.tool pst = Text ->
   (forall s, response = Some s -> s <> ""%string ->
      AnnotationCanvas.annotations
        (AnnotationCanvas.handleCanvasClick pst e rect response) =
      AnnotationCanvas.annotations pst ++
      [AnnotationCanvas.TextA (AnnotationCanvas.canvasX e rect c)
         (AnnotationCanvas.canvasY e rect c) s]) /\
   (response = None \/ response = Some ""%string ->
      AnnotationCanvas.handleCanvasClick pst e rect response = pst)).
Proof.
  split.
  - intros Him Ht.
    assert (Hyes : forall s, response = Some s -> s <> ""%string ->
      annotations (step r st (StageMouseDown p response now)) =
      annotations st ++ [textOf (mkId r Text now) (px p) (py p) s]).
    { intros s -> Hs. simpl. rewrite Him.
      unfold handleStageMouseDown. simpl. rewrite Ht.
      apply truthy_spec in Hs. now rewrite Hs. }
    assert (Hno : response = None \/ response = Some ""%string ->
      annotations (step r st (StageMouseDown p response now)) =
      annotations st).
    { intros [-> | ->]; simpl; rewrite Him;
        unfold handleStageMouseDown; simpl; rewrite Ht; reflexivity. }
    split; [exact Hyes|]. split; [exact Hno|].
    destruct (text_answer_cases response) as [[s [E Hs]] | Hempty].
    + split; intros _; [now exists s | eexists; now apply (Hyes s)].
    + split.
      * intros [a Ha]. rewrite (Hno Hempty) in Ha. symmetry in Ha.
        now apply app_one_neq in Ha.
      * intros [s [E Hs]]. destruct Hempty as [H | H];
          rewrite H in E; [discriminate | injection E as <-; congruence].
  - intros Hc Ht. unfold AnnotationCanvas.handleCanvasClick.
    rewrite Hc, Ht. split.
    + intros s -> Hs. apply truthy_spec in Hs. now rewrite Hs.
    + intros [-> | ->]; reflexivity.
Qed.

Lemma C8_witness :
  (forall s, Some "Step 1"%string = Some s -> s <> ""%string ->
     annotations
       (step Current (loaded Current Text)
          (StageMouseDown (mkPoint 40 60) (Some "Step 1"%string) 7)) =
     [] ++ [textOf (IdString "text-7") 40 60 s]) /\
  (forall s, Some "Step 1"%string = Some s -> s <> ""%string ->
     AnnotationCanvas.annotations
       (AnnotationCanvas.handleCanvasClick (plainLoaded Text)
          (AnnotationCanvas.mkMouse 40 60) shownAtOwnSize
          (Some "Step 1"%string)) =
     [] ++
     [AnnotationCanvas.TextA
        (AnnotationCanvas.canvasX (AnnotationCanvas.mkMouse 40 60)
           shownAtOwnSize (mkSize 800 600))
        (AnnotationCanvas.canvasY (AnnotationCanvas.mkMouse 40 60)
           shownAtOwnSize (mkSize 800 600)) s]).
Proof.
  split.
  - apply (proj1 (text_tool_appends_iff_answer_nonempty Current
             (loaded Current Text) screenshot (mkPoint 40 60)
             (Some "Step 1"%string) 7
             (plainLoaded Text) (mkSize 800 600)
             (AnnotationCanvas.mkMouse 40 60) shownAtOwnSize));
      reflexivity.
  - apply (proj2 (text_tool_appends_iff_answer_nonempty Current
             (loaded Current Text) screenshot (mkPoint 40 60)
             (Some "Step 1"%string) 7
             (plainLoaded Text) (mkSize 800 600)
             (AnnotationCanvas.mkMouse 40 60) shownAtOwnSize));
      reflexivity.
Defined.

(** C10.  With the marker tool a cancelled prompt and an empty answer
    give the same state: a marker is appended, its label the empty
    string.  The same holds for the click handler of the 2D-canvas
    component. *)
Theorem cancelled_marker_prompt_gives_empty_label
    (r : revision) (st : state) (im : bitmap) (p : point) (now : Z)
    (pst : AnnotationCanvas.state) (c : size)
    (e : AnnotationCanvas.mouseEvent) (rect : AnnotationCanvas.domRect) :
  (image st = Some im ->
   tool st = Marker ->
   step r st (StageMouseDown p None now) =
   step r st (StageMouseDown p (Some ""%string) now) /\
   annotations (step r st (StageMouseDown p None now)) =
   annotations st ++
   [markerOf (mkId r Marker now) (px p) (py p)
      (Z.of_nat (List.length (markers (annotations st))) + 1) ""])
  /\
  (AnnotationCanvas.canvas pst = Some c ->
   AnnotationCanvas.tool pst = Marker ->
   AnnotationCanvas.handleCanvasClick pst e rect None =
   AnnotationCanvas.handleCanvasClick pst e rect (Some ""%string) /\
   AnnotationCanvas.annotations
     (AnnotationCanvas.handleCanvasClick pst e rect None) =
   AnnotationCanvas.annotations pst ++
   [AnnotationCanvas.MarkerA (AnnotationCanvas.canvasX e rect c)
      (AnnotationCanvas.canvasY e rect c)
      (AnnotationCanvas.markerCounter pst) ""]).
Proof.
  split.
  - intros Him Ht. simpl. rewrite Him.
    unfold handleStageMouseDown. simpl. rewrite Ht. split; reflexivity.
  - intros Hc Ht. unfold AnnotationCanvas.handleCanvasClick.
    rewrite Hc, Ht. split; reflexivity.
Qed.

Lemma C10_witness :
  (step Current (loaded Current Marker)
     (StageMouseDown (mkPoint 100 100) None 1000) =
   step Current (loaded Current Marker)
     (StageMouseDown (mkPoint 100 100) (Some ""%string) 1000) /\
   annotations
     (step Current (loaded Current Marker)
        (StageMouseDown (mkPoint 100 100) None 1000)) =
   [markerOf (IdString "marker-1000") 100 100 1 ""])
  /\
  AnnotationCanvas.handleCanvasClick (plainLoaded Marker)
    (AnnotationCanvas.mkMouse 100 100) shownAtOwnSize None =
  AnnotationCanvas.handleCanvasClick (plainLoaded Marker)
    (AnnotationCanvas.mkMouse 100 100) shownAtOwnSize (Some ""%string).
Proof.
  split.
  - apply (proj1 (cancelled_marker_prompt_gives_empty_label Current
             (loaded Current Marker) screenshot (mkPoint 100 100) 1000
             (plainLoaded Marker) (mkSize 800 600)
             (AnnotationCanvas.mkMouse 100 100) shownAtOwnSize));
      reflexivity.
  - apply (proj2 (cancelled_marker_prompt_gives_empty_label Current
             (loaded Current Marker) screenshot (mkPoint 100 100) 1000
             (plainLoaded Marker) (mkSize 800 600)
             (AnnotationCanvas.mkMouse 100 100) shownAtOwnSize));
      reflexivity.
Defined.

(** ** Export *)

(** The exported raster has the size of the stage times the pixel
    ratio, whatever the image. *)
Lemma export_raster_size (r : revision) (s : stage) (name : string) :
  exportCanvasToPNG r (Some s) name =
  Some {| filename := name;
          href := {| raster_width := stage_width s * pixelRatio r;
                     raster_height := stage_height s * pixelRatio r |} |}.
Proof. reflexivity. Qed.

(** The 2D-canvas component exports at the intrinsic size of the image
    once the image is drawn. *)
Lemma plain_export_has_image_size (st : AnnotationCanvas.state)
    (c : size) (img : bitmap) (timestamp : string) :
  AnnotationCanvas.canvas st = Some c ->
  AnnotationCanvas.image st = Some img ->
  option_map href
    (AnnotationCanvas.handleExport (AnnotationCanvas.drawCanvas st)
       timestamp) =
  Some {| raster_width := naturalWidth img;
          raster_height := naturalHeight img |}.
Proof.
  intros Hc Hi. unfold AnnotationCanvas.drawCanvas.
  rewrite Hc, Hi. reflexivity.
Qed.

(** C1, evaluated on the code.  With the 800 by 600 image in the 1024 by
    768 container and two annotations placed, export hands the browser a
    raster of 2048 by 1536 pixels: the stage size times the pixel ratio 2
    of [exportCanvasToPNG].  [exportToPNG] of the earlier revision, given
    the same stage, produces 1024 by 768, the stage size. *)
Theorem export_raster_follows_the_container (timestamp name : string) :
  image (twoMarkers Current) = Some screenshot /\
  dimensions (twoMarkers Current) = viewport /\
  option_map href (handleExport Current (twoMarkers Current) timestamp) =
  Some {| raster_width := 2048; raster_height := 1536 |} /\
  option_map href (handleExport Current (twoMarkers Current) timestamp) <>
  Some {| raster_width := naturalWidth screenshot;
          raster_height := naturalHeight screenshot |} /\
  option_map href
    (exportCanvasToPNG Earlier (Some (mkStage 1024 768)) name) =
  Some {| raster_width := 1024; raster_height := 768 |}.
Proof. repeat split. discriminate. Qed.

(** C9.  Export without a base image, or with a stage ref that is not
    set, returns before any canvas or DOM call: nothing is encoded,
    nothing is downloaded; the export click changes no state in any
    case, and the functions are total.  The same for the export button of
    the 2D-canvas component when its canvas ref is not set. *)
Theorem export_without_image_or_stage_is_noop
    (r : revision) (st : state) (timestamp name : string)
    (pst : AnnotationCanvas.state) :
  (image st = None \/ canvasRef r st = None ->
   handleExport r st timestamp = None) /\
  exportCanvasToPNG r None name = None /\
  step r st (ExportClick timestamp) = st /\
  (AnnotationCanvas.canvas pst = None ->
   AnnotationCanvas.handleExport pst timestamp = None).
Proof.
  split; [|split; [reflexivity|split]].
  - intros [H | H]; unfold handleExport.
    + unfold canvasRef. rewrite H. now destruct r.
    + now rewrite H.
  - simpl. now destruct (image st).
  - intros H. unfold AnnotationCanvas.handleExport. now rewrite H.
Qed.

Lemma C9_witness :
  handleExport Current (init Current) "2026-11-02T10-00-00" = None /\
  AnnotationCanvas.handleExport
    (AnnotationCanvas.setCanvas (plainLoaded Marker) None)
    "2026-11-02T10-00-00" = None.
Proof.
  split.
  - apply (proj1 (export_without_image_or_stage_is_noop Current
             (init Current) "2026-11-02T10-00-00" "annotated.png"
             (plainLoaded Marker))).
    left. reflexivity.
  - apply (proj2 (export_without_image_or_stage_is_noop Current
             (init Current) "2026-11-02T10-00-00" "annotated.png"
             (AnnotationCanvas.setCanvas (plainLoaded Marker) None))).
    reflexivity.
Defined.

(** ** The drag flag and the preview go together *)

Lemma step_keeps_preview_with_flag (r : revision) (st : state) (ev : event) :
  (isDrawing st = true -> tempShape st <> None) ->
  isDrawing (step r st ev) = true -> tempShape (step r st ev) <> None.
Proof.
  intros H.
  destruct ev as [im d | c | c | t | d | | i | p resp now | p | now
                  | i p | i p | ts]; simpl.
  - unfold loadImageFromFile. destruct (image st); simpl;
      [exact H | discriminate].
  - destruct (image st); [|exact H]. unfold handleNewImage.
    destruct r; [|simpl; discriminate].
    destruct ((0 <? Z.of_nat (List.length (annotations st))) && negb c);
      [exact H | simpl; discriminate].
  - destruct (image st); [|exact H]. destruct c; exact H.
  - destruct (image st); exact H.
  - destruct (image st); exact H.
  - destruct (image st); [|exact H]. destruct r; exact H.
  - destruct (image st); [|exact H]. unfold onSelect.
    destruct (nth_error (annotations st) i); exact H.
  - destruct (image st); [|exact H]. unfold handleStageMouseDown. simpl.
    destruct (tool st); simpl; try exact H; try discriminate.
    destruct resp as [s|]; [|exact H]. destruct (truthy s); exact H.
  - destruct (image st); [|exact H]. unfold handleStageMouseMove.
    destruct (isDrawing st) eqn:E; simpl; [|now rewrite E].
    destruct (tempShape st) as [ts|] eqn:Et; [|now rewrite E, Et].
    destruct (ts_type ts); simpl; try discriminate; now rewrite ?E, ?Et.
  - destruct (image st); [|exact H]. unfold handleStageMouseUp.
    destruct (isDrawing st) eqn:E; simpl; [|now rewrite E].
    destruct (tempShape st) as [ts|] eqn:Et; [|now rewrite E, Et].
    destruct (tool_eqb (ts_type ts) Rect
              && gt_undef (ts_width ts) (threshold r)
              && gt_undef (ts_height ts) (threshold r));
      [simpl; discriminate|].
    destruct (tool_eqb (ts_type ts) Circle
              && sqrt_gt_undef (ts_radius ts) (threshold r));
      simpl; discriminate.
  - destruct (image st); exact H.
  - destruct (image st); [|exact H]. unfold onDragEnd.
    destruct (nth_error (annotations st) i); exact H.
  - destruct (image st); exact H.
Qed.

(** In every state reached from the initial one, a drag in progress has
    its preview: the branch of the move and up handlers for a null
    [tempShape] under [isDrawing] is never taken. *)
Lemma drawing_has_preview (r : revision) (evs : list event) :
  isDrawing (run r (init r) evs) = true ->
  tempShape (run r (init r) evs) <> None.
Proof.
  induction evs as [|ev evs IH] using rev_ind.
  - discriminate.
  - rewrite run_snoc. now apply step_keeps_preview_with_flag.
Qed.

(** ** What one event does to the annotation list *)

Lemma mouse_down_list (r : revision) (st : state) (p : point)
    (response : option string) (now : Z) :
  annotations (handleStageMouseDown r st p response now) = annotations st \/
  exists a,
    annotations (handleStageMouseDown r st p response now) =
    annotations st ++ [a] /\
    ann_id a = mkId r (ann_type a) now /\
    (isMarker a = true ->
     ann_number a =
     Some (Z.of_nat (List.length (markers (annotations st))) + 1)).
Proof.
  unfold handleStageMouseDown. simpl.
  destruct (tool st); simpl; try (now left).
  - right. eexists. split; [reflexivity|]. simpl. now split.
  - destruct response as [s|]; [|now left].
    destruct (truthy s); [|now left].
    right. eexists. split; [reflexivity|]. simpl.
    split; [reflexivity | discriminate].
Qed.

Lemma mouse_move_list (st : state) (p : point) :
  annotations (handleStageMouseMove st p) = annotations st.
Proof.
  unfold handleStageMouseMove.
  destruct (isDrawing st); simpl; [|reflexivity].
  destruct (tempShape st) as [ts|]; [|reflexivity].
  destruct (ts_type ts); reflexivity.
Qed.

Lemma mouse_up_list (r : revision) (st : state) (now : Z) :
  annotations (handleStageMouseUp r st now) = annotations st \/
  exists a,
    annotations (handleStageMouseUp r st now) = annotations st ++ [a] /\
    ann_id a = mkId r (ann_type a) now /\
    isMarker a = false.
Proof.
  unfold handleStageMouseUp.
  destruct (isDrawing st); simpl; [|now left].
  destruct (tempShape st) as [ts|]; [|now left].
  destruct (tool_eqb (ts_type ts) Rect
            && gt_undef (ts_width ts) (threshold r)
            && gt_undef (ts_height ts) (threshold r)).
  - right. eexists. split; [reflexivity|]. now split.
  - destruct (tool_eqb (ts_type ts) Circle
              && sqrt_gt_undef (ts_radius ts) (threshold r)).
    + right. eexists. split; [reflexivity|]. now split.
    + now left.
Qed.

(** Drag end never changes an id. *)
Lemma drag_end_ids (st : state) (i : nat) (p : point) :
  ids (annotations (onDragEnd st i p)) = ids (annotations st).
Proof.
  unfold onDragEnd. destruct (nth_error (annotations st) i) as [A|];
    [|reflexivity].
  unfold handleAnnotationChange, ids. simpl. rewrite map_map.
  apply map_ext. intros a.
  destruct (strict_eq (ann_id a) (ann_id A)) eqn:E; [|reflexivity].
  simpl. symmetry. now apply strict_eq_true.
Qed.

Lemma created_of (r : revision) (st : state) (ev : event) :
  created r st ev =
  if (List.length (annotations st) <?
      List.length (annotations (step r st ev)))%nat
  then skipn (List.length (annotations st)) (annotations (step r st ev))
  else [].
Proof. reflexivity. Qed.

Lemma created_same_length (r : revision) (st : state) (ev : event) :
  List.length (annotations (step r st ev)) = List.length (annotations st) ->
  created r st ev = [].
Proof.
  intros H. rewrite created_of, H, Nat.ltb_irrefl. reflexivity.
Qed.

Lemma created_appended (r : revision) (st : state) (ev : event)
    (a : annotation) :
  annotations (step r st ev) = annotations st ++ [a] ->
  created r st ev = [a].
Proof.
  intros H. rewrite created_of, H, length_app. simpl.
  replace (List.length (annotations st) <?
           List.length (annotations st) + 1)%nat with true
    by (symmetry; apply Nat.ltb_lt; lia).
  rewrite skipn_app, skipn_all, Nat.sub_diag. reflexivity.
Qed.

Lemma created_emptied (r : revision) (st : state) (ev : event) :
  annotations (step r st ev) = [] -> created r st ev = [].
Proof.
  intros H. rewrite created_of, H. simpl.
  now destruct (List.length (annotations st)).
Qed.

(** Every event keeps the list, appends one annotation whose id is built
    from the clock reading of the event, empties the list, or (drag end)
    rewrites entries in place without touching an id. *)
Lemma step_list (r : revision) (st : state) (ev : event) :
  (annotations (step r st ev) = annotations st /\ created r st ev = [])
  \/
  (exists a now,
     annotations (step r st ev) = annotations st ++ [a] /\
     created r st ev = [a] /\
     clockOf ev = [now] /\
     ann_id a = mkId r (ann_type a) now /\
     (isMarker a = true ->
      ann_number a =
      Some (Z.of_nat (List.length (markers (annotations st))) + 1)))
  \/
  (annotations (step r st ev) = [] /\ created r st ev = [] /\
   creation_only ev = false)
  \/
  (ids (annotations (step r st ev)) = ids (annotations st) /\
   created r st ev = [] /\ creation_only ev = false).
Proof.
  assert (Hkeep : annotations (step r st ev) = annotations st ->
                  annotations (step r st ev) = annotations st /\
                  created r st ev = []).
  { intros H. split; [exact H|]. apply created_same_length. now rewrite H. }
  assert (Hdel : creation_only ev = false ->
                 annotations (step r st ev) = [] ->
                 annotations (step r st ev) = [] /\ created r st ev = [] /\
                 creation_only ev = false).
  { intros Hc H. split; [exact H|]. split; [|exact Hc].
    now apply created_emptied. }
  destruct ev as [im d | c | c | t | d | | i | p resp now | p | now
                  | i p | i p | ts].
  - (* LoadImage *)
    right; right; left. apply Hdel; [reflexivity|].
    simpl. unfold loadImageFromFile. now destruct (image st).
  - (* NewImage *)
    destruct (image st) eqn:Him; [|left; apply Hkeep; simpl;
                                   now rewrite Him].
    destruct r.
    + destruct ((0 <? Z.of_nat (List.length (annotations st)))
                && negb c) eqn:E.
      * left. apply Hkeep. simpl. rewrite Him. unfold handleNewImage.
        now rewrite E.
      * right; right; left. apply Hdel; [reflexivity|]. simpl.
        rewrite Him. unfold handleNewImage. now rewrite E.
    + right; right; left. apply Hdel; [reflexivity|]. simpl.
      now rewrite Him.
  - (* ClearAnnotations *)
    destruct (image st) eqn:Him; [|left; apply Hkeep; simpl;
                                   now rewrite Him].
    destruct c.
    + right; right; left. apply Hdel; [reflexivity|]. simpl.
      now rewrite Him.
    + left. apply Hkeep. simpl. now rewrite Him.
  - left. apply Hkeep. simpl. now destruct (image st).
  - left. apply Hkeep. simpl. now destruct (image st).
  - left. apply Hkeep. simpl. destruct (image st); [|reflexivity].
    now destruct r.
  - left. apply Hkeep. simpl. destruct (image st); [|reflexivity].
    unfold onSelect. now destruct (nth_error (annotations st) i).
  - (* StageMouseDown *)
    destruct (image st) eqn:Him; [|left; apply Hkeep; simpl;
                                   now rewrite Him].
    destruct (mouse_down_list r st p resp now) as [H | [a [H [Hid Hn]]]].
    + left. apply Hkeep. simpl. now rewrite Him.
    + right; left. exists a, now.
      assert (Hs : annotations (step r st (StageMouseDown p resp now)) =
                   annotations st ++ [a]) by (simpl; now rewrite Him).
      split; [exact Hs|]. split; [now apply created_appended|].
      split; [reflexivity|]. now split.
  - left. apply Hkeep. simpl. destruct (image st); [|reflexivity].
    apply mouse_move_list.
  - (* StageMouseUp *)
    destruct (image st) eqn:Him; [|left; apply Hkeep; simpl;
                                   now rewrite Him].
    destruct (mouse_up_list r st now) as [H | [a [H [Hid Hn]]]].
    + left. apply Hkeep. simpl. now rewrite Him.
    + right; left. exists a, now.
      assert (Hs : annotations (step r st (StageMouseUp now)) =
                   annotations st ++ [a]) by (simpl; now rewrite Him).
      split; [exact Hs|]. split; [now apply created_appended|].
      split; [reflexivity|]. split; [exact Hid|].
      intros Hm. congruence.
  - left. apply Hkeep. simpl. now destruct (image st).
  - (* DragEnd *)
    right; right; right.
    assert (Hids : ids (annotations (step r st (DragEnd i p))) =
                   ids (annotations st)).
    { simpl. destruct (image st); [apply drag_end_ids | reflexivity]. }
    split; [exact Hids|]. split; [|reflexivity].
    apply created_same_length.
    apply (f_equal (@List.length ident)) in Hids. unfold ids in Hids.
    now rewrite !length_map in Hids.
  - left. apply Hkeep. simpl. now destruct (image st).
Qed.

(** ** Marker numbers *)

Lemma markers_app (l1 l2 : list annotation) :
  markers (l1 ++ l2) = markers l1 ++ markers l2.
Proof. apply filter_app. Qed.

(** Along creation-only events the list grows by the history, and the
    markers created continue the count of the markers in the list. *)
Lemma numbering_from (r : revision) (evs : list event) :
  forall st,
    forallb creation_only evs = true ->
    annotations (run r st evs) = annotations st ++ history r st evs /\
    forall k a,
      nth_error (markers (history r st evs)) k = Some a ->
      ann_number a =
      Some (Z.of_nat (List.length (markers (annotations st)) + k) + 1).
Proof.
  induction evs as [|ev evs IH]; intros st Hall.
  - simpl. split; [now rewrite app_nil_r|]. intros [|k] a H; discriminate.
  - simpl in Hall. apply andb_true_iff in Hall. destruct Hall as [Hev Hall].
    destruct (IH (step r st ev) Hall) as [Hrun Hnum].
    simpl. destruct (step_list r st ev) as
      [[Hs Hc] | [[a0 [now [Hs [Hc [_ [_ Hn]]]]]] | [[_ [_ Hd]] | [_ [_ Hd]]]]];
      try congruence.
    + rewrite Hc. simpl. rewrite Hs in Hrun, Hnum. now split.
    + rewrite Hc. split.
      * rewrite Hrun, Hs, <- app_assoc. reflexivity.
      * intros k a Hk. rewrite markers_app in Hk.
        rewrite Hs, markers_app, length_app in Hnum.
        change (markers [a0]) with (if isMarker a0 then [a0] else [])
          in Hk, Hnum.
        destruct (isMarker a0) eqn:Em; simpl in Hk, Hnum.
        -- destruct k as [|k].
           ++ injection Hk as <-. rewrite Nat.add_0_r. now apply Hn.
           ++ rewrite (Hnum k a Hk). do 2 f_equal. lia.
        -- rewrite (Hnum k a Hk). do 2 f_equal. lia.
Qed.

(** C2, as the code has it.  A new marker takes the number of markers in
    the list plus one.  Hence along any sequence of events that delete
    nothing (and commit no drag) from an empty list, the list is the
    creation history and the k-th marker created has number k, however
    many other annotations are created in between. *)
Theorem marker_numbers_count_the_markers_in_the_list
    (r : revision) (st : state) (im : bitmap) (p : point)
    (response : option string) (now : Z) (st0 : state)
    (evs : list event) (k : nat) (a : annotation) :
  (image st = Some im ->
   tool st = Marker ->
   annotations (step r st (StageMouseDown p response now)) =
   annotations st ++
   [markerOf (mkId r Marker now) (px p) (py p)
      (Z.of_nat (List.length (markers (annotations st))) + 1)
      (or_empty response)])
  /\
  (annotations st0 = [] ->
   forallb creation_only evs = true ->
   annotations (run r st0 evs) = history r st0 evs /\
   (nth_error (markers (history r st0 evs)) k = Some a ->
    ann_number a = Some (Z.of_nat k + 1))).
Proof.
  split.
  - intros Him Ht. simpl. rewrite Him.
    unfold handleStageMouseDown. simpl. now rewrite Ht.
  - intros Hnil Hall.
    destruct (numbering_from r evs st0 Hall) as [Hrun Hnum].
    rewrite Hnil in *. split; [exact Hrun|].
    intros Hk. now rewrite (Hnum k a Hk).
Qed.

Lemma C2_witness :
  annotations
    (step Current (loaded Current Marker)
       (StageMouseDown (mkPoint 100 100) (Some "Submit"%string) 1000)) =
  [markerOf (IdString "marker-1000") 100 100 1 "Submit"]
  /\
  ann_number (markerOf (IdString "marker-2000") 200 50 2 "") = Some 2.
Proof.
  split.
  - apply (proj1 (marker_numbers_count_the_markers_in_the_list Current
             (loaded Current Marker) screenshot (mkPoint 100 100)
             (Some "Submit"%string) 1000 (loaded Current Marker)
             [] 0%nat (markerOf (IdString "marker-1000") 100 100 1 "")));
      reflexivity.
  - apply (proj2 (marker_numbers_count_the_markers_in_the_list Current
             (loaded Current Marker) screenshot (mkPoint 100 100)
             (Some "Submit"%string) 1000 (loaded Current Marker)
             [StageMouseDown (mkPoint 100 100) (Some "Submit"%string) 1000;
              SetTool Rect;
              StageMouseDown (mkPoint 10 10) None 1500;
              StageMouseMove (mkPoint 100 80);
              StageMouseUp 1600;
              SetTool Marker;
              StageMouseDown (mkPoint 200 50) (Some ""%string) 2000]
             1%nat (markerOf (IdString "marker-2000") 200 50 2 "")));
      reflexivity.
Defined.

(** C2 fails across a deletion: after a marker is created and the list
    is cleared, the second marker created is numbered 1 again. *)
Lemma second_marker_after_clear_is_numbered_one :
  option_map ann_number
    (nth_error
       (markers
          (history Current (init Current)
             [LoadImage screenshot viewport;
              StageMouseDown (mkPoint 100 100) (Some "Submit"%string) 1000;
              ClearAnnotations true;
              StageMouseDown (mkPoint 200 50) (Some ""%string) 2000]))
       1) = Some (Some 1)
  /\ Some (Some 1) <> Some (Some (Z.of_nat 2)).
Proof. split; [reflexivity | discriminate]. Qed.

(** ** Ids *)

(** While no clock reading repeats, an id is assigned once: the ids of
    the annotations created along the run, after those already [seen],
    have no repetition, and the list holds a repetition-free selection
    of them. *)
Lemma ids_fresh_from (r : revision) (evs : list event) :
  forall (st : state) (seen : list ident),
    NoDup (creationClocks r st evs) ->
    (forall i, In i seen ->
       exists t n, i = mkId r t n /\ ~ In n (creationClocks r st evs)) ->
    NoDup seen ->
    incl (ids (annotations st)) seen ->
    NoDup (ids (annotations st)) ->
    NoDup (seen ++ ids (history r st evs)) /\
    NoDup (ids (annotations (run r st evs))) /\
    incl (ids (annotations (run r st evs)))
         (seen ++ ids (history r st evs)).
Proof.
  induction evs as [|ev evs IH]; intros st seen Hclk Hseen Hnd Hincl Hst.
  - simpl. rewrite app_nil_r. auto.
  - simpl in Hclk, Hseen. simpl.
    destruct (step_list r st ev) as
      [[Hs Hc] | [[a [now [Hs [Hc [Hnow [Hid _]]]]]]
                 | [[Hs [Hc _]] | [Hs [Hc _]]]]]; rewrite Hc in *.
    + apply (IH (step r st ev) seen); auto; now rewrite Hs.
    + rewrite Hnow in *. simpl in Hclk, Hseen.
      apply NoDup_cons_iff in Hclk. destruct Hclk as [Hnew Hclk].
      assert (Hfresh : ~ In (ann_id a) seen).
      { intros Hin. destruct (Hseen _ Hin) as [t [n [E Hn]]].
        rewrite Hid in E. apply mkId_inj in E. apply Hn. now left. }
      destruct (IH (step r st ev) (seen ++ [ann_id a])) as [H1 [H2 H3]].
      * exact Hclk.
      * intros i Hi. apply in_app_or in Hi. destruct Hi as [Hi | [<- | []]].
        -- destruct (Hseen i Hi) as [t [n [E Hn]]]. exists t, n.
           split; [exact E|]. intros Hn'. apply Hn. now right.
        -- exists (ann_type a), now. now split.
      * apply NoDup_app; [exact Hnd | repeat constructor; intros [] |].
        intros i Hi [<- | []]. contradiction.
      * rewrite Hs. unfold ids. rewrite map_app. simpl.
        apply incl_app; [now apply incl_appl|].
        apply incl_appr, incl_refl.
      * rewrite Hs. unfold ids. rewrite map_app. simpl.
        apply NoDup_app; [exact Hst | repeat constructor; intros [] |].
        intros i Hi [<- | []]. apply Hfresh. now apply Hincl.
      * simpl. rewrite <- app_assoc in H1, H3. simpl in H1, H3. auto.
    + apply (IH (step r st ev) seen); auto; rewrite Hs.
      * intros i [].
      * constructor.
    + apply (IH (step r st ev) seen); auto; now rewrite Hs.
Qed.

(** The ids assigned along a run are made from the stamps of its
    creating events. *)
Lemma history_ids_stamps (r : revision) (evs : list event) :
  forall st : state,
    ids (history r st evs) = map (stampId r) (creationStamps r st evs).
Proof.
  induction evs as [|ev evs IH]; intros st; [reflexivity|].
  simpl. unfold ids in *. rewrite !map_app, IH. f_equal.
  destruct (step_list r st ev) as
    [[_ Hc] | [[a [now [_ [Hc [Hnow [Hid _]]]]]]
              | [[_ [Hc _]] | [_ [Hc _]]]]]; rewrite Hc;
    try reflexivity.
  rewrite Hnow. simpl. unfold stampId. simpl. now rewrite Hid.
Qed.

(** Two stamps make the same id exactly when they agree on the part the
    id depends on. *)
Lemma stampId_stampKey (r : revision) (s s' : toolId * Z) :
  stampId r s = stampId r s' <-> stampKey r s = stampKey r s'.
Proof.
  destruct s as [t n], s' as [t' n']. unfold stampId, stampKey. simpl.
  split; intros H.
  - assert (Hn := mkId_inj r t t' n n' H). subst n'.
    destruct r; [|reflexivity].
    simpl in H. injection H as H.
    destruct t, t'; simpl in H; try reflexivity; discriminate.
  - destruct r; inversion H; reflexivity.
Qed.

Lemma NoDup_map_through {A B C : Type} (f : A -> B) (g : A -> C)
    (l : list A) :
  (forall x y, f x = f y -> g x = g y) ->
  NoDup (map g l) -> NoDup (map f l).
Proof.
  intros Hfg. induction l as [|x l IH]; simpl; intros H; [constructor|].
  apply NoDup_cons_iff in H. destruct H as [Hx H].
  constructor; [|now apply IH].
  intros Hin. apply Hx. apply in_map_iff in Hin.
  destruct Hin as [y [E Hy]]. apply in_map_iff. exists y.
  split; [now apply Hfg | exact Hy].
Qed.

(** Entries leave the list only when it is emptied, so the ids in the
    list are the most recent of the ids it held or was given. *)
Lemma list_ids_end_the_history (r : revision) (evs : list event) :
  forall st : state,
    exists pre,
      ids (annotations st) ++ ids (history r st evs) =
      pre ++ ids (annotations (run r st evs)).
Proof.
  induction evs as [|ev evs IH]; intros st.
  - exists []. simpl. now rewrite app_nil_r.
  - simpl. destruct (IH (step r st ev)) as [pre Hpre].
    destruct (step_list r st ev) as
      [[Hs Hc] | [[a [now [Hs [Hc _]]]]
                 | [[Hs [Hc _]] | [Hs [Hc _]]]]];
      unfold ids in *; rewrite map_app, Hc; simpl.
    + exists pre. rewrite <- Hpre. now rewrite Hs.
    + exists pre. rewrite <- Hpre, Hs, map_app, <- app_assoc.
      reflexivity.
    + exists (map ann_id (annotations st) ++ pre).
      rewrite <- app_assoc, <- Hpre, Hs. reflexivity.
    + exists pre. rewrite <- Hpre. now rewrite Hs.
Qed.

(** C4, as the code has it.  An id is the clock reading of the creating
    event, with the type as prefix in the current revision.  Provided no
    two annotations of the same type (of any type, in the earlier
    revision) are created at the same clock reading, the ids assigned
    along a run from the initial state are pairwise distinct, deleted
    ones included, so none is assigned twice; the ids in the list are
    pairwise distinct and are among them.  The proviso is no more than
    is needed: where the ids assigned along the run are pairwise
    distinct, it holds.  Whatever the clock, an event either empties the
    list or leaves every id it held in place: an annotation keeps its id
    as long as it is in the list. *)
Theorem ids_distinct_while_stamps_differ
    (r : revision) (evs : list event) (st : state) (ev : event) :
  (stamps_never_repeat r evs ->
   NoDup (ids (history r (init r) evs)) /\
   NoDup (ids (annotations (run r (init r) evs))) /\
   incl (ids (annotations (run r (init r) evs)))
        (ids (history r (init r) evs)))
  /\
  (NoDup (ids (history r (init r) evs)) -> stamps_never_repeat r evs)
  /\
  (annotations (step r st ev) = [] \/
   exists l, ids (annotations (step r st ev)) = ids (annotations st) ++ l).
Proof.
  split; [|split].
  - intros Hst.
    assert (H1 : NoDup (ids (history r (init r) evs))).
    { rewrite history_ids_stamps.
      apply (NoDup_map_through (stampId r) (stampKey r)); [|exact Hst].
      intros x y. apply stampId_stampKey. }
    destruct (list_ids_end_the_history r evs (init r)) as [pre Hpre].
    change (ids (annotations (init r))) with (@nil ident) in Hpre.
    simpl in Hpre. rewrite Hpre in H1 |- *.
    split; [exact H1|]. split.
    + now apply NoDup_app_remove_l in H1.
    + apply incl_appr, incl_refl.
  - intros H. unfold stamps_never_repeat.
    rewrite history_ids_stamps in H.
    apply (NoDup_map_through (stampKey r) (stampId r)); [|exact H].
    intros x y. apply stampId_stampKey.
  - destruct (step_list r st ev) as
      [[Hs _] | [[a [now [Hs _]]] | [[Hs _] | [Hs _]]]].
    + right. exists []. now rewrite Hs, app_nil_r.
    + right. exists [ann_id a]. rewrite Hs. unfold ids.
      now rewrite map_app.
    + now left.
    + right. exists []. now rewrite Hs, app_nil_r.
Qed.

(** A marker and a rect created at one clock reading, the marker
    cleared in between: the two ids differ by their type. *)
Lemma C4_witness :
  (NoDup
     (ids (history Current (init Current)
             ([LoadImage screenshot viewport;
               StageMouseDown (mkPoint 100 100) (Some "Submit"%string) 1000;
               ClearAnnotations true; SetTool Rect] ++
              dragSequence (mkPoint 10 10) None 1000 [mkPoint 100 80]
                1000)))
   /\
   NoDup
     (ids (annotations
             (run Current (init Current)
                ([LoadImage screenshot viewport;
                  StageMouseDown (mkPoint 100 100) (Some "Submit"%string)
                    1000;
                  ClearAnnotations true; SetTool Rect] ++
                 dragSequence (mkPoint 10 10) None 1000 [mkPoint 100 80]
                   1000)))))
  /\
  stamps_never_repeat Current
    ([LoadImage screenshot viewport; SetTool Rect] ++
     dragSequence (mkPoint 10 10) None 1000 [mkPoint 100 80] 2000 ++
     dragSequence (mkPoint 920 100) None 2000 [mkPoint 1000 160] 3000).
Proof.
  split.
  - destruct (proj1 (ids_distinct_while_stamps_differ Current
               ([LoadImage screenshot viewport;
                 StageMouseDown (mkPoint 100 100) (Some "Submit"%string)
                   1000;
                 ClearAnnotations true; SetTool Rect] ++
                dragSequence (mkPoint 10 10) None 1000 [mkPoint 100 80]
                  1000)
               (init Current) StageClick)) as [H1 [H2 _]].
    + unfold stamps_never_repeat.
      change (NoDup [(Some Marker, 1000); (Some Rect, 1000)]).
      repeat constructor; simpl; intuition discriminate.
    + split; assumption.
  - apply (proj1 (proj2 (ids_distinct_while_stamps_differ Current
             ([LoadImage screenshot viewport; SetTool Rect] ++
              dragSequence (mkPoint 10 10) None 1000 [mkPoint 100 80]
                2000 ++
              dragSequence (mkPoint 920 100) None 2000 [mkPoint 1000 160]
                3000)
             (init Current) StageClick))).
    change (NoDup [IdString "rect-2000"; IdString "rect-3000"]).
    repeat constructor; simpl; intuition discriminate.
Defined.

(** C4 fails when two annotations of one type are created at the same
    clock reading: the twin rects, both drawn from the stage background
    beside the image, carry one id. *)
Lemma twin_rects_share_an_id :
  ids (annotations twinRects) =
  [IdString "rect-1700000000001"; IdString "rect-1700000000001"] /\
  ~ NoDup (ids (annotations twinRects)).
Proof.
  split; [reflexivity|].
  intros H.
  change (ids (annotations twinRects))
    with [IdString "rect-1700000000001"; IdString "rect-1700000000001"]
    in H.
  inversion H as [|x l Hin _]. apply Hin. now left.
Qed.

(** Where the ids of the list are pairwise distinct, as they are while
    no clock reading repeats, every entry satisfies the condition under
    which drag end moves it alone. *)
Lemma distinct_ids_single_out_each_entry (l : list annotation) :
  NoDup (ids l) ->
  forall i A j B,
    nth_error l i = Some A -> nth_error l j = Some B -> j <> i ->
    ann_id B <> ann_id A.
Proof.
  intros Hnd i A j B HA HB Hji E. apply Hji.
  assert (Hi : nth_error (ids l) i = Some (ann_id A))
    by (unfold ids; now rewrite nth_error_map, HA).
  assert (Hj : nth_error (ids l) j = Some (ann_id B))
    by (unfold ids; now rewrite nth_error_map, HB).
  rewrite E in Hj.
  apply (proj1 (NoDup_nth_error (ids l)) Hnd).
  - apply nth_error_Some. now rewrite Hj.
  - now rewrite Hi, Hj.
Qed.

(** ** The scenarios of the specification *)

Example scenario_two_markers :
  annotations (twoMarkers Current) =
  [markerOf (IdString "marker-1000") 100 100 1 "Submit";
   markerOf (IdString "marker-2000") 200 50 2 ""].
Proof. reflexivity. Qed.

Example scenario_rect_below_threshold (r : revision) :
  annotations
    (run r (loaded r Rect)
       (dragSequence (mkPoint 10 10) None 0 [mkPoint 12 11] 1)) = [].
Proof. destruct r; reflexivity. Qed.

Example scenario_rect_dragged_up_and_left :
  annotations
    (run Current (loaded Current Rect)
       (dragSequence (mkPoint 100 80) None 0 [mkPoint 10 10] 1)) =
  [rectOf (IdString "rect-1") 10 10 90 70].
Proof. reflexivity. Qed.

Example scenario_click_without_move_commits_nothing (r : revision)
    (t : toolId) :
  annotations
    (run r (loaded r t) (dragSequence (mkPoint 10 10) None 0 [] 1)) =
  annotations (loaded r t) ++
  match t with
  | Marker => [markerOf (mkId r Marker 0) 10 10 1 ""]
  | _ => []
  end.
Proof. destruct r, t; reflexivity. Qed.

Example scenario_plain_export_at_image_size :
  option_map href
    (AnnotationCanvas.handleExport (plainLoaded Marker) "t") =
  Some {| raster_width := 800; raster_height := 600 |}.
Proof. reflexivity. Qed.

(** * Further properties of the code *)

(** ** The preview invariant *)

Lemma step_previewInvariant (r : revision) (st : state) (ev : event) :
  previewInvariant st -> previewInvariant (step r st ev).
Proof.
  intros [Hiff Hts].
  assert (Hnone : forall s : state,
            isDrawing s = false -> tempShape s = None ->
            previewInvariant s).
  { intros s Hd Ht. split.
    - rewrite Hd, Ht. split; [discriminate | congruence].
    - intros ts E. congruence. }
  assert (Hsame : forall s : state,
            isDrawing s = isDrawing st -> tempShape s = tempShape st ->
            previewInvariant s).
  { intros s Hd Ht. split.
    - now rewrite Hd, Ht.
    - intros ts E. apply Hts. congruence. }
  destruct ev as [im d | c | c | t | d | | i | p resp now | p | now
                  | i p | i p | ts]; simpl.
  - unfold loadImageFromFile. destruct (image st);
      [now apply Hsame | now apply Hnone].
  - destruct (image st); [|now apply Hsame]. unfold handleNewImage.
    destruct r; [|now apply Hnone].
    destruct ((0 <? Z.of_nat (List.length (annotations st))) && negb c);
      [now apply Hsame | now apply Hnone].
  - destruct (image st); [|now apply Hsame].
    destruct c; now apply Hsame.
  - destruct (image st); now apply Hsame.
  - destruct (image st); now apply Hsame.
  - destruct (image st); [|now apply Hsame]. destruct r; now apply Hsame.
  - destruct (image st); [|now apply Hsame]. unfold onSelect.
    destruct (nth_error (annotations st) i); now apply Hsame.
  - destruct (image st); [|now apply Hsame].
    unfold handleStageMouseDown. simpl.
    destruct (tool st) eqn:Et; simpl; try (now apply Hsame).
    + destruct resp as [s|]; [|now apply Hsame].
      destruct (truthy s); now apply Hsame.
    + split; simpl; [split; [discriminate | reflexivity]|].
      intros ts E. injection E as <-. rewrite ?Et.
      split; [destruct r; now left|].
      destruct r; simpl; intros w E; [discriminate|].
      do 3 eexists; repeat split; reflexivity.
    + split; simpl; [split; [discriminate | reflexivity]|].
      intros ts E. injection E as <-. rewrite ?Et.
      split; [destruct r; now right|].
      destruct r; simpl; intros w E; [discriminate|].
      do 3 eexists; repeat split; reflexivity.
  - destruct (image st); [|now apply Hsame].
    unfold handleStageMouseMove.
    destruct (isDrawing st) eqn:Ed; simpl; [|now apply Hsame].
    destruct (tempShape st) as [ts|] eqn:Ets; [|now apply Hsame].
    destruct (Hts ts eq_refl) as [Hty Hbox].
    destruct (ts_type ts) eqn:Ety; try (now apply Hsame).
    + split; simpl; [rewrite Ed; split; [discriminate | reflexivity]|].
      intros ts' E. injection E as <-. simpl. split; [now left|].
      intros w _. do 3 eexists; repeat split; reflexivity.
    + split; simpl; [rewrite Ed; split; [discriminate | reflexivity]|].
      intros ts' E. injection E as <-. simpl. split; [now right|].
      exact Hbox.
  - destruct (image st); [|now apply Hsame].
    unfold handleStageMouseUp.
    destruct (isDrawing st) eqn:Ed; simpl; [|now apply Hsame].
    destruct (tempShape st) as [ts|] eqn:Ets; [|now apply Hsame].
    apply Hnone;
      destruct (tool_eqb (ts_type ts) Rect
                && gt_undef (ts_width ts) (threshold r)
                && gt_undef (ts_height ts) (threshold r));
      try reflexivity;
      destruct (tool_eqb (ts_type ts) Circle
                && sqrt_gt_undef (ts_radius ts) (threshold r));
      reflexivity.
  - destruct (image st); now apply Hsame.
  - destruct (image st); [|now apply Hsame]. unfold onDragEnd.
    destruct (nth_error (annotations st) i); now apply Hsame.
  - destruct (image st); now apply Hsame.
Qed.

Lemma run_previewInvariant (r : revision) (evs : list event) :
  forall st, previewInvariant st -> previewInvariant (run r st evs).
Proof.
  induction evs as [|ev evs IH]; intros st H; [exact H|].
  simpl. apply IH. now apply step_previewInvariant.
Qed.

Lemma init_previewInvariant (r : revision) : previewInvariant (init r).
Proof.
  split; simpl.
  - split; [discriminate | congruence].
  - discriminate.
Qed.

(** X1.  In every state reached from the initial one, a drag is in
    progress exactly when there is a preview; the preview is a rect or a
    circle, started at some point, and once it has a width it has its
    whole box (x, y, width and height). *)
Theorem drag_flag_and_preview_agree (r : revision) (evs : list event) :
  (isDrawing (run r (init r) evs) = true <->
   tempShape (run r (init r) evs) <> None) /\
  forall ts, tempShape (run r (init r) evs) = Some ts ->
    (ts_type ts = Rect \/ ts_type ts = Circle) /\
    (forall w, ts_width ts = Some w ->
       exists x y h,
         ts_x ts = Some x /\ ts_y ts = Some y /\ ts_height ts = Some h).
Proof.
  exact (run_previewInvariant r evs (init r) (init_previewInvariant r)).
Qed.

(** ** Well-formed list entries *)

Lemma spread_wellFormed (r : revision) (A B : annotation) (nx ny : Z) :
  wellFormed r A -> wellFormed r (spread B (moved A nx ny)).
Proof.
  intros [Hid [_ Hty]]. unfold wellFormed. simpl.
  split; [exact Hid|]. split; [eauto|].
  destruct (ann_type A).
  - exact Hty.
  - destruct Hty as [n [l [E1 [Hn [E2 E3]]]]]. exists n, l.
    rewrite E1, E2, E3. auto.
  - destruct Hty as [t [E Ht]]. exists t. rewrite E. auto.
  - destruct Hty as [w [h [E1 [E2 [Hw [Hh E3]]]]]]. exists w, h.
    rewrite E1, E2, E3. auto.
  - destruct Hty as [s [E1 [Hs E2]]]. exists s. rewrite E1, E2. auto.
Qed.

Lemma Forall_snoc {A : Type} (P : A -> Prop) (l : list A) (a : A) :
  Forall P l -> P a -> Forall P (l ++ [a]).
Proof.
  intros Hl Ha. apply Forall_app. split; [exact Hl|]. now constructor.
Qed.

Lemma step_wellFormed (r : revision) (st : state) (ev : event) :
  previewInvariant st ->
  Forall (wellFormed r) (annotations st) ->
  Forall (wellFormed r) (annotations (step r st ev)).
Proof.
  intros [_ Hts] Hwf.
  destruct ev as [im d | c | c | t | d | | i | p resp now | p | now
                  | i p | i p | ts]; simpl.
  - unfold loadImageFromFile. destruct (image st); constructor.
  - destruct (image st); [|exact Hwf]. unfold handleNewImage.
    destruct r; [|constructor].
    destruct ((0 <? Z.of_nat (List.length (annotations st))) && negb c);
      [exact Hwf | constructor].
  - destruct (image st); [|exact Hwf]. destruct c; [constructor | exact Hwf].
  - destruct (image st); exact Hwf.
  - destruct (image st); exact Hwf.
  - destruct (image st); [|exact Hwf]. destruct r; exact Hwf.
  - destruct (image st); [|exact Hwf]. unfold onSelect.
    destruct (nth_error (annotations st) i); exact Hwf.
  - destruct (image st); [|exact Hwf].
    unfold handleStageMouseDown. simpl.
    destruct (tool st); simpl; try exact Hwf.
    + apply Forall_snoc; [exact Hwf|]. unfold wellFormed. simpl.
      split; [eauto|]. split; [eauto|].
      do 2 eexists. repeat split; try reflexivity. lia.
    + destruct resp as [s|]; [|exact Hwf].
      destruct (truthy s) eqn:Es; [|exact Hwf].
      apply Forall_snoc; [exact Hwf|]. unfold wellFormed. simpl.
      split; [eauto|]. split; [eauto|].
      exists s. split; [reflexivity | now apply truthy_spec].
  - destruct (image st); [|exact Hwf]. now rewrite mouse_move_list.
  - destruct (image st); [|exact Hwf].
    unfold handleStageMouseUp.
    destruct (isDrawing st); simpl; [|exact Hwf].
    destruct (tempShape st) as [ts|] eqn:Ets; [|exact Hwf].
    destruct (Hts ts eq_refl) as [_ Hbox].
    destruct (tool_eqb (ts_type ts) Rect
              && gt_undef (ts_width ts) (threshold r)
              && gt_undef (ts_height ts) (threshold r)) eqn:Er.
    + simpl. apply Forall_snoc; [exact Hwf|].
      apply andb_true_iff in Er. destruct Er as [Er Eh].
      apply andb_true_iff in Er. destruct Er as [_ Ew].
      apply gt_undef_spec in Ew, Eh.
      destruct Ew as [w [Ew Hw]]. destruct Eh as [h [Eh Hh]].
      destruct (Hbox w Ew) as [x [y [_ [Ex [Ey _]]]]].
      unfold wellFormed. simpl. split; [eauto|].
      split; [eauto|]. exists w, h. auto.
    + destruct (tool_eqb (ts_type ts) Circle
                && sqrt_gt_undef (ts_radius ts) (threshold r)) eqn:Ec;
        simpl; [|exact Hwf].
      apply Forall_snoc; [exact Hwf|].
      apply andb_true_iff in Ec. destruct Ec as [_ Ec].
      destruct (ts_radius ts) as [s|] eqn:Es; [|discriminate].
      simpl in Ec. apply sqrt_gtb_spec in Ec;
        [|destruct r; simpl; lia].
      unfold wellFormed. simpl. split; [eauto|].
      split; [eauto|]. exists s. auto.
  - destruct (image st); exact Hwf.
  - destruct (image st); [|exact Hwf]. unfold onDragEnd.
    destruct (nth_error (annotations st) i) as [A|] eqn:EA; [|exact Hwf].
    unfold handleAnnotationChange. simpl.
    assert (HA : wellFormed r A).
    { apply nth_error_In in EA. rewrite Forall_forall in Hwf. auto. }
    apply Forall_map. apply Forall_impl with (2 := Hwf).
    intros B HB. destruct (strict_eq (ann_id B) (ann_id A)); [|exact HB].
    now apply spread_wellFormed.
  - destruct (image st); exact Hwf.
Qed.

Lemma reachable_entries_wellFormed (r : revision) (evs : list event) :
  Forall (wellFormed r) (annotations (run r (init r) evs)).
Proof.
  induction evs as [|ev evs IH] using rev_ind.
  - constructor.
  - rewrite run_snoc. apply step_wellFormed; [|exact IH].
    apply run_previewInvariant, init_previewInvariant.
Qed.

(** X2.  In every state reached from the initial one, whatever the clock
    reads, every list entry is well formed: its id is built from its type
    and a clock reading, it has a position, and by type: a marker has a
    number of at least 1, a label and the primary style; a text has a
    non-empty text; a rect has a width and a height above the threshold
    (so above zero); a circle has a radius above the threshold. *)
Theorem list_entries_are_well_formed (r : revision) (evs : list event) :
  Forall (wellFormed r) (annotations (run r (init r) evs)).
Proof. apply reachable_entries_wellFormed. Qed.

(** ** The numbers of the markers in the list *)

Lemma creationClocks_app (r : revision) (l1 l2 : list event) :
  forall st,
    creationClocks r st (l1 ++ l2) =
    creationClocks r st l1 ++ creationClocks r (run r st l1) l2.
Proof.
  induction l1 as [|ev l1 IH]; intros st; [reflexivity|].
  simpl. now rewrite IH, app_assoc.
Qed.

Lemma clock_never_repeats_prefix (r : revision) (l1 l2 : list event) :
  clock_never_repeats r (l1 ++ l2) -> clock_never_repeats r l1.
Proof.
  unfold clock_never_repeats. rewrite creationClocks_app.
  apply NoDup_app_remove_r.
Qed.

Lemma reachable_ids_distinct (r : revision) (evs : list event) :
  clock_never_repeats r evs ->
  NoDup (ids (annotations (run r (init r) evs))).
Proof.
  intros H.
  destruct (ids_fresh_from r evs (init r) [] H) as [_ [H2 _]];
    simpl; auto.
  - intros i [].
  - constructor.
  - intros i [].
  - constructor.
Qed.

Lemma distinct_ids_injective (l : list annotation) :
  NoDup (ids l) ->
  forall a b, In a l -> In b l -> ann_id a = ann_id b -> a = b.
Proof.
  induction l as [|c l IH]; intros Hnd a b Ha Hb E; [contradiction|].
  unfold ids in Hnd. simpl in Hnd. apply NoDup_cons_iff in Hnd.
  destruct Hnd as [Hc Hnd].
  destruct Ha as [<- | Ha], Hb as [<- | Hb].
  - reflexivity.
  - exfalso. apply Hc. rewrite E. now apply in_map.
  - exfalso. apply Hc. rewrite <- E. now apply in_map.
  - now apply IH.
Qed.

Lemma numbersShown_map (f : annotation -> annotation)
    (l : list annotation) :
  (forall b, In b l ->
     isMarker (f b) = isMarker b /\ ann_number (f b) = ann_number b) ->
  numbersShown (map f l) = numbersShown l.
Proof.
  unfold numbersShown, markers.
  induction l as [|b l IH]; intros H; [reflexivity|].
  simpl. destruct (H b (or_introl eq_refl)) as [Hm Hn]. rewrite Hm.
  assert (IH' := IH (fun c Hc => H c (or_intror Hc))).
  destruct (isMarker b); simpl; now rewrite ?Hn, IH'.
Qed.

(** With distinct ids, drag end leaves the markers and their numbers
    alone. *)
Lemma drag_end_numbers (st : state) (i : nat) (p : point) :
  NoDup (ids (annotations st)) ->
  numbersShown (annotations (onDragEnd st i p)) =
  numbersShown (annotations st).
Proof.
  intros Hnd. unfold onDragEnd.
  destruct (nth_error (annotations st) i) as [A|] eqn:EA; [|reflexivity].
  unfold handleAnnotationChange. simpl. apply numbersShown_map.
  intros b Hb. destruct (strict_eq (ann_id b) (ann_id A)) eqn:E;
    [|now split].
  apply strict_eq_true in E.
  assert (b = A) as ->.
  { apply (distinct_ids_injective _ Hnd); auto.
    now apply nth_error_In in EA. }
  rewrite spread_moved. now split.
Qed.

Lemma numbersShown_snoc (l : list annotation) (a : annotation) :
  numbersShown (l ++ [a]) =
  numbersShown l ++ (if isMarker a then [ann_number a] else []).
Proof.
  unfold numbersShown. rewrite markers_app, map_app.
  change (markers [a]) with (if isMarker a then [a] else []).
  now destruct (isMarker a).
Qed.

Lemma consecutive_snoc (ns : list (option Z)) :
  consecutive ns ->
  consecutive (ns ++ [Some (Z.of_nat (List.length ns) + 1)]).
Proof.
  intros H k n Hk.
  destruct (Nat.lt_ge_cases k (List.length ns)) as [Hlt | Hge].
  - rewrite nth_error_app1 in Hk by exact Hlt. now apply H.
  - rewrite nth_error_app2 in Hk by exact Hge.
    destruct (k - List.length ns)%nat as [|j] eqn:Ej.
    + simpl in Hk. injection Hk as <-. do 2 f_equal. lia.
    + simpl in Hk. destruct j; discriminate.
Qed.

Lemma step_consecutive (r : revision) (st : state) (ev : event) :
  NoDup (ids (annotations st)) ->
  consecutive (numbersShown (annotations st)) ->
  consecutive (numbersShown (annotations (step r st ev))).
Proof.
  intros Hnd Hc.
  assert (Hdrag : forall i p, ev = DragEnd i p ->
            consecutive (numbersShown (annotations (step r st ev)))).
  { intros i p ->. simpl. destruct (image st); [|exact Hc].
    now rewrite drag_end_numbers. }
  destruct (step_list r st ev) as
    [[Hs _] | [[a [now [Hs [_ [_ [_ Hn]]]]]] | [[Hs _] | [Hs [_ Hco]]]]].
  - now rewrite Hs.
  - rewrite Hs, numbersShown_snoc.
    destruct (isMarker a) eqn:Em; [|now rewrite app_nil_r].
    rewrite (Hn eq_refl).
    replace (List.length (markers (annotations st)))
      with (List.length (numbersShown (annotations st)))
      by (unfold numbersShown; apply length_map).
    now apply consecutive_snoc.
  - rewrite Hs. intros [|k] n Hk; discriminate.
  - destruct ev; try discriminate; try (eapply Hdrag; reflexivity).
    + (* LoadImage *)
      simpl. unfold loadImageFromFile.
      destruct (image st); intros [|k] n Hk; discriminate.
    + (* NewImage *)
      simpl. destruct (image st); [|exact Hc]. unfold handleNewImage.
      destruct r;
        [destruct ((0 <? Z.of_nat (List.length (annotations st)))
                   && negb confirmed); [exact Hc|]|];
        intros [|k] n Hk; discriminate.
    + (* ClearAnnotations *)
      simpl. destruct (image st); [|exact Hc].
      destruct confirmed; [|exact Hc].
      intros [|k] n Hk; discriminate.
Qed.

(** X3.  Provided no two creating events read the same clock value, in
    every state reached from the initial one the markers of the list are
    numbered 1, 2, ..., k in list order: clearing restarts the count,
    drags and other annotations do not disturb it. *)
Theorem markers_in_the_list_are_numbered_consecutively
    (r : revision) (evs : list event) :
  clock_never_repeats r evs ->
  consecutive (numbersShown (annotations (run r (init r) evs))).
Proof.
  induction evs as [|ev evs IH] using rev_ind; intros Hclk.
  - intros [|k] n Hk; discriminate.
  - rewrite run_snoc.
    assert (Hpre := clock_never_repeats_prefix r evs [ev] Hclk).
    apply step_consecutive; [now apply reachable_ids_distinct | auto].
Qed.

Lemma X3_witness :
  consecutive
    (numbersShown
       (annotations
          (run Current (init Current)
             [LoadImage screenshot viewport;
              StageMouseDown (mkPoint 100 100) (Some "Submit"%string) 1000;
              ClearAnnotations true;
              StageMouseDown (mkPoint 200 50) None 2000;
              DragEnd 0 (mkPoint 210 60);
              StageMouseDown (mkPoint 300 80) None 3000]))).
Proof.
  apply (markers_in_the_list_are_numbered_consecutively Current).
  unfold clock_never_repeats. change (NoDup [1000; 2000; 3000]).
  repeat constructor; simpl; intuition discriminate.
Defined.

(** ** Pointer moves of a drag *)

(** What the moves of a drag leave as pointer-down wrote it. *)
Lemma drag_keeps_untouched_fields (r : revision) (st : state) (im : bitmap)
    (p0 : point) (response : option string) (now0 : Z)
    (moves : list point) :
  image st = Some im ->
  tool st = Rect \/ tool st = Circle ->
  exists ts,
    previewing st (run r st (dragMoves p0 response now0 moves)) ts /\
    ts_type ts = tool st /\
    startX ts = px p0 /\ startY ts = py p0 /\
    (tool st = Rect ->
     ts_radius ts = ts_radius (startShape r Rect p0)) /\
    (tool st = Circle ->
     ts_x ts = ts_x (startShape r Circle p0) /\
     ts_y ts = ts_y (startShape r Circle p0) /\
     ts_width ts = ts_width (startShape r Circle p0) /\
     ts_height ts = ts_height (startShape r Circle p0)).
Proof.
  intros Him Ht. induction moves as [|c ms IH] using rev_ind.
  - exists (startShape r (tool st) p0). simpl. split.
    + now apply (mouse_down_previewing r st im).
    + destruct Ht as [E | E]; rewrite E; destruct r; repeat split;
        intros; try reflexivity; discriminate.
  - destruct IH as [ts [Hp [Hty [Hx [Hy [Hr Hc]]]]]].
    unfold dragMoves in *. rewrite map_app.
    change (map StageMouseMove [c]) with [StageMouseMove c].
    rewrite app_comm_cons, run_snoc.
    unfold previewing in Hp. rewrite Hp. simpl. rewrite Him.
    unfold handleStageMouseMove. simpl. rewrite Hty.
    destruct Ht as [E | E]; rewrite E in *; eexists;
      (split; [reflexivity|]); simpl;
      (split; [reflexivity|]); (split; [exact Hx|]);
      (split; [exact Hy|]); split; intros E'; try discriminate.
    + now apply Hr.
    + destruct (Hc eq_refl) as [H1 [H2 [H3 H4]]]. auto.
Qed.

(** X4.  While a rect or circle is being dragged, only the last pointer
    move counts: the state after pointer-down and any moves followed by a
    move to [c] is the state after pointer-down and the single move to
    [c]. *)
Theorem only_the_last_pointer_move_counts
    (r : revision) (st : state) (im : bitmap) (p0 : point)
    (response : option string) (now0 : Z) (moves : list point)
    (c : point) :
  image st = Some im ->
  tool st = Rect \/ tool st = Circle ->
  run r st (dragMoves p0 response now0 (moves ++ [c])) =
  run r st (dragMoves p0 response now0 [c]).
Proof.
  intros Him Ht.
  destruct (drag_keeps_untouched_fields r st im p0 response now0 moves
              Him Ht) as [ts [Hp [Hty [Hx [Hy [Hr Hc]]]]]].
  destruct (drag_keeps_untouched_fields r st im p0 response now0 []
              Him Ht) as [ts0 [Hp0 [Hty0 [Hx0 [Hy0 [Hr0 Hc0]]]]]].
  change [c] with ([] ++ [c]) at 2.
  unfold dragMoves in *. rewrite !map_app.
  change (map StageMouseMove [c]) with [StageMouseMove c].
  rewrite !app_comm_cons, !run_snoc.
  unfold previewing in Hp, Hp0. rewrite Hp, Hp0. simpl. rewrite Him.
  unfold handleStageMouseMove. simpl. rewrite Hty, Hty0.
  destruct Ht as [E | E]; rewrite E in *.
  - rewrite Hx, Hy, Hx0, Hy0, (Hr eq_refl), (Hr0 eq_refl). reflexivity.
  - destruct (Hc eq_refl) as [H1 [H2 [H3 H4]]].
    destruct (Hc0 eq_refl) as [G1 [G2 [G3 G4]]].
    rewrite Hx, Hy, Hx0, Hy0, H1, H2, H3, H4, G1, G2, G3, G4.
    reflexivity.
Qed.

Lemma X4_witness :
  run Current (loaded Current Rect)
    (dragMoves (mkPoint 10 10) None 0
       ([mkPoint 500 5; mkPoint 0 300] ++ [mkPoint 100 80])) =
  run Current (loaded Current Rect)
    (dragMoves (mkPoint 10 10) None 0 [mkPoint 100 80]).
Proof.
  apply (only_the_last_pointer_move_counts Current (loaded Current Rect)
           screenshot);
    [reflexivity | left; reflexivity].
Defined.

(** X5.  A press and release on the stage background without a pointer
    move in between, with the rect or the circle tool, creates nothing in
    either revision: the list is as before, the drag is over, the preview
    is gone and nothing is selected. *)
Theorem press_and_release_without_move_creates_nothing
    (r : revision) (st : state) (im : bitmap) (p0 : point)
    (response : option string) (now0 now : Z) :
  image st = Some im ->
  tool st = Rect \/ tool st = Circle ->
  run r st (dragSequence p0 response now0 [] now) =
  setDrawing (setSelectedId st None) false None.
Proof.
  intros Him Ht. unfold dragSequence, dragMoves. simpl. rewrite Him.
  unfold handleStageMouseDown. simpl.
  destruct Ht as [E | E]; rewrite E; simpl; rewrite Him;
    unfold handleStageMouseUp; simpl; destruct r; reflexivity.
Qed.

Lemma X5_witness :
  run Earlier (loaded Earlier Circle)
    (dragSequence (mkPoint 900 100) None 0 [] 1) =
  setDrawing (setSelectedId (loaded Earlier Circle) None) false None.
Proof.
  apply (press_and_release_without_move_creates_nothing Earlier
           (loaded Earlier Circle) screenshot);
    [reflexivity | right; reflexivity].
Defined.

(** X6.  A circle drag from [p0] whose last pointer position is [c]
    commits a circle exactly when the squared distance of [c] from [p0]
    is greater than the squared threshold, that is, when the distance is
    greater than the threshold; a distance equal to the threshold commits
    nothing.  The committed circle is centred at [p0] and its radius is
    that distance. *)
Theorem circle_drag_commits_iff_distance_exceeds_threshold
    (r : revision) (st : state) (im : bitmap) (p0 c : point)
    (response : option string) (now0 : Z) (moves : list point) (now : Z) :
  image st = Some im ->
  tool st = Circle ->
  annotations (run r st (dragSequence p0 response now0 (moves ++ [c]) now)) =
  annotations st ++
  (if threshold r * threshold r <?
      (px c - px p0) ^ 2 + (py c - py p0) ^ 2
   then [circleOf (mkId r Circle now) (px p0) (py p0)
           (Msqrt ((px c - px p0) ^ 2 + (py c - py p0) ^ 2))]
   else []) /\
  ((threshold r * threshold r <?
    (px c - px p0) ^ 2 + (py c - py p0) ^ 2) = true <->
   (IZR (threshold r) <
    radius_value (Msqrt ((px c - px p0) ^ 2 + (py c - py p0) ^ 2)))%R).
Proof.
  intros Him Ht. split.
  - destruct (Z.ltb_spec (threshold r * threshold r)
                ((px c - px p0) ^ 2 + (py c - py p0) ^ 2)) as [Hlt | Hge].
    + now apply (circle_drag_commit r st im).
    + destruct (drag_last_move r st im p0 response now0 moves c Him
                  (or_intror Ht)) as [ts [Hp [Hty [Hx [Hy [_ Hc]]]]]].
      specialize (Hc Ht).
      unfold dragSequence. rewrite run_snoc.
      unfold previewing in Hp. rewrite Hp. simpl. rewrite Him.
      unfold handleStageMouseUp. simpl.
      rewrite Hty, Ht, Hc. simpl. unfold sqrt_gtb. simpl.
      assert (H0 : (threshold r <? 0) = false)
        by (destruct r; reflexivity).
      rewrite H0.
      change (Z.pow_pos (px c - px p0) 2) with ((px c - px p0) ^ 2).
      change (Z.pow_pos (py c - py p0) 2) with ((py c - py p0) ^ 2).
      apply Z.ltb_ge in Hge. rewrite Hge. simpl. now rewrite app_nil_r.
  - rewrite <- (sqrt_gtb_spec _ (threshold r))
      by (destruct r; simpl; lia).
    unfold sqrt_gtb.
    assert (H0 : (threshold r <? 0) = false)
      by (destruct r; reflexivity).
    rewrite H0. reflexivity.
Qed.

Lemma X6_witness :
  annotations
    (run Current (loaded Current Circle)
       (dragSequence (mkPoint 10 10) None 0 ([] ++ [mkPoint 16 18]) 7)) =
  [] ++ (if 10 * 10 <? (16 - 10) ^ 2 + (18 - 10) ^ 2
         then [circleOf (IdString "circle-7") 10 10
                 (Msqrt ((16 - 10) ^ 2 + (18 - 10) ^ 2))]
         else []).
Proof.
  apply (circle_drag_commits_iff_distance_exceeds_threshold Current
           (loaded Current Circle) screenshot (mkPoint 10 10)
           (mkPoint 16 18) None 0 [] 7);
    reflexivity.
Defined.

(** ** Drag ends compose *)

Lemma spread_spread_moved (A B : annotation) (px1 py1 px2 py2 : Z) :
  spread (spread B (moved A px1 py1)) (moved A px2 py2) =
  spread B (moved A px2 py2).
Proof.
  destruct A as [i t x y n l s tx w h rd]. unfold spread, moved; simpl.
  destruct n, l, s, tx, w, h, rd; reflexivity.
Qed.

Lemma moved_moved (A : annotation) (x1 y1 x2 y2 : Z) :
  moved (moved A x1 y1) x2 y2 = moved A x2 y2.
Proof. reflexivity. Qed.

Lemma nth_error_handleAnnotationChange (st : state) (id : ident)
    (newProps : annotation) (j : nat) :
  nth_error (annotations (handleAnnotationChange st id newProps)) j =
  option_map
    (fun ann => if strict_eq (ann_id ann) id then spread ann newProps
                else ann)
    (nth_error (annotations st) j).
Proof. unfold handleAnnotationChange. simpl. apply nth_error_map. Qed.

(** X7.  Dragging the same entry twice is dragging it once to the last
    position: the second drag end overwrites what the first wrote, for
    every entry the first had written, whatever the ids in the list. *)
Theorem second_drag_end_of_an_entry_wins
    (st : state) (i : nat) (p q : point) :
  onDragEnd (onDragEnd st i p) i q = onDragEnd st i q.
Proof.
  unfold onDragEnd at 2 3.
  destruct (nth_error (annotations st) i) as [A|] eqn:EA.
  - unfold onDragEnd.
    rewrite nth_error_handleAnnotationChange, EA.
    cbn [option_map]. rewrite strict_eq_refl, spread_moved, moved_moved.
    unfold handleAnnotationChange. cbn [annotations setAnnotations].
    unfold setAnnotations. cbn [image tool annotations selectedId isDrawing
                                tempShape dimensions].
    f_equal. rewrite map_map. apply map_ext. intros B.
    cbn [ann_id moved].
    destruct (strict_eq (ann_id B) (ann_id A)) eqn:E.
    + cbn [ann_id spread moved]. rewrite strict_eq_refl.
      apply spread_spread_moved.
    + now rewrite E.
  - unfold onDragEnd. now rewrite EA.
Qed.

(** X8.  Drag ends of two entries with different ids commute: the list
    after both does not depend on which was dropped first. *)
Theorem drag_ends_of_different_ids_commute
    (st : state) (i j : nat) (A B : annotation) (p q : point) :
  nth_error (annotations st) i = Some A ->
  nth_error (annotations st) j = Some B ->
  ann_id A <> ann_id B ->
  onDragEnd (onDragEnd st i p) j q = onDragEnd (onDragEnd st j q) i p.
Proof.
  intros HA HB Hne.
  assert (Hne' : ann_id B <> ann_id A) by congruence.
  unfold onDragEnd at 2 4. rewrite HA, HB. unfold onDragEnd.
  rewrite !nth_error_handleAnnotationChange, HA, HB. simpl.
  rewrite (strict_eq_false _ _ Hne), (strict_eq_false _ _ Hne').
  unfold handleAnnotationChange. simpl. unfold setAnnotations. simpl.
  f_equal. rewrite !map_map. apply map_ext. intros C.
  destruct (strict_eq (ann_id C) (ann_id A)) eqn:Ea;
    destruct (strict_eq (ann_id C) (ann_id B)) eqn:Eb; simpl;
    rewrite ?Ea, ?Eb, ?strict_eq_refl,
      ?(strict_eq_false _ _ Hne), ?(strict_eq_false _ _ Hne');
    try reflexivity.
  apply strict_eq_true in Ea, Eb. congruence.
Qed.

Lemma X8_witness :
  onDragEnd (onDragEnd (twoMarkers Current) 0 (mkPoint 300 310)) 1
    (mkPoint 20 30) =
  onDragEnd (onDragEnd (twoMarkers Current) 1 (mkPoint 20 30)) 0
    (mkPoint 300 310).
Proof.
  apply (drag_ends_of_different_ids_commute (twoMarkers Current) 0 1
           (markerOf (IdString "marker-1000") 100 100 1 "Submit")
           (markerOf (IdString "marker-2000") 200 50 2 ""));
    [reflexivity | reflexivity | discriminate].
Defined.

(** ** Selection *)

Lemma mouse_down_deselects (r : revision) (st : state) (p : point)
    (response : option string) (now : Z) :
  selectedId (handleStageMouseDown r st p response now) = None.
Proof.
  unfold handleStageMouseDown. simpl.
  destruct (tool st); simpl; try reflexivity.
  destruct response as [s|]; [|reflexivity].
  destruct (truthy s); reflexivity.
Qed.

(** X9.  Clicking a list entry whose id no other entry carries
    highlights that entry and no other, and leaves the list as it is.  A
    pointer-down on the stage background, with any tool and any prompt
    answer, leaves nothing highlighted: an annotation just created is not
    selected. *)
Theorem click_selects_one_and_background_deselects
    (r : revision) (st : state) (im : bitmap) (i : nat) (A : annotation)
    (p : point) (response : option string) (now : Z) :
  (image st = Some im ->
   nth_error (annotations st) i = Some A ->
   NoDup (ids (annotations st)) ->
   annotations (step r st (AnnotationClick i)) = annotations st /\
   forall j B,
     nth_error (annotations st) j = Some B ->
     (isSelected (step r st (AnnotationClick i)) B = true <-> j = i))
  /\
  (image st = Some im ->
   forall a,
     isSelected (step r st (StageMouseDown p response now)) a = false).
Proof.
  split.
  - intros Him HA Hnd. simpl. rewrite Him. unfold onSelect. rewrite HA.
    split; [reflexivity|].
    intros j B HB. unfold isSelected. simpl. split.
    + intros E. apply strict_eq_true in E.
      destruct (Nat.eq_dec j i) as [-> | Hji]; [reflexivity|].
      exfalso.
      now apply (distinct_ids_single_out_each_entry _ Hnd i A j B).
    + intros ->. rewrite HA in HB. injection HB as <-.
      apply strict_eq_refl.
  - intros Him a. simpl. rewrite Him. unfold isSelected.
    now rewrite mouse_down_deselects.
Qed.

Lemma X9_witness :
  (forall j B,
     nth_error (annotations (twoMarkers Current)) j = Some B ->
     (isSelected (step Current (twoMarkers Current) (AnnotationClick 1)) B
      = true <-> j = 1%nat))
  /\
  (forall a,
     isSelected
       (step Current (twoMarkers Current)
          (StageMouseDown (mkPoint 5 5) None 3000)) a = false).
Proof.
  split.
  - apply (proj1 (click_selects_one_and_background_deselects Current
             (twoMarkers Current) screenshot 1
             (markerOf (IdString "marker-2000") 200 50 2 "")
             (mkPoint 5 5) None 3000));
      [reflexivity | reflexivity |].
    change (NoDup [IdString "marker-1000"; IdString "marker-2000"]).
    repeat constructor; simpl; intuition discriminate.
  - apply (proj2 (click_selects_one_and_background_deselects Current
             (twoMarkers Current) screenshot 1
             (markerOf (IdString "marker-2000") 200 50 2 "")
             (mkPoint 5 5) None 3000)).
    reflexivity.
Defined.

(** ** Events that only change the view *)

Lemma step_viewOnly (r : revision) (st : state) (ev : event) :
  viewOnly ev = true ->
  annotations (step r st ev) = annotations st /\
  image (step r st ev) = image st.
Proof.
  intros Hv. destruct ev; try discriminate; simpl;
    destruct (image st) eqn:Him; try (now split).
  - destruct r; now split.
  - unfold onSelect. destruct (nth_error (annotations st) i); now split.
  - split; [apply mouse_move_list|].
    unfold handleStageMouseMove.
    destruct (isDrawing st); simpl; [|exact Him].
    destruct (tempShape st) as [ts|]; [|exact Him].
    destruct (ts_type ts); exact Him.
Qed.

(** X10.  Choosing tools, resizing, clicking, moving the pointer and
    exporting never change the annotation list or the image, however
    many such events follow one another; choosing the tool that is
    already active changes nothing at all. *)
Theorem view_events_leave_the_list_alone
    (r : revision) (st : state) (evs : list event) :
  (forallb viewOnly evs = true ->
   annotations (run r st evs) = annotations st /\
   image (run r st evs) = image st)
  /\
  step r st (SetTool (tool st)) = st.
Proof.
  split.
  - revert st. induction evs as [|ev evs IH]; intros st Hall;
      [now split|].
    simpl in Hall. apply andb_true_iff in Hall. destruct Hall as [Hv Hall].
    destruct (step_viewOnly r st ev Hv) as [Ha Hi].
    destruct (IH (step r st ev) Hall) as [Ha' Hi'].
    simpl. split; congruence.
  - simpl. destruct st as [im t l s d ts dim]. simpl.
    now destruct im.
Qed.

Lemma X10_witness :
  annotations
    (run Current (twoMarkers Current)
       [SetTool Rect; StageMouseMove (mkPoint 3 4); AnnotationClick 0;
        Resize (mkSize 640 480); ExportClick "t"; StageClick]) =
  annotations (twoMarkers Current).
Proof.
  apply (proj1 (view_events_leave_the_list_alone Current
                  (twoMarkers Current)
                  [SetTool Rect; StageMouseMove (mkPoint 3 4);
                   AnnotationClick 0; Resize (mkSize 640 480);
                   ExportClick "t"; StageClick])).
  reflexivity.
Defined.

(** ** The preview and the committed shape *)

(** X11.  Whenever pointer-up appends a shape, the render was drawing a
    live preview of it just before, with the same geometry: the box of a
    rect, the centre and radius of a circle.  (In the current revision
    the preview is only drawn for a positive width or radius; what is
    committed passes that test.) *)
Theorem committed_shape_was_previewed
    (r : revision) (st : state) (im : bitmap) (now : Z) (a : annotation) :
  image st = Some im ->
  annotations (step r st (StageMouseUp now)) = annotations st ++ [a] ->
  livePreview r st = shapeOf a /\ shapeOf a <> None.
Proof.
  intros Him Ha. simpl in Ha. rewrite Him in Ha.
  unfold handleStageMouseUp in Ha. unfold livePreview.
  destruct (isDrawing st); simpl in Ha;
    [|symmetry in Ha; now apply app_one_neq in Ha].
  destruct (tempShape st) as [ts|];
    [|symmetry in Ha; now apply app_one_neq in Ha].
  assert (H0 : 0 <= threshold r) by (destruct r; simpl; lia).
  destruct (tool_eqb (ts_type ts) Rect
            && gt_undef (ts_width ts) (threshold r)
            && gt_undef (ts_height ts) (threshold r)) eqn:Er.
  - simpl in Ha. apply app_inj_tail in Ha. destruct Ha as [_ <-].
    apply andb_true_iff in Er. destruct Er as [Er _].
    apply andb_true_iff in Er. destruct Er as [Ety Ew].
    destruct (ts_type ts); try discriminate.
    apply gt_undef_spec in Ew. destruct Ew as [w [Ew Hw]].
    unfold shapeOf. simpl. rewrite Ew. simpl.
    replace (0 <? w) with true by (symmetry; apply Z.ltb_lt; lia).
    destruct r; split; try reflexivity; discriminate.
  - destruct (tool_eqb (ts_type ts) Circle
              && sqrt_gt_undef (ts_radius ts) (threshold r)) eqn:Ec;
      simpl in Ha; [|symmetry in Ha; now apply app_one_neq in Ha].
    apply app_inj_tail in Ha. destruct Ha as [_ <-].
    apply andb_true_iff in Ec. destruct Ec as [Ety Ec].
    destruct (ts_type ts); try discriminate.
    destruct (ts_radius ts) as [s|]; [|discriminate].
    unfold shapeOf. simpl. simpl in Ec. unfold sqrt_gtb in *. simpl.
    destruct (Z.ltb_spec (threshold r) 0) as [Hn | _]; [lia|].
    apply Z.ltb_lt in Ec.
    replace (0 <? radicand s) with true by (symmetry; apply Z.ltb_lt; nia).
    destruct r; split; try reflexivity; discriminate.
Qed.

Lemma X11_witness :
  livePreview Current
    (run Current (loaded Current Rect)
       (dragMoves (mkPoint 10 10) None 0 [mkPoint 100 80])) =
  shapeOf (rectOf (IdString "rect-1") 10 10 90 70).
Proof.
  apply (committed_shape_was_previewed Current
           (run Current (loaded Current Rect)
              (dragMoves (mkPoint 10 10) None 0 [mkPoint 100 80]))
           screenshot 1 (rectOf (IdString "rect-1") 10 10 90 70));
    reflexivity.
Defined.

(** ** The label pill of a marker *)

Lemma labelWidth_fits (r : revision) (label : string) :
  Z.of_nat (jsLength label) * 8 + 16 <= labelWidth r label /\
  (r = Current -> 80 <= labelWidth r label).
Proof.
  destruct r; simpl; split; try lia; discriminate.
Qed.

Lemma codeUnits_ascii (c : ascii) :
  (nat_of_ascii c < 128)%nat -> codeUnits c = 1%nat.
Proof.
  intros H. unfold codeUnits, isContinuationByte, isFourByteLead.
  destruct (Nat.leb_spec 128 (nat_of_ascii c)) as [H128|_]; [lia|].
  cbn [andb].
  destruct (Nat.leb_spec 240 (nat_of_ascii c)) as [H240|_]; [lia|].
  reflexivity.
Qed.

(** An ASCII string has one code unit per character. *)
Lemma jsLength_ascii (s : string) :
  isAscii s = true -> jsLength s = String.length s.
Proof.
  induction s as [|c s IH]; cbn [isAscii jsLength String.length];
    intros H; [reflexivity|].
  apply andb_true_iff in H. destruct H as [Hc Hs].
  apply Nat.ltb_lt in Hc.
  now rewrite (IH Hs), (codeUnits_ascii c Hc).
Qed.

(** A three-character label outside ASCII, nine bytes in UTF-8, has
    length 3: its pill is 80 wide in the current revision and 40 in the
    earlier one.  A character outside the basic plane is two code
    units. *)
Example scenario_label_outside_ascii :
  let label :=
    String "230" (String "151" (String "165"
   (String "230" (String "156" (String "172"
   (String "232" (String "170" (String "158" EmptyString)))))))) in
  String.length label = 9%nat /\
  jsLength label = 3%nat /\
  labelWidth Current label = 80 /\
  labelWidth Earlier label = 40 /\
  jsLength
    (String "240" (String "159" (String "152" (String "128" EmptyString))))
  = 2%nat.
Proof. repeat split; reflexivity. Qed.

(** X12.  The marker that a pointer-down with the marker tool creates is
    drawn with the decimal numeral of its number and, exactly when the
    prompt answered a non-empty string, with a label pill that carries
    the answer; the pill is [label.length * 8 + 16] wide in the earlier
    revision and at least that and at least 80 in the current one, where
    [label.length] counts UTF-16 code units, one per character for an
    ASCII answer.  After a cancelled or empty prompt there is no pill. *)
Theorem created_marker_is_drawn_with_its_answer
    (r : revision) (st : state) (im : bitmap) (p : point)
    (response : option string) (now : Z) (selected : bool) :
  image st = Some im ->
  tool st = Marker ->
  exists a,
    annotations (step r st (StageMouseDown p response now)) =
    annotations st ++ [a] /\
    marker_numeral (NumberMarker r a selected) =
    Some (decimal (Z.of_nat (List.length (markers (annotations st))) + 1))
    /\
    (forall s, response = Some s -> s <> ""%string ->
       marker_pill (NumberMarker r a selected) =
       Some {| pill_width := labelWidth r s; pill_height := 32;
               pill_text := s |} /\
       Z.of_nat (jsLength s) * 8 + 16 <= labelWidth r s /\
       (r = Current -> 80 <= labelWidth r s) /\
       (r = Earlier -> labelWidth r s = Z.of_nat (jsLength s) * 8 + 16) /\
       (isAscii s = true -> jsLength s = String.length s)) /\
    (response = None \/ response = Some ""%string ->
       marker_pill (NumberMarker r a selected) = None).
Proof.
  intros Him Ht. simpl. rewrite Him. unfold handleStageMouseDown. simpl.
  rewrite Ht. eexists. split; [reflexivity|]. simpl.
  split; [reflexivity|]. split.
  - intros s -> Hs. apply truthy_spec in Hs. simpl.
    rewrite Hs. simpl. rewrite Hs.
    split; [reflexivity|].
    split; [apply labelWidth_fits|].
    split; [apply labelWidth_fits|].
    split; [now intros -> | apply jsLength_ascii].
  - intros [-> | ->]; reflexivity.
Qed.

Lemma X12_witness :
  exists a,
    annotations
      (step Current (loaded Current Marker)
         (StageMouseDown (mkPoint 100 100) (Some "Submit"%string) 1000)) =
    [] ++ [a] /\
    marker_numeral (NumberMarker Current a false) = Some (decimal (0 + 1)) /\
    (forall s, Some "Submit"%string = Some s -> s <> ""%string ->
       marker_pill (NumberMarker Current a false) =
       Some {| pill_width := labelWidth Current s; pill_height := 32;
               pill_text := s |} /\
       Z.of_nat (jsLength s) * 8 + 16 <= labelWidth Current s /\
       (Current = Current -> 80 <= labelWidth Current s) /\
       (Current = Earlier ->
        labelWidth Current s = Z.of_nat (jsLength s) * 8 + 16) /\
       (isAscii s = true -> jsLength s = String.length s)) /\
    (Some "Submit"%string = None \/ Some "Submit"%string = Some ""%string ->
       marker_pill (NumberMarker Current a false) = None).
Proof.
  apply (created_marker_is_drawn_with_its_answer Current
           (loaded Current Marker) screenshot (mkPoint 100 100)
           (Some "Submit"%string) 1000 false);
    reflexivity.
Defined.

(** ** The export file name *)

Lemma replace_append (s t : string) :
  replaceColonsAndPeriods (s ++ t) =
  (replaceColonsAndPeriods s ++ replaceColonsAndPeriods t)%string.
Proof.
  induction s as [|c s IH]; simpl; [reflexivity | now rewrite IH].
Qed.

Lemma replace_plain (s : string) :
  plain s = true -> replaceColonsAndPeriods s = s.
Proof.
  induction s as [|c s IH]; simpl; [reflexivity|].
  intros H. apply andb_true_iff in H. destruct H as [Hc Hs].
  apply negb_true_iff in Hc. now rewrite Hc, IH.
Qed.

Lemma replace_is_plain (s : string) : plain (replaceColonsAndPeriods s) = true.
Proof.
  induction s as [|c s IH]; simpl; [reflexivity|].
  rewrite IH, andb_true_r.
  destruct (Ascii.eqb c ":" || Ascii.eqb c ".")%bool eqn:E;
    [reflexivity | now rewrite E].
Qed.

Lemma replace_length (s : string) :
  String.length (replaceColonsAndPeriods s) = String.length s.
Proof.
  induction s as [|c s IH]; simpl; [reflexivity | now rewrite IH].
Qed.

Lemma substring_plain (n : nat) (s : string) :
  plain s = true -> plain (substring 0 n s) = true.
Proof.
  revert n. induction s as [|c s IH]; intros [|n] H; simpl; auto.
  simpl in H. apply andb_true_iff in H. destruct H as [Hc Hs].
  now rewrite Hc, IH.
Qed.

Lemma substring_length (n : nat) (s : string) :
  (n <= String.length s)%nat -> String.length (substring 0 n s) = n.
Proof.
  revert n. induction s as [|c s IH]; intros [|n] H; simpl in *;
    try reflexivity; try lia.
  rewrite IH; lia.
Qed.

Lemma substring_prefix (s t : string) :
  substring 0 (String.length s) (s ++ t) = s.
Proof.
  induction s as [|c s IH]; simpl.
  - now destruct t.
  - now rewrite IH.
Qed.

Lemma append_length (s t : string) :
  String.length (s ++ t) = (String.length s + String.length t)%nat.
Proof.
  induction s as [|c s IH]; simpl; [reflexivity | now rewrite IH].
Qed.

Lemma append_assoc (s t u : string) :
  ((s ++ t) ++ u)%string = (s ++ (t ++ u))%string.
Proof.
  induction s as [|c s IH]; simpl; [reflexivity | now rewrite IH].
Qed.

(** X13.  The time stamp of the export file name never holds a colon or
    a period and is the ISO string less its last five characters.  For
    an ISO string [date T hh:mm:ss.mmmZ] it is [date T hh-mm-ss]: the
    milliseconds are dropped, so the exports of one second share the
    file name [annotated-<date>T<hh>-<mm>-<ss>.png]. *)
Theorem export_timestamp_has_second_resolution
    (iso date hh mm ss ms : string) (st : state) (im : bitmap) :
  plain (exportTimestamp iso) = true /\
  String.length (exportTimestamp iso) = (String.length iso - 5)%nat /\
  (plain date = true -> plain hh = true -> plain mm = true ->
   plain ss = true -> String.length ms = 3%nat ->
   image st = Some im ->
   exportTimestamp
     (date ++ "T" ++ hh ++ ":" ++ mm ++ ":" ++ ss ++ "." ++ ms ++ "Z") =
   (date ++ "T" ++ hh ++ "-" ++ mm ++ "-" ++ ss)%string /\
   option_map filename
     (handleExport Current st
        (exportTimestamp
           (date ++ "T" ++ hh ++ ":" ++ mm ++ ":" ++ ss ++ "." ++ ms
            ++ "Z"))) =
   Some ("annotated-" ++ date ++ "T" ++ hh ++ "-" ++ mm ++ "-" ++ ss
         ++ ".png")%string).
Proof.
  split; [|split].
  - unfold exportTimestamp, sliceOffLast5.
    apply substring_plain, replace_is_plain.
  - unfold exportTimestamp, sliceOffLast5.
    rewrite substring_length; rewrite replace_length; lia.
  - intros Hd Hh Hm Hs Hms Him.
    assert (E : exportTimestamp
              (date ++ "T" ++ hh ++ ":" ++ mm ++ ":" ++ ss ++ "." ++ ms
               ++ "Z") =
            (date ++ "T" ++ hh ++ "-" ++ mm ++ "-" ++ ss)%string).
    { unfold exportTimestamp, sliceOffLast5.
      rewrite !replace_append, (replace_plain date Hd),
        (replace_plain hh Hh), (replace_plain mm Hm),
        (replace_plain ss Hs).
      change (replaceColonsAndPeriods "T") with "T"%string.
      change (replaceColonsAndPeriods ":") with "-"%string.
      change (replaceColonsAndPeriods ".") with "-"%string.
      change (replaceColonsAndPeriods "Z") with "Z"%string.
      replace (date ++ "T" ++ hh ++ "-" ++ mm ++ "-" ++ ss ++ "-"
               ++ replaceColonsAndPeriods ms ++ "Z")%string
        with ((date ++ "T" ++ hh ++ "-" ++ mm ++ "-" ++ ss)
              ++ ("-" ++ replaceColonsAndPeriods ms ++ "Z"))%string
        by (rewrite !append_assoc; reflexivity).
      rewrite append_length.
      replace (String.length ("-" ++ replaceColonsAndPeriods ms ++ "Z"))
        with 5%nat
        by (simpl; rewrite append_length, replace_length, Hms;
            reflexivity).
      rewrite Nat.add_sub. apply substring_prefix. }
    split; [exact E|]. rewrite E. unfold handleExport, canvasRef.
    rewrite Him. simpl. repeat (rewrite append_assoc; simpl).
    reflexivity.
Qed.

Lemma X13_witness :
  exportTimestamp "2026-11-02T10:04:59.123Z" = "2026-11-02T10-04-59"%string
  /\
  option_map filename
    (handleExport Current (twoMarkers Current)
       (exportTimestamp "2026-11-02T10:04:59.123Z")) =
  Some "annotated-2026-11-02T10-04-59.png"%string.
Proof.
  apply (proj2 (proj2 (export_timestamp_has_second_resolution
                         "" "2026-11-02" "10" "04" "59" "123"
                         (twoMarkers Current) screenshot)));
    reflexivity.
Defined.

(** ** The 2D-canvas component: coordinates *)

(** X14.  The pointer position is mapped proportionally from the
    displayed rectangle of the canvas onto the canvas: the point a
    fraction [t] across the displayed width and [u] down the displayed
    height lands at [t] times the canvas width and [u] times the canvas
    height, whatever the displayed size and offset; displayed at its own
    size, the canvas position is the client position less the offset. *)
Theorem canvas_point_is_proportional
    (rect : AnnotationCanvas.domRect) (c : size) (t u : R)
    (e : AnnotationCanvas.mouseEvent) :
  (AnnotationCanvas.rect_width rect <> 0 ->
   AnnotationCanvas.rect_height rect <> 0 ->
   AnnotationCanvas.canvasX
     (AnnotationCanvas.mkMouse
        (AnnotationCanvas.left rect + t * AnnotationCanvas.rect_width rect)
        (AnnotationCanvas.top rect + u * AnnotationCanvas.rect_height rect))
     rect c = t * IZR (width c) /\
   AnnotationCanvas.canvasY
     (AnnotationCanvas.mkMouse
        (AnnotationCanvas.left rect + t * AnnotationCanvas.rect_width rect)
        (AnnotationCanvas.top rect + u * AnnotationCanvas.rect_height rect))
     rect c = u * IZR (height c))%R
  /\
  (AnnotationCanvas.rect_width rect = IZR (width c) ->
   AnnotationCanvas.rect_height rect = IZR (height c) ->
   IZR (width c) <> 0 -> IZR (height c) <> 0 ->
   AnnotationCanvas.canvasX e rect c =
   AnnotationCanvas.clientX e - AnnotationCanvas.left rect /\
   AnnotationCanvas.canvasY e rect c =
   AnnotationCanvas.clientY e - AnnotationCanvas.top rect)%R.
Proof.
  unfold AnnotationCanvas.canvasX, AnnotationCanvas.canvasY. simpl.
  split.
  - intros Hw Hh. split; field; assumption.
  - intros Ew Eh Hw Hh. rewrite Ew, Eh. split; field; assumption.
Qed.

Lemma X14_witness :
  (AnnotationCanvas.canvasX
     (AnnotationCanvas.mkMouse (20 + (1 / 2) * 400) (30 + (1 / 4) * 300))
     (AnnotationCanvas.mkRect 20 30 400 300) (mkSize 800 600) =
   (1 / 2) * 800 /\
   AnnotationCanvas.canvasY
     (AnnotationCanvas.mkMouse (20 + (1 / 2) * 400) (30 + (1 / 4) * 300))
     (AnnotationCanvas.mkRect 20 30 400 300) (mkSize 800 600) =
   (1 / 4) * 600)%R.
Proof.
  apply (proj1 (canvas_point_is_proportional
                  (AnnotationCanvas.mkRect 20 30 400 300) (mkSize 800 600)
                  (1 / 2) (1 / 4) (AnnotationCanvas.mkMouse 0 0)));
    simpl; lra.
Defined.

(** ** The 2D-canvas component: export size *)

Lemma plain_step_keeps_canvas (st : AnnotationCanvas.state)
    (img : bitmap) (ev : AnnotationCanvasEvents.event) :
  AnnotationCanvas.image st = Some img ->
  AnnotationCanvas.canvas st =
  Some (mkSize (naturalWidth img) (naturalHeight img)) ->
  AnnotationCanvas.image (AnnotationCanvasEvents.step st ev) = Some img /\
  AnnotationCanvas.canvas (AnnotationCanvasEvents.step st ev) =
  Some (mkSize (naturalWidth img) (naturalHeight img)).
Proof.
  intros Hi Hc. destruct ev as [|t|e rect resp|e rect|e rect|e rect|sel|c];
    simpl.
  - unfold AnnotationCanvas.drawCanvas. rewrite Hc, Hi. now split.
  - now split.
  - unfold AnnotationCanvas.handleCanvasClick. rewrite Hc.
    destruct (AnnotationCanvas.tool st); try (now split).
    destruct resp as [s|]; [|now split]. destruct (truthy s); now split.
  - unfold AnnotationCanvas.handleCanvasMouseDown. rewrite Hc.
    destruct (AnnotationCanvas.tool st); now split.
  - now split.
  - unfold AnnotationCanvas.handleCanvasMouseUp. rewrite Hc.
    destruct (AnnotationCanvas.isDragging st); [|now split].
    destruct (AnnotationCanvas.dragStart st) as [[sx sy]|]; [|now split].
    destruct (AnnotationCanvas.tool st); now split.
  - destruct sel; now split.
  - destruct c; now split.
Qed.

(** X15.  Once the image is drawn, the 2D-canvas component exports at the
    intrinsic size of the image after any sequence of clicks, drags, tool
    changes, deletions, clears and redraws: no handler resizes the
    canvas, and the displayed size plays no part. *)
Theorem plain_export_keeps_the_image_size
    (st : AnnotationCanvas.state) (c : size) (img : bitmap)
    (evs : list AnnotationCanvasEvents.event) (timestamp : string) :
  AnnotationCanvas.canvas st = Some c ->
  AnnotationCanvas.image st = Some img ->
  option_map href
    (AnnotationCanvas.handleExport
       (AnnotationCanvasEvents.run (AnnotationCanvas.drawCanvas st) evs)
       timestamp) =
  Some {| raster_width := naturalWidth img;
          raster_height := naturalHeight img |}.
Proof.
  intros Hc Hi.
  assert (H : forall evs s,
            AnnotationCanvas.image s = Some img ->
            AnnotationCanvas.canvas s =
            Some (mkSize (naturalWidth img) (naturalHeight img)) ->
            AnnotationCanvas.canvas (AnnotationCanvasEvents.run s evs) =
            Some (mkSize (naturalWidth img) (naturalHeight img))).
  { clear. induction evs as [|ev evs IH]; intros s Hi Hc; [exact Hc|].
    simpl. destruct (plain_step_keeps_canvas s img ev Hi Hc) as [Hi' Hc'].
    now apply IH. }
  unfold AnnotationCanvas.handleExport.
  rewrite (H evs (AnnotationCanvas.drawCanvas st)).
  - reflexivity.
  - unfold AnnotationCanvas.drawCanvas. now rewrite Hc, Hi.
  - unfold AnnotationCanvas.drawCanvas. now rewrite Hc, Hi.
Qed.

Lemma X15_witness :
  option_map href
    (AnnotationCanvas.handleExport
       (AnnotationCanvasEvents.run
          (AnnotationCanvas.drawCanvas
             (AnnotationCanvasEvents.mounted screenshot))
          [AnnotationCanvasEvents.Click
             (AnnotationCanvas.mkMouse 40 60)
             (AnnotationCanvas.mkRect 0 0 400 300) (Some "Save"%string);
           AnnotationCanvasEvents.SetTool Rect;
           AnnotationCanvasEvents.MouseDown
             (AnnotationCanvas.mkMouse 10 10)
             (AnnotationCanvas.mkRect 0 0 400 300);
           AnnotationCanvasEvents.MouseUp
             (AnnotationCanvas.mkMouse 90 70)
             (AnnotationCanvas.mkRect 0 0 400 300)])
       "t") =
  Some {| raster_width := 800; raster_height := 600 |}.
Proof.
  apply (plain_export_keeps_the_image_size
           (AnnotationCanvasEvents.mounted screenshot) (mkSize 300 150)
           screenshot);
    reflexivity.
Defined.

(** ** The 2D-canvas component: marker numbers and deletion *)

Lemma between_lower (lo lo' hi : Z) (l : list Z) :
  lo' <= lo -> between lo hi l -> between lo' hi l.
Proof.
  destruct l as [|n l]; simpl; [auto|].
  intros H [Hn Hl]. split; [lia | exact Hl].
Qed.

Lemma between_snoc (lo hi : Z) (l : list Z) :
  lo <= hi -> between lo hi l -> between lo (hi + 1) (l ++ [hi]).
Proof.
  revert lo. induction l as [|n l IH]; simpl; intros lo Hle H.
  - split; [lia | exact I].
  - destruct H as [Hn Hl]. split; [lia|]. apply IH; [lia | exact Hl].
Qed.

Lemma between_tail (lo hi n : Z) (l : list Z) :
  between lo hi (n :: l) -> between lo hi l.
Proof.
  simpl. intros [Hn Hl]. apply (between_lower (n + 1)); [lia | exact Hl].
Qed.

Lemma between_bounds (lo hi : Z) (l : list Z) :
  between lo hi l -> Forall (fun n => lo <= n < hi) l.
Proof.
  revert lo. induction l as [|n l IH]; simpl; intros lo H;
    [constructor|].
  destruct H as [Hn Hl]. constructor; [exact Hn|].
  apply Forall_impl with (2 := IH _ Hl). simpl. intros m Hm. lia.
Qed.

Lemma between_NoDup (lo hi : Z) (l : list Z) : between lo hi l -> NoDup l.
Proof.
  revert lo. induction l as [|n l IH]; simpl; intros lo H;
    [constructor|].
  destruct H as [Hn Hl]. constructor; [|now apply (IH (n + 1))].
  intros Hin. apply between_bounds in Hl. rewrite Forall_forall in Hl.
  specialize (Hl n Hin). lia.
Qed.

Lemma markerNumbers_app (l1 l2 : list AnnotationCanvas.annotation) :
  AnnotationCanvasEvents.markerNumbers (l1 ++ l2) =
  AnnotationCanvasEvents.markerNumbers l1 ++
  AnnotationCanvasEvents.markerNumbers l2.
Proof. apply flat_map_app. Qed.

Lemma between_filterIndex (keep : nat -> bool) (hi : Z)
    (l : list AnnotationCanvas.annotation) :
  forall i lo,
    between lo hi (AnnotationCanvasEvents.markerNumbers l) ->
    between lo hi
      (AnnotationCanvasEvents.markerNumbers
         (AnnotationCanvasEvents.filterIndex keep i l)).
Proof.
  induction l as [|a l IH]; intros i lo H; [exact H|].
  simpl. destruct (keep i).
  - destruct a; simpl in *; try (now apply IH).
    destruct H as [Hn Hl]. split; [exact Hn | now apply IH].
  - apply IH. destruct a; simpl in H; try exact H.
    now apply between_tail in H.
Qed.

Lemma plain_step_numbers (st : AnnotationCanvas.state)
    (ev : AnnotationCanvasEvents.event) :
  1 <= AnnotationCanvas.markerCounter st ->
  between 1 (AnnotationCanvas.markerCounter st)
    (AnnotationCanvasEvents.markerNumbers
       (AnnotationCanvas.annotations st)) ->
  1 <= AnnotationCanvas.markerCounter (AnnotationCanvasEvents.step st ev) /\
  between 1
    (AnnotationCanvas.markerCounter (AnnotationCanvasEvents.step st ev))
    (AnnotationCanvasEvents.markerNumbers
       (AnnotationCanvas.annotations (AnnotationCanvasEvents.step st ev))).
Proof.
  intros Hc Hb.
  destruct ev as [|t|e rect resp|e rect|e rect|e rect|sel|c]; simpl.
  - unfold AnnotationCanvas.drawCanvas.
    destruct (AnnotationCanvas.canvas st); [|now split].
    destruct (AnnotationCanvas.image st); now split.
  - now split.
  - unfold AnnotationCanvas.handleCanvasClick.
    destruct (AnnotationCanvas.canvas st); [|now split].
    destruct (AnnotationCanvas.tool st); try (now split).
    + simpl. split; [lia|]. rewrite markerNumbers_app. simpl.
      now apply between_snoc.
    + destruct resp as [txt|]; [|now split].
      destruct (truthy txt); [|now split].
      simpl. split; [exact Hc|]. rewrite markerNumbers_app. simpl.
      now rewrite app_nil_r.
  - unfold AnnotationCanvas.handleCanvasMouseDown.
    destruct (AnnotationCanvas.tool st); try (now split);
      destruct (AnnotationCanvas.canvas st); now split.
  - now split.
  - unfold AnnotationCanvas.handleCanvasMouseUp.
    destruct (AnnotationCanvas.canvas st); [|now split].
    destruct (AnnotationCanvas.isDragging st); [|now split].
    destruct (AnnotationCanvas.dragStart st) as [[sx sy]|]; [|now split].
    destruct (AnnotationCanvas.tool st); try (now split);
      simpl; (split; [exact Hc|]); rewrite markerNumbers_app; simpl;
      now rewrite app_nil_r.
  - destruct sel as [sel|]; [|now split]. simpl. split; [exact Hc|].
    now apply between_filterIndex.
  - destruct c; [|now split]. simpl. split; [lia | exact I].
Qed.

(** X16.  In the 2D-canvas component a marker takes the value of the
    marker counter, which then grows by one and is reset by a clear only.
    So in every state reached from the mounted component the numbers of
    the markers in the list increase strictly along the list and lie
    between 1 and the counter: no two markers share a number, also after
    entries were deleted, and the next marker's number is larger than
    every number in the list. *)
Theorem plain_marker_numbers_increase
    (img : bitmap) (evs : list AnnotationCanvasEvents.event) :
  1 <= AnnotationCanvas.markerCounter
         (AnnotationCanvasEvents.run
            (AnnotationCanvasEvents.mounted img) evs) /\
  between 1
    (AnnotationCanvas.markerCounter
       (AnnotationCanvasEvents.run (AnnotationCanvasEvents.mounted img) evs))
    (AnnotationCanvasEvents.markerNumbers
       (AnnotationCanvas.annotations
          (AnnotationCanvasEvents.run
             (AnnotationCanvasEvents.mounted img) evs))) /\
  NoDup
    (AnnotationCanvasEvents.markerNumbers
       (AnnotationCanvas.annotations
          (AnnotationCanvasEvents.run
             (AnnotationCanvasEvents.mounted img) evs))).
Proof.
  assert (H : forall evs s,
            1 <= AnnotationCanvas.markerCounter s ->
            between 1 (AnnotationCanvas.markerCounter s)
              (AnnotationCanvasEvents.markerNumbers
                 (AnnotationCanvas.annotations s)) ->
            1 <= AnnotationCanvas.markerCounter
                   (AnnotationCanvasEvents.run s evs) /\
            between 1
              (AnnotationCanvas.markerCounter
                 (AnnotationCanvasEvents.run s evs))
              (AnnotationCanvasEvents.markerNumbers
                 (AnnotationCanvas.annotations
                    (AnnotationCanvasEvents.run s evs)))).
  { clear. induction evs as [|ev evs IH]; intros s Hc Hb; [now split|].
    simpl. destruct (plain_step_numbers s ev Hc Hb) as [Hc' Hb'].
    now apply IH. }
  destruct (H evs (AnnotationCanvasEvents.mounted img)) as [Hc Hb];
    simpl; try lia; auto.
  split; [exact Hc|]. split; [exact Hb|].
  now apply between_NoDup in Hb.
Qed.

Lemma filterIndex_past {A : Type} (sel : nat) (l : list A) :
  forall i,
    (sel < i)%nat ->
    AnnotationCanvasEvents.filterIndex
      (fun index => negb (index =? sel)%nat) i l = l.
Proof.
  induction l as [|a l IH]; intros i Hi; [reflexivity|].
  simpl. destruct (Nat.eqb_spec i sel) as [E | _]; [lia|].
  simpl. f_equal. apply IH. lia.
Qed.

Lemma filterIndex_removes {A : Type} (sel : nat) (l : list A) :
  forall i,
    (i <= sel)%nat ->
    AnnotationCanvasEvents.filterIndex
      (fun index => negb (index =? sel)%nat) i l =
    firstn (sel - i) l ++ skipn (S (sel - i)) l.
Proof.
  induction l as [|a l IH]; intros i Hi.
  - simpl. now rewrite firstn_nil.
  - simpl. destruct (Nat.eqb_spec i sel) as [-> | Hne]; simpl.
    + rewrite Nat.sub_diag. simpl. apply filterIndex_past. lia.
    + replace (sel - i)%nat with (S (sel - S i)) by lia. simpl.
      f_equal. apply IH. lia.
Qed.

(** X17.  [handleDelete] removes exactly the entry at the selected index
    and keeps the others in order; with no selection, or an index past
    the end of the list, the list is unchanged.  The marker counter is
    never touched, so the numbers of the remaining markers stay and a
    deleted number is not given out again. *)
Theorem delete_removes_exactly_the_selected_entry
    (st : AnnotationCanvas.state) (sel : nat) :
  AnnotationCanvas.annotations
    (AnnotationCanvasEvents.handleDelete st (Some sel)) =
  firstn sel (AnnotationCanvas.annotations st) ++
  skipn (S sel) (AnnotationCanvas.annotations st) /\
  ((List.length (AnnotationCanvas.annotations st) <= sel)%nat ->
   AnnotationCanvas.annotations
     (AnnotationCanvasEvents.handleDelete st (Some sel)) =
   AnnotationCanvas.annotations st) /\
  ((sel < List.length (AnnotationCanvas.annotations st))%nat ->
   S (List.length
        (AnnotationCanvas.annotations
           (AnnotationCanvasEvents.handleDelete st (Some sel)))) =
   List.length (AnnotationCanvas.annotations st)) /\
  AnnotationCanvas.markerCounter
    (AnnotationCanvasEvents.handleDelete st (Some sel)) =
  AnnotationCanvas.markerCounter st /\
  AnnotationCanvasEvents.handleDelete st None = st.
Proof.
  assert (E : AnnotationCanvas.annotations
                (AnnotationCanvasEvents.handleDelete st (Some sel)) =
              firstn sel (AnnotationCanvas.annotations st) ++
              skipn (S sel) (AnnotationCanvas.annotations st)).
  { simpl. rewrite (filterIndex_removes sel _ 0) by lia.
    now rewrite Nat.sub_0_r. }
  split; [exact E|]. split; [|split; [|split; reflexivity]].
  - intros Hlen. rewrite E, firstn_all2, skipn_all2 by lia.
    apply app_nil_r.
  - intros Hlt. rewrite E, length_app, length_firstn, length_skipn. lia.
Qed.

Lemma X17_witness :
  AnnotationCanvas.annotations
    (AnnotationCanvasEvents.handleDelete
       (AnnotationCanvas.setAnnotations
          (AnnotationCanvasEvents.mounted screenshot)
          [AnnotationCanvas.TextA 1 1 "a"; AnnotationCanvas.TextA 2 2 "b"])
       (Some 5%nat)) =
  [AnnotationCanvas.TextA 1 1 "a"; AnnotationCanvas.TextA 2 2 "b"].
Proof.
  apply (proj1 (proj2 (delete_removes_exactly_the_selected_entry
                         (AnnotationCanvas.setAnnotations
                            (AnnotationCanvasEvents.mounted screenshot)
                            [AnnotationCanvas.TextA 1 1 "a";
                             AnnotationCanvas.TextA 2 2 "b"])
                         5))).
  simpl. lia.
Defined.

(** ** The 2D-canvas component: drags *)

(** X18.  The 2D-canvas component has no minimum-size test: with the
    rect or the circle tool, every pointer-down followed by a pointer-up
    appends exactly one shape and ends the drag.  A press and release at
    one place appends a rect of width and height 0, or a circle of
    radius 0, at that place. *)
Theorem plain_drag_always_commits
    (st : AnnotationCanvas.state) (c : size)
    (e1 e2 : AnnotationCanvas.mouseEvent)
    (rect1 rect2 : AnnotationCanvas.domRect) :
  AnnotationCanvas.canvas st = Some c ->
  AnnotationCanvas.tool st = Rect \/ AnnotationCanvas.tool st = Circle ->
  exists a,
    AnnotationCanvas.annotations
      (AnnotationCanvas.handleCanvasMouseUp
         (AnnotationCanvas.handleCanvasMouseDown st e1 rect1) e2 rect2) =
    AnnotationCanvas.annotations st ++ [a] /\
    AnnotationCanvas.isDragging
      (AnnotationCanvas.handleCanvasMouseUp
         (AnnotationCanvas.handleCanvasMouseDown st e1 rect1) e2 rect2) =
    false /\
    (e2 = e1 -> rect2 = rect1 ->
     (AnnotationCanvas.tool st = Rect ->
      a = AnnotationCanvas.RectA
            (AnnotationCanvas.canvasX e1 rect1 c)
            (AnnotationCanvas.canvasY e1 rect1 c) 0 0) /\
     (AnnotationCanvas.tool st = Circle ->
      a = AnnotationCanvas.CircleA
            (AnnotationCanvas.canvasX e1 rect1 c)
            (AnnotationCanvas.canvasY e1 rect1 c) 0)).
Proof.
  intros Hc Ht.
  unfold AnnotationCanvas.handleCanvasMouseDown,
    AnnotationCanvas.handleCanvasMouseUp.
  destruct Ht as [E | E]; rewrite E, Hc; simpl; rewrite Hc, E;
    eexists; (split; [reflexivity|]); (split; [reflexivity|]);
    intros -> ->; split; intros E'; try discriminate.
  - rewrite Rmin_left, Rmin_left by apply Rle_refl.
    unfold Rminus. rewrite !Rplus_opp_r, Rabs_R0. reflexivity.
  - repeat match goal with
           | |- context [sqrt ?t] =>
               progress (replace t with 0%R by ring)
           end.
    rewrite sqrt_0. f_equal; ring.
Qed.

Lemma X18_witness :
  exists a,
    AnnotationCanvas.annotations
      (AnnotationCanvas.handleCanvasMouseUp
         (AnnotationCanvas.handleCanvasMouseDown (plainLoaded Rect)
            (AnnotationCanvas.mkMouse 50 50) shownAtOwnSize)
         (AnnotationCanvas.mkMouse 50 50) shownAtOwnSize) =
    [] ++ [a] /\
    a = AnnotationCanvas.RectA
          (AnnotationCanvas.canvasX (AnnotationCanvas.mkMouse 50 50)
             shownAtOwnSize (mkSize 800 600))
          (AnnotationCanvas.canvasY (AnnotationCanvas.mkMouse 50 50)
             shownAtOwnSize (mkSize 800 600)) 0 0.
Proof.
  destruct (plain_drag_always_commits (plainLoaded Rect) (mkSize 800 600)
              (AnnotationCanvas.mkMouse 50 50)
              (AnnotationCanvas.mkMouse 50 50)
              shownAtOwnSize shownAtOwnSize eq_refl
              (or_introl eq_refl)) as [a [Ha [_ Hz]]].
  exists a. split; [exact Ha|].
  now apply (proj1 (Hz eq_refl eq_refl)).
Defined.

(** ** Ids and types *)

Lemma mkId_Current_inj (t t' : toolId) (n n' : Z) :
  mkId Current t n = mkId Current t' n' -> t = t' /\ n = n'.
Proof.
  intros H. split; [|now apply (mkId_inj Current t t')].
  simpl in H. injection H as H.
  destruct t, t'; simpl in H; try reflexivity; discriminate.
Qed.

(** X19.  In the current revision the id carries the type: in every
    state reached from the initial one, two list entries with the same id
    have the same type, whatever the clock reads, so a drag end never
    turns an entry into one of another type.  The ids of the earlier
    revision are the bare clock reading: annotations of different types
    created at one reading get the same id. *)
Theorem current_ids_carry_the_type
    (evs : list event) (a b : annotation) (t t' : toolId) (n : Z) :
  (In a (annotations (run Current (init Current) evs)) ->
   In b (annotations (run Current (init Current) evs)) ->
   ann_id a = ann_id b -> ann_type a = ann_type b)
  /\
  mkId Earlier t n = mkId Earlier t' n.
Proof.
  split; [|reflexivity].
  intros Ha Hb E.
  assert (Hwf := reachable_entries_wellFormed Current evs).
  rewrite Forall_forall in Hwf.
  destruct (Hwf a Ha) as [[na Ea] _]. destruct (Hwf b Hb) as [[nb Eb] _].
  rewrite Ea, Eb in E. now apply mkId_Current_inj in E.
Qed.

Lemma X19_witness :
  ann_type (rectOf (IdString "rect-1700000000001") 10 10 90 70) =
  ann_type (rectOf (IdString "rect-1700000000001") 920 100 80 60).
Proof.
  apply (proj1 (current_ids_carry_the_type
                  ([LoadImage screenshot viewport; SetTool Rect] ++
                   dragSequence (mkPoint 10 10) None 1700000000000
                     [mkPoint 100 80] 1700000000001 ++
                   dragSequence (mkPoint 920 100) None 1700000000001
                     [mkPoint 1000 160] 1700000000001)
                  (rectOf (IdString "rect-1700000000001") 10 10 90 70)
                  (rectOf (IdString "rect-1700000000001") 920 100 80 60)
                  Rect Rect 0)).
  - left. reflexivity.
  - right. left. reflexivity.
  - reflexivity.
Defined.

(** ** The direction of a rect drag *)

Lemma rect_drag_equation (r : revision) (st : state) (im : bitmap)
    (p0 c : point) (response : option string) (now0 : Z)
    (moves : list point) (now : Z) :
  image st = Some im ->
  tool st = Rect ->
  annotations (run r st (dragSequence p0 response now0 (moves ++ [c]) now)) =
  annotations st ++
  (if (threshold r <? Z.abs (px c - px p0))
      && (threshold r <? Z.abs (py c - py p0))
   then [rectOf (mkId r Rect now)
           (Z.min (px c) (px p0)) (Z.min (py c) (py p0))
           (Z.abs (px c - px p0)) (Z.abs (py c - py p0))]
   else []).
Proof.
  intros Him Ht.
  destruct (drag_last_move r st im p0 response now0 moves c Him
              (or_introl Ht)) as [ts [Hp [Hty [_ [_ [Hr _]]]]]].
  destruct (Hr Ht) as [Ex [Ey [Ew Eh]]].
  unfold dragSequence. rewrite run_snoc.
  unfold previewing in Hp. rewrite Hp. simpl. rewrite Him.
  unfold handleStageMouseUp. simpl.
  rewrite Hty, Ht, Ew, Eh, Ex, Ey. simpl.
  destruct ((threshold r <? Z.abs (px c - px p0))
            && (threshold r <? Z.abs (py c - py p0))); simpl;
    [reflexivity | now rewrite app_nil_r].
Qed.

(** X20.  The rect a drag commits does not depend on the direction of
    the drag: dragging from [p] to [q] and dragging from [q] to [p]
    leave the same annotation list (the same rect, or none when the
    extent is below the threshold).  The rect a drag commits has its
    left and top edges at the smaller coordinates of the two points and
    its right and bottom edges, [x + width] and [y + height], at the
    larger ones. *)
Theorem rect_drag_is_direction_independent
    (r : revision) (st : state) (im : bitmap) (p q : point)
    (response : option string) (now0 now : Z) :
  image st = Some im ->
  tool st = Rect ->
  annotations (run r st (dragSequence p response now0 [q] now)) =
  annotations (run r st (dragSequence q response now0 [p] now)) /\
  forall a,
    annotations (run r st (dragSequence p response now0 [q] now)) =
    annotations st ++ [a] ->
    exists x y w h,
      ann_x a = Some x /\ ann_y a = Some y /\
      ann_width a = Some w /\ ann_height a = Some h /\
      x = Z.min (px p) (px q) /\ y = Z.min (py p) (py q) /\
      x + w = Z.max (px p) (px q) /\ y + h = Z.max (py p) (py q).
Proof.
  intros Him Ht.
  assert (H1 := rect_drag_equation r st im p q response now0 [] now
                  Him Ht).
  assert (H2 := rect_drag_equation r st im q p response now0 [] now
                  Him Ht).
  cbn [app] in H1, H2. split.
  - rewrite H1, H2.
    replace (Z.abs (px p - px q)) with (Z.abs (px q - px p)) by lia.
    replace (Z.abs (py p - py q)) with (Z.abs (py q - py p)) by lia.
    now rewrite (Z.min_comm (px p)), (Z.min_comm (py p)).
  - intros a Ha. rewrite H1 in Ha. apply app_inv_head in Ha.
    destruct ((threshold r <? Z.abs (px q - px p))
              && (threshold r <? Z.abs (py q - py p)));
      [|discriminate].
    injection Ha as <-.
    exists (Z.min (px q) (px p)), (Z.min (py q) (py p)),
           (Z.abs (px q - px p)), (Z.abs (py q - py p)).
    simpl. repeat split; lia.
Qed.

Lemma X20_witness :
  annotations
    (run Current (loaded Current Rect)
       (dragSequence (mkPoint 100 80) None 0 [mkPoint 10 10] 1)) =
  annotations
    (run Current (loaded Current Rect)
       (dragSequence (mkPoint 10 10) None 0 [mkPoint 100 80] 1)) /\
  exists x y w h,
    ann_x (rectOf (IdString "rect-1") 10 10 90 70) = Some x /\
    ann_y (rectOf (IdString "rect-1") 10 10 90 70) = Some y /\
    ann_width (rectOf (IdString "rect-1") 10 10 90 70) = Some w /\
    ann_height (rectOf (IdString "rect-1") 10 10 90 70) = Some h /\
    x = Z.min 100 10 /\ y = Z.min 80 10 /\
    x + w = Z.max 100 10 /\ y + h = Z.max 80 10.
Proof.
  split.
  - apply (proj1 (rect_drag_is_direction_independent Current
                    (loaded Current Rect) screenshot (mkPoint 100 80)
                    (mkPoint 10 10) None 0 1 eq_refl eq_refl)).
  - apply (proj2 (rect_drag_is_direction_independent Current
                    (loaded Current Rect) screenshot (mkPoint 100 80)
                    (mkPoint 10 10) None 0 1 eq_refl eq_refl)).
    reflexivity.
Defined.

(** ** The image on a resized stage *)

(** X21.  In the current revision the base image is centred in the stage
    while the annotations keep their stage coordinates: when the
    container is resized the image moves by half the change of size and
    the annotation list is untouched, so the annotations shift relative
    to the image.  The earlier revision draws the image at the origin of
    the stage, before and after a resize. *)
Theorem resize_moves_the_image_not_the_annotations
    (st : state) (img : bitmap) (d : size) :
  image st = Some img ->
  annotations (step Current st (Resize d)) = annotations st /\
  (exists x y,
     imagePosition Current st = Some (x, y) /\
     imagePosition Current (step Current st (Resize d)) =
     Some (x + IZR (width d - width (dimensions st)) / 2,
           y + IZR (height d - height (dimensions st)) / 2)%R) /\
  imagePosition Earlier st = Some (0, 0)%R /\
  imagePosition Earlier (step Earlier st (Resize d)) = Some (0, 0)%R.
Proof.
  intros Him. simpl. rewrite Him. split; [reflexivity|].
  unfold imagePosition. simpl. rewrite Him. split; [|now split].
  do 2 eexists. split; [reflexivity|]. simpl.
  f_equal. rewrite !minus_IZR. f_equal; field.
Qed.

Lemma X21_witness :
  annotations
    (step Current (twoMarkers Current) (Resize (mkSize 1224 968))) =
  annotations (twoMarkers Current).
Proof.
  apply (resize_moves_the_image_not_the_annotations (twoMarkers Current)
           screenshot (mkSize 1224 968)).
  reflexivity.
Defined.

(** ** Where the scenarios press *)

(** [handleStageMouseDown] acts on a pointer-down whose target is the
    stage itself, not the image or an annotation.  In the 1024 by 768
    stage the 800 by 600 image of the current revision has its corner
    at (112, 84): the twin rects are begun at (10, 10), left of the
    image, and at (920, 100), right of it, and the second press is also
    clear of the first rect, which ends at x = 100. *)
Example scenario_twin_rects_begin_beside_the_image :
  exists x0 y0 : R,
    imagePosition Current (loaded Current Rect) = Some (x0, y0) /\
    (x0 = 112 /\ y0 = 84)%R /\
    (IZR 10 < x0)%R /\
    (x0 + IZR (naturalWidth screenshot) < IZR 920)%R /\
    nth_error (annotations twinRects) 0 =
    Some (rectOf (IdString "rect-1700000000001") 10 10 90 70) /\
    nth_error (annotations twinRects) 1 =
    Some (rectOf (IdString "rect-1700000000001") 920 100 80 60).
Proof.
  do 2 eexists. split; [reflexivity|].
  change (naturalWidth screenshot) with 800.
  change (width (dimensions (loaded Current Rect))) with 1024.
  change (height (dimensions (loaded Current Rect))) with 768.
  change (naturalWidth screenshot) with 800.
  change (naturalHeight screenshot) with 600.
  simpl Z.sub.
  repeat split; try reflexivity; lra.
Qed.
